(** * CWU50 MIPI-DSI panel drivers: lifecycle sequencing

    A shallow embedding of the two ClockworkPi uConsole panel drivers

      - drivers/gpu/drm/panel/panel-clockwork-cwu50.c  (module [Clockwork])
      - drivers/gpu/drm/panel/panel-cw-cwu50.c         (module [Cw])

    Every kernel service a driver calls (regulators, the reset GPIO, sleeps,
    the DSI command transport) is an [action]; a driver function is a
    state-passing computation over a [machine] that holds the driver's
    [struct cwu50_panel], the chronological trace of the calls made so far,
    each with the value it returned, and the kernel log.  The values returned
    by the kernel services are chosen by a [world], which sees the whole
    history, so the theorems hold for every behaviour of the hardware. *)

From Stdlib Require Import ZArith String List Bool Lia.
Import ListNotations.
Open Scope Z_scope.

(** ** The kernel interface *)

(** An opaque kernel object: a [struct regulator *], a [struct gpio_desc *]
    or a [struct mipi_dsi_device *]. *)
Definition handle := nat.

(** [enum mipi_dsi_dcs_tear_mode] of include/drm/drm_mipi_dsi.h. *)
Inductive mipi_dsi_dcs_tear_mode :=
| MIPI_DSI_DCS_TEAR_MODE_VBLANK
| MIPI_DSI_DCS_TEAR_MODE_VHBLANK.

(** The calls the drivers make on the hardware, with their arguments. *)
Inductive action :=
| RegulatorEnable (r : handle)
| RegulatorDisable (r : handle)
| GpiodSetValue (g : handle) (value : Z)
| UsleepRange (min max : Z)
| Msleep (msecs : Z)
| DcsWriteBuffer (dsi : handle) (data : list Z) (len : Z)
| DcsExitSleepMode (dsi : handle)
| DcsEnterSleepMode (dsi : handle)
| DcsSetDisplayOn (dsi : handle)
| DcsSetDisplayOff (dsi : handle)
| DcsSetTearOn (dsi : handle) (mode : mipi_dsi_dcs_tear_mode).

(** A call together with the value the driver received from it, as stored in
    its [int ret]; calls that return [void] are recorded with 0. *)
Definition event := (action * Z)%type.

(** The hardware and the kernel behind it: the value a call returns, given
    everything that happened before. *)
Definition world := list event -> action -> Z.

Inductive log_level := KERN_DEBUG | KERN_ERR | KERN_ERR_RATELIMITED.

Record log_msg := Log { level : log_level; fmt : string; args : list Z }.

(** Both source files declare [struct cwu50_init_cmd] with the same text:
    [u8 data[CWU50_INIT_CMD_LEN]] with [CWU50_INIT_CMD_LEN] equal to 2. *)
Definition CWU50_INIT_CMD_LEN : Z := 2.

Record cwu50_init_cmd := { data : list Z }.

Definition cmd (reg val : Z) : cwu50_init_cmd := {| data := [reg; val] |}.

(** ** Machines and computations *)

Record machine (P : Type) := Machine {
  ctx : P;
  trace : list event;
  klog : list log_msg
}.
Arguments Machine {P} _ _ _.
Arguments ctx {P} _.
Arguments trace {P} _.
Arguments klog {P} _.

Definition M (P A : Type) : Type := machine P -> A * machine P.

Definition Return {P A} (a : A) : M P A := fun m => (a, m).

Definition bind {P A B} (c : M P A) (k : A -> M P B) : M P B :=
  fun m => let (a, m') := c m in k a m'.

Notation "x <- c1 ;; c2" := (bind c1 (fun x => c2))
  (at level 61, c1 at next level, right associativity).
Notation "c1 ;; c2" := (bind c1 (fun _ => c2))
  (at level 61, right associativity).

Section Primitives.
Context {P : Type}.

Definition get_ctx : M P P := fun m => (ctx m, m).

Definition set_ctx (c : P) : M P unit :=
  fun m => (tt, Machine c (trace m) (klog m)).

(** A call whose result the world decides. *)
Definition call (w : world) (a : action) : M P Z :=
  fun m => let r := w (trace m) a in
           (r, Machine (ctx m) (trace m ++ [(a, r)]) (klog m)).

(** A call that returns nothing. *)
Definition call_void (a : action) : M P unit :=
  fun m => (tt, Machine (ctx m) (trace m ++ [(a, 0)]) (klog m)).

Definition printk (l : log_level) (f : string) (xs : list Z) : M P unit :=
  fun m => (tt, Machine (ctx m) (trace m) (klog m ++ [Log l f xs])).

Definition dev_dbg (f : string) : M P unit := printk KERN_DEBUG f [].
Definition dev_err (f : string) (xs : list Z) : M P unit := printk KERN_ERR f xs.
Definition dev_err_ratelimited (f : string) (xs : list Z) : M P unit :=
  printk KERN_ERR_RATELIMITED f xs.

Definition regulator_enable (w : world) (r : handle) : M P Z :=
  call w (RegulatorEnable r).
Definition regulator_disable (w : world) (r : handle) : M P Z :=
  call w (RegulatorDisable r).
Definition gpiod_set_value_cansleep (g : handle) (value : Z) : M P unit :=
  call_void (GpiodSetValue g value).
Definition usleep_range (min max : Z) : M P unit := call_void (UsleepRange min max).
Definition msleep (msecs : Z) : M P unit := call_void (Msleep msecs).
Definition mipi_dsi_dcs_write_buffer (w : world) (d : handle) (buf : list Z) (len : Z)
  : M P Z := call w (DcsWriteBuffer d buf len).
Definition mipi_dsi_dcs_exit_sleep_mode (w : world) (d : handle) : M P Z :=
  call w (DcsExitSleepMode d).
Definition mipi_dsi_dcs_enter_sleep_mode (w : world) (d : handle) : M P Z :=
  call w (DcsEnterSleepMode d).
Definition mipi_dsi_dcs_set_display_on (w : world) (d : handle) : M P Z :=
  call w (DcsSetDisplayOn d).
Definition mipi_dsi_dcs_set_display_off (w : world) (d : handle) : M P Z :=
  call w (DcsSetDisplayOff d).
Definition mipi_dsi_dcs_set_tear_on (w : world) (d : handle)
  (mode : mipi_dsi_dcs_tear_mode) : M P Z := call w (DcsSetTearOn d mode).

(** [for (i = 0; i < ARRAY_SIZE(xs); i++) body(xs[i])], where the body may
    leave the enclosing function with [return v] ([Some v]) or fall through
    to the next iteration ([None]). *)
Fixpoint for_each {X} (xs : list X) (body : X -> M P (option Z)) : M P (option Z) :=
  match xs with
  | [] => Return None
  | x :: rest =>
      r <- body x ;;
      match r with
      | Some v => Return (Some v)
      | None => for_each rest body
      end
  end.
End Primitives.

(** The four lifecycle callbacks of [struct drm_panel_funcs]. *)
Inductive drm_panel_func := Prepare | Enable | Disable | Unprepare.

(** ** panel-clockwork-cwu50.c *)
Module Clockwork.

(** [struct cwu50_panel]; the embedded [struct drm_panel] is the framework's
    and none of the lifecycle callbacks touches it. *)
Record cwu50_panel := {
  dsi : handle;
  vci : handle;
  iovcc : handle;
  reset_gpio : handle;
  orientation : Z
}.

Definition cwu50_panel_init_cmds : list cwu50_init_cmd := [
    (* Switch to page 0 *)
    cmd 0xE0 0x00;

    (* Unlock programming registers *)
    cmd 0xE1 0x93;
    cmd 0xE2 0x65;
    cmd 0xE3 0xF8;

    (* Sequence control? *)
    cmd 0x70 0x20;
    cmd 0x71 0x13;
    cmd 0x72 0x06;
    (* Set lane count (lanes = <val> + 1) *)
    cmd 0x75 0x03;

    (* Switch to page 1 *)
    cmd 0xE0 0x01;

    (* Set VCOM *)
    cmd 0x00 0x00;
    cmd 0x01 0x47;
    (* Set VCOM_Reverse *)
    cmd 0x03 0x00;
    cmd 0x04 0x4D;

    (* Set PMIC charge pump clock *)
    cmd 0x0C 0x64;

    (* Set Gamma voltage, VG[MS][PN] *)
    cmd 0x17 0x00;
    cmd 0x18 0xBF;
    cmd 0x19 0x00;
    cmd 0x1A 0x00;
    cmd 0x1B 0xBF;
    cmd 0x1C 0x00;

    (* Set GATE_POWER *)
    cmd 0x1F 0x7E; (* VGH_REG *)
    cmd 0x20 0x24; (* VGL_REG *)
    cmd 0x21 0x24; (* VGL_REG2 *)
    cmd 0x22 0x4E; (* Enable VG[LH] regulators *)
    cmd 0x24 0xFE; (* Enable DCDCs *)

    (* SETPANEL *)
    cmd 0x37 0x09; (* SS = 1, BGR = 1 *)

    (* SETRGBCYC *)
    cmd 0x38 0x04; (* Waveform mode *)
    cmd 0x3C 0x76; (* RGB_N_EQ3 *)
    cmd 0x3D 0xFF; (* CHGEN_ON *)
    cmd 0x3E 0xFF; (* CHGEN_OFF *)
    cmd 0x3F 0x7F; (* CHGEN_OFF2 *)

    (* SET_TCON *)
    cmd 0x40 0x04; (* RSO, 0x04=720 0x05=768, 0x06=800 *)
    cmd 0x41 0xA0; (* LN[9:2], 0xA0 = 1280 *)
    cmd 0x44 0x11; (* VBP, 0x11 lines *)

    (* Set power mode and charge pump settings *)
    cmd 0x55 0x02; (* Power mode *)
    cmd 0x56 0x01; (* AVDD charge pump ratio *)
    cmd 0x57 0x49; (* VGH/VGL/VCL pump ratios *)
    cmd 0x58 0x09; (* AVDD voltage clamp *)
    cmd 0x59 0x2A; (* AVEE voltage clamp *)
    cmd 0x5A 0x1A; (* VGH voltage clamp *)
    cmd 0x5B 0x1A; (* VGL voltage clamp *)

    (* Set gamma output voltages *)
    cmd 0x5D 0x78;
    cmd 0x5E 0x6E;
    cmd 0x5F 0x66;
    cmd 0x60 0x5E;
    cmd 0x61 0x60;
    cmd 0x62 0x54;
    cmd 0x63 0x5C;
    cmd 0x64 0x47;
    cmd 0x65 0x5F;
    cmd 0x66 0x5D;
    cmd 0x67 0x5B;
    cmd 0x68 0x76;
    cmd 0x69 0x61;
    cmd 0x6A 0x63;
    cmd 0x6B 0x50;
    cmd 0x6C 0x45;
    cmd 0x6D 0x34;
    cmd 0x6E 0x1C;
    cmd 0x6F 0x07;
    cmd 0x70 0x78;
    cmd 0x71 0x6E;
    cmd 0x72 0x66;
    cmd 0x73 0x5E;
    cmd 0x74 0x60;
    cmd 0x75 0x54;
    cmd 0x76 0x5C;
    cmd 0x77 0x47;
    cmd 0x78 0x5F;
    cmd 0x79 0x5D;
    cmd 0x7A 0x5B;
    cmd 0x7B 0x76;
    cmd 0x7C 0x61;
    cmd 0x7D 0x63;
    cmd 0x7E 0x50;
    cmd 0x7F 0x45;
    cmd 0x80 0x34;
    cmd 0x81 0x1C;
    cmd 0x82 0x07;

    (* Switch to page 2 for GIP *)
    cmd 0xE0 0x02;

    (* GIP_L pin mapping *)
    cmd 0x00 0x44;
    cmd 0x01 0x46;
    cmd 0x02 0x48;
    cmd 0x03 0x4A;
    cmd 0x04 0x40;
    cmd 0x05 0x42;
    cmd 0x06 0x1F;
    cmd 0x07 0x1F;
    cmd 0x08 0x1F;
    cmd 0x09 0x1F;
    cmd 0x0A 0x1F;
    cmd 0x0B 0x1F;
    cmd 0x0C 0x1F;
    cmd 0x0D 0x1F;
    cmd 0x0E 0x1F;
    cmd 0x0F 0x1F;
    cmd 0x10 0x1F;
    cmd 0x11 0x1F;
    cmd 0x12 0x1F;
    cmd 0x13 0x1F;
    cmd 0x14 0x1E;
    cmd 0x15 0x1F;

    (* GIP_R pin mapping *)
    cmd 0x16 0x45;
    cmd 0x17 0x47;
    cmd 0x18 0x49;
    cmd 0x19 0x4B;
    cmd 0x1A 0x41;
    cmd 0x1B 0x43;
    cmd 0x1C 0x1F;
    cmd 0x1D 0x1F;
    cmd 0x1E 0x1F;
    cmd 0x1F 0x1F;
    cmd 0x20 0x1F;
    cmd 0x21 0x1F;
    cmd 0x22 0x1F;
    cmd 0x23 0x1F;
    cmd 0x24 0x1F;
    cmd 0x25 0x1F;
    cmd 0x26 0x1F;
    cmd 0x27 0x1F;
    cmd 0x28 0x1F;
    cmd 0x29 0x1F;
    cmd 0x2A 0x1E;
    cmd 0x2B 0x1F;

    (* GIP_L_GS pin mapping *)
    cmd 0x2C 0x0B;
    cmd 0x2D 0x09;
    cmd 0x2E 0x07;
    cmd 0x2F 0x05;
    cmd 0x30 0x03;
    cmd 0x31 0x01;
    cmd 0x32 0x1F;
    cmd 0x33 0x1F;
    cmd 0x34 0x1F;
    cmd 0x35 0x1F;
    cmd 0x36 0x1F;
    cmd 0x37 0x1F;
    cmd 0x38 0x1F;
    cmd 0x39 0x1F;
    cmd 0x3A 0x1F;
    cmd 0x3B 0x1F;
    cmd 0x3C 0x1F;
    cmd 0x3D 0x1F;
    cmd 0x3E 0x1F;
    cmd 0x3F 0x1F;
    cmd 0x40 0x1F;
    cmd 0x41 0x1E;

    (* GIP_R_GS pin mapping *)
    cmd 0x42 0x0A;
    cmd 0x43 0x08;
    cmd 0x44 0x06;
    cmd 0x45 0x04;
    cmd 0x46 0x02;
    cmd 0x47 0x00;
    cmd 0x48 0x1F;
    cmd 0x49 0x1F;
    cmd 0x4A 0x1F;
    cmd 0x4B 0x1F;
    cmd 0x4C 0x1F;
    cmd 0x4D 0x1F;
    cmd 0x4E 0x1F;
    cmd 0x4F 0x1F;
    cmd 0x50 0x1F;
    cmd 0x51 0x1F;
    cmd 0x52 0x1F;
    cmd 0x53 0x1F;
    cmd 0x54 0x1F;
    cmd 0x55 0x1F;
    cmd 0x56 0x1F;
    cmd 0x57 0x1E;

    (* GIP timing *)
    cmd 0x58 0x40;
    cmd 0x59 0x00;
    cmd 0x5A 0x00;
    cmd 0x5B 0x30;
    cmd 0x5C 0x02;
    cmd 0x5D 0x40;
    cmd 0x5E 0x01;
    cmd 0x5F 0x02;
    cmd 0x60 0x00;
    cmd 0x61 0x01;
    cmd 0x62 0x02;
    cmd 0x63 0x65;
    cmd 0x64 0x66;
    cmd 0x65 0x00;
    cmd 0x66 0x00;
    cmd 0x67 0x74;
    cmd 0x68 0x06;
    cmd 0x69 0x65;
    cmd 0x6A 0x66;
    cmd 0x6B 0x10;
    cmd 0x6C 0x00;
    cmd 0x6D 0x04;
    cmd 0x6E 0x04;
    cmd 0x6F 0x88;
    cmd 0x70 0x00;
    cmd 0x71 0x00;
    cmd 0x72 0x06;
    cmd 0x73 0x7B;
    cmd 0x74 0x00;
    cmd 0x75 0x87;
    cmd 0x76 0x00;
    cmd 0x77 0x5D;
    cmd 0x78 0x17;
    cmd 0x79 0x1F;
    cmd 0x7A 0x00;
    cmd 0x7B 0x00;
    cmd 0x7C 0x00;
    cmd 0x7D 0x03;
    cmd 0x7E 0x7B;

    (* Switch to page 4 *)
    cmd 0xE0 0x04;
    (* Configure ESD *)
    cmd 0x09 0x10;

    (* Switch back to page 0 *)
    cmd 0xE0 0x00;
    (* Enable watchdog *)
    cmd 0xE6 0x02;
    cmd 0xE7 0x02
].

Definition cwu50_reset : M cwu50_panel unit :=
  ctx <- get_ctx ;;
  dev_dbg "Resetting panel\n" ;;
  gpiod_set_value_cansleep (reset_gpio ctx) 1 ;;
  usleep_range 5000 10000 ;;
  gpiod_set_value_cansleep (reset_gpio ctx) 0 ;;
  usleep_range 1000 10000 ;;
  gpiod_set_value_cansleep (reset_gpio ctx) 1 ;;
  usleep_range 10000 20000.

(** The body of the loop of [cwu50_init_sequence]. *)
Definition send_init_cmd (w : world) (d : handle) (c : cwu50_init_cmd)
  : M cwu50_panel (option Z) :=
  ret <- mipi_dsi_dcs_write_buffer w d (data c) CWU50_INIT_CMD_LEN ;;
  if ret <? 0 then
    dev_err_ratelimited "sending command %#02x failed: %d\n" [nth 0 (data c) 0; ret] ;;
    Return (Some ret)
  else Return None.

Definition cwu50_init_sequence (w : world) : M cwu50_panel Z :=
  ctx <- get_ctx ;;
  dev_dbg "Sending initialization sequence\n" ;;
  r <- for_each cwu50_panel_init_cmds (send_init_cmd w (dsi ctx)) ;;
  match r with
  | Some ret => Return ret
  | None => Return 0
  end.

(** The labels [disable_iovcc] and [disable_vci] of [cwu50_prepare]. *)
Definition disable_iovcc (w : world) (ret : Z) : M cwu50_panel Z :=
  ctx <- get_ctx ;;
  regulator_disable w (iovcc ctx) ;;
  Return ret.

Definition disable_vci (w : world) (ret : Z) : M cwu50_panel Z :=
  ctx <- get_ctx ;;
  regulator_disable w (vci ctx) ;;
  usleep_range 5000 20000 ;;
  disable_iovcc w ret.

Definition cwu50_prepare (w : world) : M cwu50_panel Z :=
  ctx <- get_ctx ;;
  dev_dbg "Enabling regulators\n" ;;
  ret <- regulator_enable w (iovcc ctx) ;;
  if ret <? 0 then
    dev_err "Failed to enable iovcc supply: %d\n" [ret] ;;
    Return ret
  else
    usleep_range 1000 5000 ;;
    ret <- regulator_enable w (vci ctx) ;;
    if ret <? 0 then
      dev_err "Failed to enable vci supply: %d\n" [ret] ;;
      disable_iovcc w ret
    else
      cwu50_reset ;;
      ret <- cwu50_init_sequence w ;;
      if ret <? 0 then
        dev_err "Failed to initialize panel: %d\n" [ret] ;;
        gpiod_set_value_cansleep (reset_gpio ctx) 0 ;;
        usleep_range 10000 20000 ;;
        disable_vci w ret
      else Return 0.

Definition cwu50_enable (w : world) : M cwu50_panel Z :=
  ctx <- get_ctx ;;
  dev_dbg "Exiting sleep mode\n" ;;
  ret <- mipi_dsi_dcs_exit_sleep_mode w (dsi ctx) ;;
  if ret <? 0 then
    dev_err "Failed to exit sleep mode: %d\n" [ret] ;;
    Return ret
  else
    msleep 120 ;;
    dev_dbg "Turning display on\n" ;;
    ret <- mipi_dsi_dcs_set_display_on w (dsi ctx) ;;
    if ret <? 0 then
      dev_err "Failed to turn display on: %d\n" [ret] ;;
      Return ret
    else
      msleep 10 ;;
      dev_dbg "Enabling vblank TE\n" ;;
      ret <- mipi_dsi_dcs_set_tear_on w (dsi ctx) MIPI_DSI_DCS_TEAR_MODE_VBLANK ;;
      if ret <? 0 then
        dev_err "Failed to enable vblank TE: %d\n" [ret] ;;
        Return ret
      else Return 0.

Definition cwu50_disable (w : world) : M cwu50_panel Z :=
  ctx <- get_ctx ;;
  dev_dbg "Turning display off\n" ;;
  ret <- mipi_dsi_dcs_set_display_off w (dsi ctx) ;;
  if ret <? 0 then
    dev_err "Failed to turn off panel: %d\n" [ret] ;;
    Return ret
  else
    msleep 50 ;;
    dev_dbg "Entering sleep mode\n" ;;
    ret <- mipi_dsi_dcs_enter_sleep_mode w (dsi ctx) ;;
    if ret <? 0 then
      dev_err "Failed to enter sleep mode: %d\n" [ret] ;;
      Return ret
    else
      msleep 100 ;;
      Return 0.

Definition cwu50_unprepare (w : world) : M cwu50_panel Z :=
  ctx <- get_ctx ;;
  dev_dbg "Putting panel in RESET\n" ;;
  gpiod_set_value_cansleep (reset_gpio ctx) 0 ;;
  usleep_range 1000 10000 ;;
  dev_dbg "Disabling regulators\n" ;;
  ret <- regulator_disable w (vci ctx) ;;
  (if ret <? 0 then dev_err "Failed to disable vci supply: %d\n" [ret]
   else Return tt) ;;
  usleep_range 1000 20000 ;;
  ret <- regulator_disable w (iovcc ctx) ;;
  (if ret <? 0 then dev_err "Failed to disable iovcc supply: %d\n" [ret]
   else Return tt) ;;
  Return 0.

(** [cwu50_panel_funcs], restricted to the lifecycle callbacks. *)
Definition cwu50_panel_funcs (f : drm_panel_func) (w : world) : M cwu50_panel Z :=
  match f with
  | Prepare => cwu50_prepare w
  | Enable => cwu50_enable w
  | Disable => cwu50_disable w
  | Unprepare => cwu50_unprepare w
  end.

End Clockwork.

(** ** panel-cw-cwu50.c *)
Module Cw.

(** [struct cwu50_panel] of this file: no orientation, and a [prepared]
    flag of the driver's own. *)
Record cwu50_panel := {
  dsi : handle;
  vci : handle;
  iovcc : handle;
  reset_gpio : handle;
  prepared : bool
}.

Definition set_prepared (b : bool) (c : cwu50_panel) : cwu50_panel :=
  {| dsi := dsi c; vci := vci c; iovcc := iovcc c;
     reset_gpio := reset_gpio c; prepared := b |}.

(** The assignment [ctx->prepared = b]. *)
Definition write_prepared (b : bool) : M cwu50_panel unit :=
  ctx <- get_ctx ;;
  set_ctx (set_prepared b ctx).

Definition cwu50_panel_init_cmds : list cwu50_init_cmd := [
    (* Switch to page 0 *)
    cmd 0xE0 0x00;

    (* Unlock programming registers *)
    cmd 0xE1 0x93;
    cmd 0xE2 0x65;
    cmd 0xE3 0xF8;

    (* Sequence control? *)
    cmd 0x70 0x20;
    cmd 0x71 0x13;
    cmd 0x72 0x06;

    (* Lane count? *)
    cmd 0x75 0x03;

    (* Switch to page 1 *)
    cmd 0xE0 0x01;

    (* Set VCOM *)
    cmd 0x00 0x00;
    cmd 0x01 0x47; (* VCOM 0x47 *)
    (* Set VCOM_Reverse *)
    cmd 0x03 0x00;
    cmd 0x04 0x4D;
    (* Set a mystery regulator *)
    cmd 0x0C 0x64;

    (* Set Gamma Power, VG[MS][PN] *)
    cmd 0x17 0x00;
    cmd 0x18 0xBF;
    cmd 0x19 0x00;
    cmd 0x1A 0x00;
    cmd 0x1B 0xBF;
    cmd 0x1C 0x00;

    (* Set Gate Power *)
    cmd 0x1F 0x7E;
    cmd 0x20 0x24;
    cmd 0x21 0x24;
    cmd 0x22 0x4E;
    cmd 0x24 0xFE;

    (* Set Panel *)
    cmd 0x37 0x09; (* SS = 1, BGR = 1 *)

    (* Set RGBCYC *)
    cmd 0x38 0x04;
    cmd 0x3C 0x76;
    cmd 0x3D 0xFF; (* set CHGEN_ON *)
    cmd 0x3E 0xFF; (* set CHGEN_OFF *)
    cmd 0x3F 0x7F; (* set CHGEN_OFF2 *)

    (* Set TCON parameter *)
    cmd 0x40 0x04; (* Dot inversion type *)
    cmd 0x41 0xA0; (* LN = 1280 lines *)
    cmd 0x44 0x11; (* ???? *)

    (* Set power voltage *)
    cmd 0x55 0x02;
    cmd 0x56 0x01;
    cmd 0x57 0x49;
    cmd 0x58 0x09;
    cmd 0x59 0x2A;
    cmd 0x5A 0x1A;
    cmd 0x5B 0x1A;

    (* Set gamma *)
    cmd 0x5D 0x78;
    cmd 0x5E 0x6E;
    cmd 0x5F 0x66;
    cmd 0x60 0x5E;
    cmd 0x61 0x60;
    cmd 0x62 0x54;
    cmd 0x63 0x5C;
    cmd 0x64 0x47;
    cmd 0x65 0x5F;
    cmd 0x66 0x5D;
    cmd 0x67 0x5B;
    cmd 0x68 0x76;
    cmd 0x69 0x61;
    cmd 0x6A 0x63;
    cmd 0x6B 0x50;
    cmd 0x6C 0x45;
    cmd 0x6D 0x34;
    cmd 0x6E 0x1C;
    cmd 0x6F 0x07;
    cmd 0x70 0x78;
    cmd 0x71 0x6E;
    cmd 0x72 0x66;
    cmd 0x73 0x5E;
    cmd 0x74 0x60;
    cmd 0x75 0x54;
    cmd 0x76 0x5C;
    cmd 0x77 0x47;
    cmd 0x78 0x5F;
    cmd 0x79 0x5D;
    cmd 0x7A 0x5B;
    cmd 0x7B 0x76;
    cmd 0x7C 0x61;
    cmd 0x7D 0x63;
    cmd 0x7E 0x50;
    cmd 0x7F 0x45;
    cmd 0x80 0x34;
    cmd 0x81 0x1C;
    cmd 0x82 0x07;

    (* Switch to page 2, for GIP *)
    cmd 0xE0 0x02;

    cmd 0x00 0x44;
    cmd 0x01 0x46;
    cmd 0x02 0x48;
    cmd 0x03 0x4A;
    cmd 0x04 0x40;
    cmd 0x05 0x42;
    cmd 0x06 0x1F;
    cmd 0x07 0x1F;
    cmd 0x08 0x1F;
    cmd 0x09 0x1F;
    cmd 0x0A 0x1F;
    cmd 0x0B 0x1F;
    cmd 0x0C 0x1F;
    cmd 0x0D 0x1F;
    cmd 0x0E 0x1F;
    cmd 0x0F 0x1F;
    cmd 0x10 0x1F;
    cmd 0x11 0x1F;
    cmd 0x12 0x1F;
    cmd 0x13 0x1F;
    cmd 0x14 0x1E;
    cmd 0x15 0x1F;

    cmd 0x16 0x45;
    cmd 0x17 0x47;
    cmd 0x18 0x49;
    cmd 0x19 0x4B;
    cmd 0x1A 0x41;
    cmd 0x1B 0x43;
    cmd 0x1C 0x1F;
    cmd 0x1D 0x1F;
    cmd 0x1E 0x1F;
    cmd 0x1F 0x1F;
    cmd 0x20 0x1F;
    cmd 0x21 0x1F;
    cmd 0x22 0x1F;
    cmd 0x23 0x1F;
    cmd 0x24 0x1F;
    cmd 0x25 0x1F;
    cmd 0x26 0x1F;
    cmd 0x27 0x1F;
    cmd 0x28 0x1F;
    cmd 0x29 0x1F;
    cmd 0x2A 0x1E;
    cmd 0x2B 0x1F;

    cmd 0x2C 0x0B;
    cmd 0x2D 0x09;
    cmd 0x2E 0x07;
    cmd 0x2F 0x05;
    cmd 0x30 0x03;
    cmd 0x31 0x01;
    cmd 0x32 0x1F;
    cmd 0x33 0x1F;
    cmd 0x34 0x1F;
    cmd 0x35 0x1F;
    cmd 0x36 0x1F;
    cmd 0x37 0x1F;
    cmd 0x38 0x1F;
    cmd 0x39 0x1F;
    cmd 0x3A 0x1F;
    cmd 0x3B 0x1F;
    cmd 0x3C 0x1F;
    cmd 0x3D 0x1F;
    cmd 0x3E 0x1F;
    cmd 0x3F 0x1F;
    cmd 0x40 0x1F;
    cmd 0x41 0x1E;

    cmd 0x42 0x0A;
    cmd 0x43 0x08;
    cmd 0x44 0x06;
    cmd 0x45 0x04;
    cmd 0x46 0x02;
    cmd 0x47 0x00;
    cmd 0x48 0x1F;
    cmd 0x49 0x1F;
    cmd 0x4A 0x1F;
    cmd 0x4B 0x1F;
    cmd 0x4C 0x1F;
    cmd 0x4D 0x1F;
    cmd 0x4E 0x1F;
    cmd 0x4F 0x1F;
    cmd 0x50 0x1F;
    cmd 0x51 0x1F;
    cmd 0x52 0x1F;
    cmd 0x53 0x1F;
    cmd 0x54 0x1F;
    cmd 0x55 0x1F;
    cmd 0x56 0x1F;
    cmd 0x57 0x1E;

    cmd 0x58 0x40;
    cmd 0x59 0x00;
    cmd 0x5A 0x00;
    cmd 0x5B 0x30;
    cmd 0x5C 0x02;
    cmd 0x5D 0x40;
    cmd 0x5E 0x01;
    cmd 0x5F 0x02;
    cmd 0x60 0x00;
    cmd 0x61 0x01;
    cmd 0x62 0x02;
    cmd 0x63 0x65;
    cmd 0x64 0x66;
    cmd 0x65 0x00;
    cmd 0x66 0x00;
    cmd 0x67 0x74;
    cmd 0x68 0x06;
    cmd 0x69 0x65;
    cmd 0x6A 0x66;
    cmd 0x6B 0x10;

    cmd 0x6C 0x00;
    cmd 0x6D 0x04;
    cmd 0x6E 0x04;
    cmd 0x6F 0x88;
    cmd 0x70 0x00;
    cmd 0x71 0x00;
    cmd 0x72 0x06;
    cmd 0x73 0x7B;
    cmd 0x74 0x00;
    cmd 0x75 0x87;
    cmd 0x76 0x00;
    cmd 0x77 0x5D;
    cmd 0x78 0x17;
    cmd 0x79 0x1F;
    cmd 0x7A 0x00;
    cmd 0x7B 0x00;
    cmd 0x7C 0x00;
    cmd 0x7D 0x03;
    cmd 0x7E 0x7B;

    (* Switch to page 4 and do... something *)
    cmd 0xE0 0x04;
    cmd 0x09 0x10;

    (* Switch back to page 0 and re-lock the programming registers *)
    cmd 0xE0 0x00;
    cmd 0xE6 0x02;
    cmd 0xE7 0x02
].

Definition cwu50_reset : M cwu50_panel unit :=
  ctx <- get_ctx ;;
  dev_dbg "Resetting panel\n" ;;
  gpiod_set_value_cansleep (reset_gpio ctx) 1 ;;
  usleep_range 10000 20000 ;;
  gpiod_set_value_cansleep (reset_gpio ctx) 0 ;;
  usleep_range 10000 20000 ;;
  gpiod_set_value_cansleep (reset_gpio ctx) 1 ;;
  msleep 120.

(** The body of the loop of [cwu50_init_sequence]. *)
Definition send_init_cmd (w : world) (d : handle) (c : cwu50_init_cmd)
  : M cwu50_panel (option Z) :=
  ret <- mipi_dsi_dcs_write_buffer w d (data c) CWU50_INIT_CMD_LEN ;;
  if ret <? 0 then
    dev_err_ratelimited "sending command %#02x failed: %d\n" [nth 0 (data c) 0; ret] ;;
    Return (Some ret)
  else Return None.

Definition cwu50_init_sequence (w : world) : M cwu50_panel Z :=
  ctx <- get_ctx ;;
  if prepared ctx then Return 0
  else
    dev_dbg "Sending initialization sequence\n" ;;
    r <- for_each cwu50_panel_init_cmds (send_init_cmd w (dsi ctx)) ;;
    match r with
    | Some ret => Return ret
    | None =>
        dev_dbg "Exiting sleep mode\n" ;;
        ret <- mipi_dsi_dcs_exit_sleep_mode w (dsi ctx) ;;
        if ret <? 0 then
          dev_err "failed to exit sleep mode at init: %d\n" [ret] ;;
          Return ret
        else Return 0
    end.

(** The labels [disable_iovcc] and [disable_vci] of [cwu50_prepare]. *)
Definition disable_iovcc (w : world) (ret : Z) : M cwu50_panel Z :=
  ctx <- get_ctx ;;
  regulator_disable w (iovcc ctx) ;;
  Return ret.

Definition disable_vci (w : world) (ret : Z) : M cwu50_panel Z :=
  ctx <- get_ctx ;;
  regulator_disable w (vci ctx) ;;
  disable_iovcc w ret.

Definition cwu50_prepare (w : world) : M cwu50_panel Z :=
  ctx <- get_ctx ;;
  if prepared ctx then Return 0
  else
    dev_dbg "Enabling regulators\n" ;;
    ret <- regulator_enable w (iovcc ctx) ;;
    if ret <? 0 then
      dev_err "failed to enable iovcc supply: %d\n" [ret] ;;
      Return ret
    else
      ret <- regulator_enable w (vci ctx) ;;
      if ret <? 0 then
        dev_err "failed to enable vci supply: %d\n" [ret] ;;
        disable_iovcc w ret
      else
        cwu50_reset ;;
        ret <- cwu50_init_sequence w ;;
        if ret <? 0 then
          dev_err "Failed to initialize panel: %d\n" [ret] ;;
          gpiod_set_value_cansleep (reset_gpio ctx) 0 ;;
          disable_vci w ret
        else
          write_prepared true ;;
          Return 0.

Definition cwu50_enable (w : world) : M cwu50_panel Z :=
  ctx <- get_ctx ;;
  msleep 120 ;;
  ret <- mipi_dsi_dcs_set_display_on w (dsi ctx) ;;
  if ret <? 0 then
    dev_err "failed to set display on: %d\n" [ret] ;;
    Return ret
  else
    msleep 20 ;;
    ret <- mipi_dsi_dcs_set_tear_on w (dsi ctx) MIPI_DSI_DCS_TEAR_MODE_VBLANK ;;
    if ret <? 0 then
      dev_err "failed to enable vblank TE: %d\n" [ret] ;;
      Return ret
    else Return 0.

Definition cwu50_disable (w : world) : M cwu50_panel Z :=
  ctx <- get_ctx ;;
  mipi_dsi_dcs_set_display_off w (dsi ctx).

Definition cwu50_unprepare (w : world) : M cwu50_panel Z :=
  ctx <- get_ctx ;;
  if negb (prepared ctx) then Return 0
  else
    ret <- mipi_dsi_dcs_set_display_off w (dsi ctx) ;;
    (if ret <? 0 then dev_err "Failed to turn off panel: %d\n" [ret]
     else Return tt) ;;
    msleep 20 ;;
    ret <- mipi_dsi_dcs_enter_sleep_mode w (dsi ctx) ;;
    (if ret <? 0 then dev_err "Failed to turn off panel: %d\n" [ret]
     else Return tt) ;;
    msleep 120 ;;
    gpiod_set_value_cansleep (reset_gpio ctx) 0 ;;
    msleep 20 ;;
    ret <- regulator_disable w (vci ctx) ;;
    (if ret <? 0 then dev_err "failed to disable vci supply: %d\n" [ret]
     else Return tt) ;;
    usleep_range 1000 20000 ;;
    ret <- regulator_disable w (iovcc ctx) ;;
    (if ret <? 0 then dev_err "failed to disable iovcc supply: %d\n" [ret]
     else Return tt) ;;
    write_prepared false ;;
    Return 0.

(** [cwu50_panel_funcs], restricted to the lifecycle callbacks. *)
Definition cwu50_panel_funcs (f : drm_panel_func) (w : world) : M cwu50_panel Z :=
  match f with
  | Prepare => cwu50_prepare w
  | Enable => cwu50_enable w
  | Disable => cwu50_disable w
  | Unprepare => cwu50_unprepare w
  end.

End Cw.

(** ** Observing a call *)

(** The calls a computation made, oldest first: the trace after it, without
    the trace before it. *)
Definition events_since {P} (m m' : machine P) : list event :=
  skipn (length (trace m)) (trace m').

(** The events of running [c] from [m], and its return value. *)
Definition events_of {P A} (c : M P A) (m : machine P) : list event :=
  events_since m (snd (c m)).

Definition result_of {P A} (c : M P A) (m : machine P) : A := fst (c m).

(** The lines running [c] from [m] added to the kernel log. *)
Definition logs_of {P A} (c : M P A) (m : machine P) : list log_msg :=
  skipn (length (klog m)) (klog (snd (c m))).

Definition actions (evs : list event) : list action := map fst evs.

(** The transport write of one table entry. *)
Definition write_of (d : handle) (c : cwu50_init_cmd) : action :=
  DcsWriteBuffer d (data c) CWU50_INIT_CMD_LEN.

(** The table writes among some events, each with its result. *)
Fixpoint dcs_writes (evs : list event) : list (list Z * Z) :=
  match evs with
  | [] => []
  | (DcsWriteBuffer _ buf _, r) :: rest => (buf, r) :: dcs_writes rest
  | _ :: rest => dcs_writes rest
  end.

(** The least time, in microseconds, a delay call waits. *)
Definition delay_min_us (a : action) : option Z :=
  match a with
  | UsleepRange min _ => Some min
  | Msleep msecs => Some (msecs * 1000)
  | _ => None
  end.

Definition is_delay (a : action) : bool :=
  match delay_min_us a with Some _ => true | None => false end.

Definition waits_at_least (us : Z) (a : action) : Prop :=
  exists t, delay_min_us a = Some t /\ us <= t.

Definition waits_between (lo hi : Z) (a : action) : Prop :=
  exists t, delay_min_us a = Some t /\ lo <= t <= hi.

(** The log line of a failed table write. *)
Definition write_failed_msg (c : cwu50_init_cmd) (ret : Z) : log_msg :=
  Log KERN_ERR_RATELIMITED "sending command %#02x failed: %d\n" [nth 0 (data c) 0; ret].

(** ** Orders of steps, as the specification words them *)

(** Power-on followed by the table: IOVCC, a delay, VCI, reset line high, a
    delay, low, a delay, high, a delay, then every entry in table order. *)
Definition power_on_then_table (d io vc rst : handle) (table : list cwu50_init_cmd)
  (acts : list action) : Prop :=
  exists d1 d2 d3 d4,
    is_delay d1 = true /\ is_delay d2 = true /\
    is_delay d3 = true /\ is_delay d4 = true /\
    acts = [RegulatorEnable io; d1; RegulatorEnable vc;
            GpiodSetValue rst 1; d2; GpiodSetValue rst 0; d3;
            GpiodSetValue rst 1; d4] ++ map (write_of d) table.

(** Exit sleep mode, at least 120 ms, display on, 10 to 20 ms, tearing on
    at vblank. *)
Definition enable_steps (d : handle) (acts : list action) : Prop :=
  exists d1 d2,
    waits_at_least 120000 d1 /\ waits_between 10000 20000 d2 /\
    acts = [DcsExitSleepMode d; d1; DcsSetDisplayOn d; d2;
            DcsSetTearOn d MIPI_DSI_DCS_TEAR_MODE_VBLANK].

(** Display off, at least 50 ms, enter sleep mode, at least 100 ms. *)
Definition disable_steps (d : handle) (acts : list action) : Prop :=
  exists d1 d2,
    waits_at_least 50000 d1 /\ waits_at_least 100000 d2 /\
    acts = [DcsSetDisplayOff d; d1; DcsEnterSleepMode d; d2].

(** The index of the table entry whose write failed, when the last write
    among [evs] failed. *)
Definition failing_index (evs : list event) : option nat :=
  match rev (dcs_writes evs) with
  | (_, r) :: earlier => if r <? 0 then Some (length earlier) else None
  | [] => None
  end.

(** The caller of a transmitter learns the failing index: some reading of
    what the transmitter hands back (its return value and the log) gives the
    index of the entry that failed, whatever the hardware did. *)
Definition reports_failing_index {P} (transmit : world -> M P Z) : Prop :=
  exists index_of : Z -> list log_msg -> nat,
    forall (w : world) (m : machine P) (k : nat),
      failing_index (events_of (transmit w) m) = Some k ->
      index_of (result_of (transmit w) m) (logs_of (transmit w) m) = k.

(** ** Sample hardware *)

(** Every call succeeds; a transport write returns the byte count. *)
Definition world_ok : world :=
  fun _ a => match a with DcsWriteBuffer _ _ len => len | _ => 0 end.

(** As [world_ok], but the write that follows [k] earlier writes returns [e]. *)
Definition world_fail_write (k : nat) (e : Z) : world :=
  fun h a =>
    match a with
    | DcsWriteBuffer _ _ len => if Nat.eqb (length (dcs_writes h)) k then e else len
    | _ => 0
    end.

(** As [world_ok], but "display on" returns [e]. *)
Definition world_fail_display_on (e : Z) : world :=
  fun _ a => match a with DcsSetDisplayOn _ => e | _ => 0 end.

(** As [world_ok], but every regulator refuses to switch off. *)
Definition world_fail_disable (e : Z) : world :=
  fun _ a => match a with RegulatorDisable _ => e | _ => world_ok [] a end.

Definition clockwork_panel : Clockwork.cwu50_panel :=
  {| Clockwork.dsi := 0%nat; Clockwork.vci := 1%nat; Clockwork.iovcc := 2%nat;
     Clockwork.reset_gpio := 3%nat; Clockwork.orientation := 0 |}.

Definition cw_panel (b : bool) : Cw.cwu50_panel :=
  {| Cw.dsi := 0%nat; Cw.vci := 1%nat; Cw.iovcc := 2%nat;
     Cw.reset_gpio := 3%nat; Cw.prepared := b |}.

(** A freshly probed panel: nothing has happened yet. *)
Definition boot {P} (c : P) : machine P := Machine c [] [].

(** ** Phases of prepare, as traces *)

(** Power-on of panel-clockwork-cwu50.c, [r1] and [r2] being what the two
    regulators answered. *)
Definition ck_power_on (c : Clockwork.cwu50_panel) (r1 r2 : Z) : list event :=
  [(RegulatorEnable (Clockwork.iovcc c), r1);
   (UsleepRange 1000 5000, 0);
   (RegulatorEnable (Clockwork.vci c), r2);
   (GpiodSetValue (Clockwork.reset_gpio c) 1, 0);
   (UsleepRange 5000 10000, 0);
   (GpiodSetValue (Clockwork.reset_gpio c) 0, 0);
   (UsleepRange 1000 10000, 0);
   (GpiodSetValue (Clockwork.reset_gpio c) 1, 0);
   (UsleepRange 10000 20000, 0)].

(** What panel-clockwork-cwu50.c does after a failed table write. *)
Definition ck_rollback (c : Clockwork.cwu50_panel) (rv ri : Z) : list event :=
  [(GpiodSetValue (Clockwork.reset_gpio c) 0, 0);
   (UsleepRange 10000 20000, 0);
   (RegulatorDisable (Clockwork.vci c), rv);
   (UsleepRange 5000 20000, 0);
   (RegulatorDisable (Clockwork.iovcc c), ri)].

(** Power-on of panel-cw-cwu50.c. *)
Definition cw_power_on (c : Cw.cwu50_panel) (r1 r2 : Z) : list event :=
  [(RegulatorEnable (Cw.iovcc c), r1);
   (RegulatorEnable (Cw.vci c), r2);
   (GpiodSetValue (Cw.reset_gpio c) 1, 0);
   (UsleepRange 10000 20000, 0);
   (GpiodSetValue (Cw.reset_gpio c) 0, 0);
   (UsleepRange 10000 20000, 0);
   (GpiodSetValue (Cw.reset_gpio c) 1, 0);
   (Msleep 120, 0)].

(** What panel-cw-cwu50.c does after a failed init sequence. *)
Definition cw_rollback (c : Cw.cwu50_panel) (rv ri : Z) : list event :=
  [(GpiodSetValue (Cw.reset_gpio c) 0, 0);
   (RegulatorDisable (Cw.vci c), rv);
   (RegulatorDisable (Cw.iovcc c), ri)].

(** The writes of the first [k] table entries, answered by [rs]. *)
Definition table_writes (d : handle) (table : list cwu50_init_cmd) (k : nat)
  (rs : list Z) : list event :=
  combine (map (write_of d) (firstn k table)) rs.

(** ** Further observations of a trace *)

(** How many times regulator [r] was switched on with success. *)
Fixpoint enables_held (r : handle) (evs : list event) : nat :=
  match evs with
  | [] => 0
  | (RegulatorEnable r', ret) :: rest =>
      ((if Nat.eqb r r' && (0 <=? ret)%Z then 1 else 0) + enables_held r rest)%nat
  | _ :: rest => enables_held r rest
  end.

(** How many times [regulator_disable] was called on regulator [r]. *)
Fixpoint disables (r : handle) (evs : list event) : nat :=
  match evs with
  | [] => 0
  | (RegulatorDisable r', _) :: rest =>
      ((if Nat.eqb r r' then 1 else 0) + disables r rest)%nat
  | _ :: rest => disables r rest
  end.

(** The level last written to a GPIO, if any was written. *)
Definition gpio_step (acc : option Z) (e : event) : option Z :=
  match fst e with
  | GpiodSetValue _ v => Some v
  | _ => acc
  end.

Definition last_gpio_value (evs : list event) : option Z :=
  fold_left gpio_step evs None.

(** The lines of a log above debug level. *)
Definition is_error_line (l : log_msg) : bool :=
  match level l with KERN_DEBUG => false | _ => true end.

Definition error_lines (logs : list log_msg) : list log_msg :=
  filter is_error_line logs.

(** A transport write as the table prescribes it: sent to [d], exactly
    [CWU50_INIT_CMD_LEN] bytes long, every byte a [u8], and the bytes those
    of an entry of [table]. *)
Definition table_write_ok (d : handle) (table : list cwu50_init_cmd) (a : action) : Prop :=
  match a with
  | DcsWriteBuffer d' buf len =>
      d' = d /\ len = CWU50_INIT_CMD_LEN /\ Z.of_nat (length buf) = len /\
      Forall (fun b => 0 <= b < 256) buf /\ In {| data := buf |} table
  | _ => True
  end.

(** A transport that refuses "exit sleep mode" with [e]. *)
Definition world_fail_exit_sleep (e : Z) : world :=
  fun _ a => match a with DcsExitSleepMode _ => e | _ => world_ok [] a end.

(** Hardware on which the regulator with handle [r] refuses to switch on. *)
Definition world_fail_enable (r : handle) (e : Z) : world :=
  fun _ a => match a with
             | RegulatorEnable r' => if Nat.eqb r r' then e else 0
             | _ => world_ok [] a
             end.

(** A table entry of two [u8] values, as [struct cwu50_init_cmd] holds. *)
Definition cmd_ok (c : cwu50_init_cmd) : bool :=
  Nat.eqb (length (data c)) 2
  && forallb (fun b => (0 <=? b) && (b <? 256)) (data c).

(** The log of a call agrees with its result [ret]: a failure ends the log
    with an error line that carries [ret]; a success logs nothing above
    debug level. *)
Definition log_matches_result (logs : list log_msg) (ret : Z) : Prop :=
  if ret <? 0
  then exists f pre, logs = pre ++ [Log KERN_ERR f [ret]]
  else error_lines logs = [].

(** The error line a failed call with result [r] leaves, if it failed. *)
Definition error_line_if_failed (f : string) (r : Z) : list log_msg :=
  if r <? 0 then [Log KERN_ERR f [r]] else [].

(** ** Binding to the DRM core: probe, remove and mode enumeration *)

(** Constants of kernel headers that the two source files use but do not
    define; they are parameters of the functions below. *)
Record kernel_headers := {
  ENOMEM : Z;
  DRM_MODE_TYPE_PREFERRED : Z;
  DRM_MODE_TYPE_DRIVER : Z;
  MIPI_DSI_MODE_VIDEO : Z;
  MIPI_DSI_MODE_VIDEO_BURST : Z;
  MIPI_DSI_MODE_VIDEO_SYNC_PULSE : Z;
  DRM_MODE_CONNECTOR_DSI : Z
}.

(** The two [enum gpiod_flags] values the drivers request the reset line
    with, and [enum mipi_dsi_pixel_format]. *)
Inductive gpiod_flags := GPIOD_OUT_LOW | GPIOD_OUT_HIGH.

Inductive mipi_dsi_pixel_format :=
| MIPI_DSI_FMT_RGB888
| MIPI_DSI_FMT_RGB666
| MIPI_DSI_FMT_RGB666_PACKED
| MIPI_DSI_FMT_RGB565.

(** The fields of [struct drm_display_mode] the drivers initialise or
    touch. *)
Record drm_display_mode := {
  clock : Z;
  hdisplay : Z;
  hsync_start : Z;
  hsync_end : Z;
  htotal : Z;
  vdisplay : Z;
  vsync_start : Z;
  vsync_end : Z;
  vtotal : Z;
  width_mm : Z;
  height_mm : Z;
  mode_type : Z
}.

(** The assignment [mode->type = t]. *)
Definition set_mode_type (t : Z) (mode : drm_display_mode) : drm_display_mode :=
  {| clock := clock mode;
     hdisplay := hdisplay mode; hsync_start := hsync_start mode;
     hsync_end := hsync_end mode; htotal := htotal mode;
     vdisplay := vdisplay mode; vsync_start := vsync_start mode;
     vsync_end := vsync_end mode; vtotal := vtotal mode;
     width_mm := width_mm mode; height_mm := height_mm mode;
     mode_type := t |}.

(** The fields of [struct mipi_dsi_device] probe writes, and the device-tree
    node of its device. *)
Record mipi_dsi_device := {
  of_node : handle;
  mode_flags : Z;
  format : mipi_dsi_pixel_format;
  lanes : Z;
  channel : Z
}.

(** [connector->display_info.width_mm] and [.height_mm]. *)
Record drm_connector := {
  display_info_width_mm : Z;
  display_info_height_mm : Z
}.

(** The calls into the driver core and the DRM core. *)
Inductive drm_call :=
| DevmKzalloc
| DevmGpiodGet (con_id : string) (flags : gpiod_flags)
| DevmRegulatorGet (id : string)
| MipiDsiSetDrvdata (dsi : handle)
| DrmPanelInit (connector_type : Z)
| DrmPanelOfBacklight
| OfDrmGetPanelOrientation (np : handle)
| DrmPanelAdd
| DrmPanelRemove
| DevmMipiDsiAttach (dsi : handle)
| MipiDsiAttach (dsi : handle)
| MipiDsiDetach (dsi : handle)
| DevErrProbe (err : Z) (msg : string)
| DrmModeDuplicate (mode : drm_display_mode)
| DrmModeVrefresh (mode : drm_display_mode)
| DrmModeSetName (mode : drm_display_mode)
| DrmModeProbedAdd (mode : drm_display_mode)
| DrmConnectorSetPanelOrientation (o : Z).

(** What a call gave back. *)
Inductive answer :=
| Done
| Int (ret : Z)
| Pointer (p : handle)
| ErrPointer (errno : positive)
| Null
| Allocated
| ModeObject (mode : drm_display_mode)
| Orientation (ret : Z) (stored : option Z).

Definition drm_event := (drm_call * answer)%type.

(** The kernel behind those calls.  Each field answers one kind of call,
    given everything that was called before:
    - [kzalloc_ok]: whether [devm_kzalloc] finds memory;
    - [get_pointer]: a valid pointer, or [inr e] for [ERR_PTR(-e)];
    - [get_int]: the value of an [int]-returning call;
    - [get_orientation]: the value [of_drm_get_panel_orientation] returns
      and what, if anything, it stores through its second argument;
    - [dup_mode]: the mode object [drm_mode_duplicate] returns, [None] for
      [NULL];
    - [named_mode]: the mode object as [drm_mode_set_name] leaves it. *)
Record drm_world := {
  kzalloc_ok : list drm_event -> bool;
  get_pointer : list drm_event -> drm_call -> handle + positive;
  get_int : list drm_event -> drm_call -> Z;
  get_orientation : list drm_event -> handle -> Z * option Z;
  dup_mode : list drm_event -> drm_display_mode -> option drm_display_mode;
  named_mode : list drm_event -> drm_display_mode -> drm_display_mode
}.

(** What probe, remove and get_modes work on: the driver's structure [*ctx],
    the flag of the embedded [struct drm_panel] that probe sets
    ([prepare_prev_first], called [prepare_upstream_first] in
    panel-cw-cwu50.c), [*dsi], [*connector], and the calls made so far. *)
Record drm_env (P : Type) := DrmEnv {
  panel_ctx : P;
  panel_prepare_first : bool;
  dsi_dev : mipi_dsi_device;
  connector : drm_connector;
  calls : list drm_event
}.
Arguments DrmEnv {P} _ _ _ _ _.
Arguments panel_ctx {P} _.
Arguments panel_prepare_first {P} _.
Arguments dsi_dev {P} _.
Arguments connector {P} _.
Arguments calls {P} _.

Section DrmPrimitives.
Context {P : Type}.

Definition update_env (f : drm_env P -> drm_env P) : M (drm_env P) unit :=
  fun m => (tt, Machine (f (ctx m)) (trace m) (klog m)).

Definition record_call (c : drm_call) (a : answer) : M (drm_env P) unit :=
  update_env (fun e => DrmEnv (panel_ctx e) (panel_prepare_first e) (dsi_dev e)
                              (connector e) (calls e ++ [(c, a)])).

(** The assignments to [*ctx], [ctx->panel.prepare_prev_first], [*dsi] and
    [connector->display_info]. *)
Definition write_ctx (f : P -> P) : M (drm_env P) unit :=
  update_env (fun e => DrmEnv (f (panel_ctx e)) (panel_prepare_first e) (dsi_dev e)
                              (connector e) (calls e)).

Definition write_prepare_first (b : bool) : M (drm_env P) unit :=
  update_env (fun e => DrmEnv (panel_ctx e) b (dsi_dev e) (connector e) (calls e)).

Definition write_dsi (f : mipi_dsi_device -> mipi_dsi_device) : M (drm_env P) unit :=
  update_env (fun e => DrmEnv (panel_ctx e) (panel_prepare_first e) (f (dsi_dev e))
                              (connector e) (calls e)).

Definition write_display_info (w h : Z) : M (drm_env P) unit :=
  update_env (fun e => DrmEnv (panel_ctx e) (panel_prepare_first e) (dsi_dev e)
                              {| display_info_width_mm := w;
                                 display_info_height_mm := h |} (calls e)).

Definition history : M (drm_env P) (list drm_event) := fun m => (calls (ctx m), m).

Definition void_call (c : drm_call) : M (drm_env P) unit := record_call c Done.

Definition int_call (bw : drm_world) (c : drm_call) : M (drm_env P) Z :=
  h <- history ;;
  let r := get_int bw h c in
  record_call c (Int r) ;;
  Return r.

Definition pointer_call (bw : drm_world) (c : drm_call) : M (drm_env P) (handle + positive) :=
  h <- history ;;
  let r := get_pointer bw h c in
  record_call c (match r with inl p => Pointer p | inr e => ErrPointer e end) ;;
  Return r.

(** [devm_kzalloc] of the panel structure: [true] for a zeroed
    structure, [false] for [NULL]. *)
Definition devm_kzalloc (bw : drm_world) : M (drm_env P) bool :=
  h <- history ;;
  let ok := kzalloc_ok bw h in
  record_call DevmKzalloc (if ok then Allocated else Null) ;;
  Return ok.

Definition devm_gpiod_get (bw : drm_world) (con_id : string) (flags : gpiod_flags) :=
  pointer_call bw (DevmGpiodGet con_id flags).
Definition devm_regulator_get (bw : drm_world) (id : string) :=
  pointer_call bw (DevmRegulatorGet id).
Definition mipi_dsi_set_drvdata (dsi : handle) := void_call (MipiDsiSetDrvdata dsi).
Definition drm_panel_init (connector_type : Z) := void_call (DrmPanelInit connector_type).
Definition drm_panel_of_backlight (bw : drm_world) := int_call bw DrmPanelOfBacklight.
Definition drm_panel_add := void_call DrmPanelAdd.
Definition drm_panel_remove := void_call DrmPanelRemove.
Definition devm_mipi_dsi_attach (bw : drm_world) (dsi : handle) :=
  int_call bw (DevmMipiDsiAttach dsi).
Definition mipi_dsi_attach (bw : drm_world) (dsi : handle) :=
  int_call bw (MipiDsiAttach dsi).
Definition mipi_dsi_detach (bw : drm_world) (dsi : handle) :=
  int_call bw (MipiDsiDetach dsi).
Definition drm_mode_vrefresh (bw : drm_world) (mode : drm_display_mode) :=
  int_call bw (DrmModeVrefresh mode).
Definition drm_mode_probed_add (mode : drm_display_mode) :=
  void_call (DrmModeProbedAdd mode).
Definition drm_connector_set_panel_orientation (bw : drm_world) (o : Z) :=
  int_call bw (DrmConnectorSetPanelOrientation o).

(** [dev_err_probe(dev, err, msg)] hands [err] back to be returned. *)
Definition dev_err_probe (err : Z) (msg : string) : M (drm_env P) Z :=
  record_call (DevErrProbe err msg) (Int err) ;;
  Return err.

(** [of_drm_get_panel_orientation(np, &ctx->orientation)]: the value
    returned, and the value stored in [ctx->orientation] if one was. *)
Definition of_drm_get_panel_orientation (bw : drm_world) (np : handle)
  : M (drm_env P) (Z * option Z) :=
  h <- history ;;
  let r := get_orientation bw h np in
  record_call (OfDrmGetPanelOrientation np) (Orientation (fst r) (snd r)) ;;
  Return r.

(** [drm_mode_duplicate(connector->dev, mode)]. *)
Definition drm_mode_duplicate (bw : drm_world) (mode : drm_display_mode)
  : M (drm_env P) (option drm_display_mode) :=
  h <- history ;;
  let r := dup_mode bw h mode in
  record_call (DrmModeDuplicate mode)
              (match r with Some copy => ModeObject copy | None => Null end) ;;
  Return r.

(** [drm_mode_set_name(mode)]: the mode object afterwards. *)
Definition drm_mode_set_name (bw : drm_world) (mode : drm_display_mode)
  : M (drm_env P) drm_display_mode :=
  h <- history ;;
  let r := named_mode bw h mode in
  record_call (DrmModeSetName mode) (ModeObject r) ;;
  Return r.
End DrmPrimitives.

(** The setters of [struct mipi_dsi_device] fields. *)
Definition set_mode_flags (v : Z) (d : mipi_dsi_device) : mipi_dsi_device :=
  {| of_node := of_node d; mode_flags := v; format := format d;
     lanes := lanes d; channel := channel d |}.
Definition set_format (v : mipi_dsi_pixel_format) (d : mipi_dsi_device) : mipi_dsi_device :=
  {| of_node := of_node d; mode_flags := mode_flags d; format := v;
     lanes := lanes d; channel := channel d |}.
Definition set_lanes (v : Z) (d : mipi_dsi_device) : mipi_dsi_device :=
  {| of_node := of_node d; mode_flags := mode_flags d; format := format d;
     lanes := v; channel := channel d |}.
Definition set_channel (v : Z) (d : mipi_dsi_device) : mipi_dsi_device :=
  {| of_node := of_node d; mode_flags := mode_flags d; format := format d;
     lanes := lanes d; channel := v |}.

(** ** panel-clockwork-cwu50.c: modes, probe and remove *)
Module ClockworkDrm.

Definition cwu50_default_mode : drm_display_mode := {|
  clock := 62500;

  hdisplay := 720;
  hsync_start := 720 + 43;
  hsync_end := 720 + 43 + 20;
  htotal := 720 + 43 + 20 + 20;

  vdisplay := 1280;
  vsync_start := 1280 + 8;
  vsync_end := 1280 + 8 + 2;
  vtotal := 1280 + 8 + 2 + 16;

  width_mm := 64;
  height_mm := 114;
  mode_type := 0
|}.

(** The structure as [devm_kzalloc] hands it out: all zero. *)
Definition zeroed : Clockwork.cwu50_panel :=
  {| Clockwork.dsi := 0%nat; Clockwork.vci := 0%nat; Clockwork.iovcc := 0%nat;
     Clockwork.reset_gpio := 0%nat; Clockwork.orientation := 0 |}.

(** The assignments to the fields of [*ctx]. *)
Definition set_dsi (v : handle) (c : Clockwork.cwu50_panel) : Clockwork.cwu50_panel :=
  {| Clockwork.dsi := v; Clockwork.vci := Clockwork.vci c;
     Clockwork.iovcc := Clockwork.iovcc c;
     Clockwork.reset_gpio := Clockwork.reset_gpio c;
     Clockwork.orientation := Clockwork.orientation c |}.
Definition set_vci (v : handle) (c : Clockwork.cwu50_panel) : Clockwork.cwu50_panel :=
  {| Clockwork.dsi := Clockwork.dsi c; Clockwork.vci := v;
     Clockwork.iovcc := Clockwork.iovcc c;
     Clockwork.reset_gpio := Clockwork.reset_gpio c;
     Clockwork.orientation := Clockwork.orientation c |}.
Definition set_iovcc (v : handle) (c : Clockwork.cwu50_panel) : Clockwork.cwu50_panel :=
  {| Clockwork.dsi := Clockwork.dsi c; Clockwork.vci := Clockwork.vci c;
     Clockwork.iovcc := v;
     Clockwork.reset_gpio := Clockwork.reset_gpio c;
     Clockwork.orientation := Clockwork.orientation c |}.
Definition set_reset_gpio (v : handle) (c : Clockwork.cwu50_panel) : Clockwork.cwu50_panel :=
  {| Clockwork.dsi := Clockwork.dsi c; Clockwork.vci := Clockwork.vci c;
     Clockwork.iovcc := Clockwork.iovcc c;
     Clockwork.reset_gpio := v;
     Clockwork.orientation := Clockwork.orientation c |}.
Definition set_orientation (v : Z) (c : Clockwork.cwu50_panel) : Clockwork.cwu50_panel :=
  {| Clockwork.dsi := Clockwork.dsi c; Clockwork.vci := Clockwork.vci c;
     Clockwork.iovcc := Clockwork.iovcc c;
     Clockwork.reset_gpio := Clockwork.reset_gpio c;
     Clockwork.orientation := v |}.

Definition cwu50_get_modes (k : kernel_headers) (bw : drm_world)
  : M (drm_env Clockwork.cwu50_panel) Z :=
  mode <- drm_mode_duplicate bw cwu50_default_mode ;;
  match mode with
  | None =>
      vrefresh <- drm_mode_vrefresh bw cwu50_default_mode ;;
      dev_err "Failed to add DRM mode %ux%u@%u\n"
              [hdisplay cwu50_default_mode; vdisplay cwu50_default_mode; vrefresh] ;;
      Return (- ENOMEM k)
  | Some mode =>
      mode <- drm_mode_set_name bw mode ;;
      let mode := set_mode_type
                    (Z.lor (DRM_MODE_TYPE_DRIVER k) (DRM_MODE_TYPE_PREFERRED k)) mode in
      write_display_info (width_mm mode) (height_mm mode) ;;
      drm_mode_probed_add mode ;;
      env <- get_ctx ;;
      drm_connector_set_panel_orientation bw (Clockwork.orientation (panel_ctx env)) ;;
      Return 1
  end.

Definition cwu50_get_orientation : M (drm_env Clockwork.cwu50_panel) Z :=
  env <- get_ctx ;;
  Return (Clockwork.orientation (panel_ctx env)).

(** [cwu50_probe(dsi)].  When a [devm_..._get] call returns an error pointer
    the model does not store it in [*ctx]: probe returns at once and the
    structure is released with the device. *)
Definition cwu50_probe (k : kernel_headers) (bw : drm_world) (dsi : handle)
  : M (drm_env Clockwork.cwu50_panel) Z :=
  ok <- devm_kzalloc bw ;;
  if negb ok then Return (- ENOMEM k)
  else
    write_ctx (fun _ => zeroed) ;;
    g <- devm_gpiod_get bw "reset" GPIOD_OUT_LOW ;;
    match g with
    | inr e => dev_err_probe (Z.neg e) "Failed to get reset-gpios\n"
    | inl g =>
    write_ctx (set_reset_gpio g) ;;
    v <- devm_regulator_get bw "vci" ;;
    match v with
    | inr e => dev_err_probe (Z.neg e) "Failed to get vci regulator\n"
    | inl v =>
    write_ctx (set_vci v) ;;
    i <- devm_regulator_get bw "iovcc" ;;
    match i with
    | inr e => dev_err_probe (Z.neg e) "Failed to get iovcc regulator\n"
    | inl i =>
    write_ctx (set_iovcc i) ;;
    write_ctx (set_dsi dsi) ;;
    mipi_dsi_set_drvdata dsi ;;
    write_dsi (set_mode_flags
                 (Z.lor (Z.lor (MIPI_DSI_MODE_VIDEO k) (MIPI_DSI_MODE_VIDEO_BURST k))
                        (MIPI_DSI_MODE_VIDEO_SYNC_PULSE k))) ;;
    write_dsi (set_format MIPI_DSI_FMT_RGB888) ;;
    write_dsi (set_lanes 4) ;;
    write_dsi (set_channel 0) ;;
    drm_panel_init (DRM_MODE_CONNECTOR_DSI k) ;;
    write_prepare_first true ;;
    ret <- drm_panel_of_backlight bw ;;
    if ret <? 0 then dev_err_probe ret "Failed to get backlight\n"
    else
      env <- get_ctx ;;
      r <- of_drm_get_panel_orientation bw (of_node (dsi_dev env)) ;;
      match snd r with
      | Some o => write_ctx (set_orientation o)
      | None => Return tt
      end ;;
      let ret := fst r in
      if ret <? 0 then
        dev_err "%pOF: failed to get orientation %d\n"
                [Z.of_nat (of_node (dsi_dev env)); ret] ;;
        Return ret
      else
        drm_panel_add ;;
        ret <- devm_mipi_dsi_attach bw dsi ;;
        if ret <? 0 then
          dev_err "mipi_dsi_attach() failed: %d\n" [ret] ;;
          drm_panel_remove ;;
          Return ret
        else Return 0
    end
    end
    end.

(** [cwu50_remove(dsi)]; [ctx] is read back with the accessor
    [mipi_dsi_get_drvdata]. *)
Definition cwu50_remove (dsi : handle) : M (drm_env Clockwork.cwu50_panel) unit :=
  drm_panel_remove.

End ClockworkDrm.

(** ** panel-cw-cwu50.c: modes, probe and remove *)
Module CwDrm.

Definition cwu50_default_mode : drm_display_mode := {|
  clock := 62500;

  hdisplay := 720;
  hsync_start := 720 + 43;
  hsync_end := 720 + 43 + 20;
  htotal := 720 + 43 + 20 + 20;

  vdisplay := 1280;
  vsync_start := 1280 + 8;
  vsync_end := 1280 + 8 + 2;
  vtotal := 1280 + 8 + 2 + 16;

  width_mm := 64;
  height_mm := 114;
  mode_type := 0
|}.

(** The structure as [devm_kzalloc] hands it out: all zero. *)
Definition zeroed : Cw.cwu50_panel :=
  {| Cw.dsi := 0%nat; Cw.vci := 0%nat; Cw.iovcc := 0%nat;
     Cw.reset_gpio := 0%nat; Cw.prepared := false |}.

(** The assignments to the fields of [*ctx]. *)
Definition set_dsi (v : handle) (c : Cw.cwu50_panel) : Cw.cwu50_panel :=
  {| Cw.dsi := v; Cw.vci := Cw.vci c; Cw.iovcc := Cw.iovcc c;
     Cw.reset_gpio := Cw.reset_gpio c; Cw.prepared := Cw.prepared c |}.
Definition set_vci (v : handle) (c : Cw.cwu50_panel) : Cw.cwu50_panel :=
  {| Cw.dsi := Cw.dsi c; Cw.vci := v; Cw.iovcc := Cw.iovcc c;
     Cw.reset_gpio := Cw.reset_gpio c; Cw.prepared := Cw.prepared c |}.
Definition set_iovcc (v : handle) (c : Cw.cwu50_panel) : Cw.cwu50_panel :=
  {| Cw.dsi := Cw.dsi c; Cw.vci := Cw.vci c; Cw.iovcc := v;
     Cw.reset_gpio := Cw.reset_gpio c; Cw.prepared := Cw.prepared c |}.
Definition set_reset_gpio (v : handle) (c : Cw.cwu50_panel) : Cw.cwu50_panel :=
  {| Cw.dsi := Cw.dsi c; Cw.vci := Cw.vci c; Cw.iovcc := Cw.iovcc c;
     Cw.reset_gpio := v; Cw.prepared := Cw.prepared c |}.

Definition cwu50_get_modes (k : kernel_headers) (bw : drm_world)
  : M (drm_env Cw.cwu50_panel) Z :=
  mode <- drm_mode_duplicate bw cwu50_default_mode ;;
  match mode with
  | None =>
      vrefresh <- drm_mode_vrefresh bw cwu50_default_mode ;;
      dev_err "failed to add mode %ux%u@%u\n"
              [hdisplay cwu50_default_mode; vdisplay cwu50_default_mode; vrefresh] ;;
      Return (- ENOMEM k)
  | Some mode =>
      mode <- drm_mode_set_name bw mode ;;
      let mode := set_mode_type
                    (Z.lor (DRM_MODE_TYPE_DRIVER k) (DRM_MODE_TYPE_PREFERRED k)) mode in
      write_display_info (width_mm mode) (height_mm mode) ;;
      drm_mode_probed_add mode ;;
      Return 1
  end.

(** [cwu50_probe(dsi)].  When a [devm_..._get] call returns an error pointer
    the model does not store it in [*ctx]: probe returns at once and the
    structure is released with the device. *)
Definition cwu50_probe (k : kernel_headers) (bw : drm_world) (dsi : handle)
  : M (drm_env Cw.cwu50_panel) Z :=
  ok <- devm_kzalloc bw ;;
  if negb ok then Return (- ENOMEM k)
  else
    write_ctx (fun _ => zeroed) ;;
    g <- devm_gpiod_get bw "reset" GPIOD_OUT_HIGH ;;
    match g with
    | inr e => dev_err_probe (Z.neg e) "Failed to get reset-gpios\n"
    | inl g =>
    write_ctx (set_reset_gpio g) ;;
    v <- devm_regulator_get bw "vci" ;;
    match v with
    | inr e => dev_err_probe (Z.neg e) "Failed to get vci regulator\n"
    | inl v =>
    write_ctx (set_vci v) ;;
    i <- devm_regulator_get bw "iovcc" ;;
    match i with
    | inr e => dev_err_probe (Z.neg e) "Failed to get iovcc regulator\n"
    | inl i =>
    write_ctx (set_iovcc i) ;;
    write_ctx (set_dsi dsi) ;;
    mipi_dsi_set_drvdata dsi ;;
    write_dsi (set_lanes 4) ;;
    write_dsi (set_format MIPI_DSI_FMT_RGB888) ;;
    write_dsi (set_mode_flags
                 (Z.lor (Z.lor (MIPI_DSI_MODE_VIDEO k) (MIPI_DSI_MODE_VIDEO_BURST k))
                        (MIPI_DSI_MODE_VIDEO_SYNC_PULSE k))) ;;
    drm_panel_init (DRM_MODE_CONNECTOR_DSI k) ;;
    write_prepare_first true ;;
    ret <- drm_panel_of_backlight bw ;;
    if ret <? 0 then dev_err_probe ret "Failed to get backlight\n"
    else
      drm_panel_add ;;
      ret <- mipi_dsi_attach bw dsi ;;
      if ret <? 0 then
        dev_err "mipi_dsi_attach() failed: %d\n" [ret] ;;
        drm_panel_remove ;;
        Return ret
      else Return 0
    end
    end
    end.

(** [cwu50_remove(dsi)]; [ctx] is read back with the accessor
    [mipi_dsi_get_drvdata]. *)
Definition cwu50_remove (bw : drm_world) (dsi : handle)
  : M (drm_env Cw.cwu50_panel) unit :=
  ret <- mipi_dsi_detach bw dsi ;;
  (if ret <? 0 then dev_err "failed to detach from DSI host: %d\n" [ret]
   else Return tt) ;;
  drm_panel_remove.

End CwDrm.

(** ** Observing the binding calls *)

(** The calls into the kernel that running [c] from [m] added. *)
Definition calls_of {P A} (c : M (drm_env P) A) (m : machine (drm_env P))
  : list drm_event :=
  skipn (length (calls (ctx m))) (calls (ctx (snd (c m)))).

(** Whether the panel is on the DRM core's list after some calls, given
    whether it was before. *)
Definition registered_step (b : bool) (e : drm_event) : bool :=
  match fst e with
  | DrmPanelAdd => true
  | DrmPanelRemove => false
  | _ => b
  end.

Definition panel_registered (before : bool) (evs : list drm_event) : bool :=
  fold_left registered_step evs before.

(** The modes handed to [drm_mode_probed_add]. *)
Fixpoint probed_modes (evs : list drm_event) : list drm_display_mode :=
  match evs with
  | [] => []
  | (DrmModeProbedAdd mode, _) :: rest => mode :: probed_modes rest
  | _ :: rest => probed_modes rest
  end.

(** The lifecycle machine of a panel as probe leaves it: the structure probe
    filled in, no hardware call made yet. *)
Definition bound_panel {P} (m : machine (drm_env P)) : machine P :=
  Machine (panel_ctx (ctx m)) [] [].

(** ** A sample kernel *)

Definition linux_headers : kernel_headers :=
  {| ENOMEM := 12;
     DRM_MODE_TYPE_PREFERRED := 8;
     DRM_MODE_TYPE_DRIVER := 64;
     MIPI_DSI_MODE_VIDEO := 1;
     MIPI_DSI_MODE_VIDEO_BURST := 2;
     MIPI_DSI_MODE_VIDEO_SYNC_PULSE := 4;
     DRM_MODE_CONNECTOR_DSI := 16 |}.

(** A kernel where everything succeeds: the reset line is pointer 3, VCI
    pointer 1, IOVCC pointer 2; a duplicated mode is a copy and naming a mode
    leaves its fields alone; no rotation is stored. *)
Definition kernel_ok : drm_world :=
  {| kzalloc_ok := fun _ => true;
     get_pointer := fun _ c =>
       match c with
       | DevmGpiodGet _ _ => inl 3%nat
       | DevmRegulatorGet id => if String.eqb id "vci" then inl 1%nat else inl 2%nat
       | _ => inl 0%nat
       end;
     get_int := fun _ _ => 0;
     get_orientation := fun _ _ => (0, Some 0);
     dup_mode := fun _ mode => Some mode;
     named_mode := fun _ mode => mode |}.

(** As [kernel_ok], but attaching to the DSI host fails with [e]. *)
Definition kernel_attach_fails (e : Z) : drm_world :=
  {| kzalloc_ok := kzalloc_ok kernel_ok;
     get_pointer := get_pointer kernel_ok;
     get_int := fun _ c =>
       match c with
       | DevmMipiDsiAttach _ => e
       | MipiDsiAttach _ => e
       | _ => 0
       end;
     get_orientation := get_orientation kernel_ok;
     dup_mode := dup_mode kernel_ok;
     named_mode := named_mode kernel_ok |}.

(** As [kernel_ok], but out of memory. *)
Definition kernel_no_memory : drm_world :=
  {| kzalloc_ok := fun _ => false;
     get_pointer := get_pointer kernel_ok;
     get_int := get_int kernel_ok;
     get_orientation := get_orientation kernel_ok;
     dup_mode := fun _ _ => None;
     named_mode := named_mode kernel_ok |}.

(** A DSI device and a connector before the driver has touched them. *)
Definition fresh_dsi : mipi_dsi_device :=
  {| of_node := 7%nat; mode_flags := 0; format := MIPI_DSI_FMT_RGB565;
     lanes := 0; channel := 0 |}.

Definition fresh_connector : drm_connector :=
  {| display_info_width_mm := 0; display_info_height_mm := 0 |}.

Definition unbound {P} (c : P) : machine (drm_env P) :=
  Machine (DrmEnv c false fresh_dsi fresh_connector []) [] [].

(** * Properties *)

(** ** Traces *)

Lemma skipn_length_app {A} (l evs : list A) : skipn (length l) (l ++ evs) = evs.
Proof. induction l as [|x l IH]; simpl; auto. Qed.

Lemma events_since_app {P} (m m' : machine P) (evs : list event) :
  trace m' = trace m ++ evs -> events_since m m' = evs.
Proof. unfold events_since. intros ->. apply skipn_length_app. Qed.

Lemma events_since_refl {P} (m : machine P) : events_since m m = [].
Proof. apply events_since_app. now rewrite app_nil_r. Qed.

Lemma dcs_writes_app (a b : list event) :
  dcs_writes (a ++ b) = dcs_writes a ++ dcs_writes b.
Proof.
  induction a as [|[act r] a IH]; simpl; auto.
  destruct act; simpl; auto. now rewrite IH.
Qed.

Lemma dcs_writes_combine (d : handle) (cs : list cwu50_init_cmd) :
  forall rs, dcs_writes (combine (map (write_of d) cs) rs)
             = combine (map data cs) rs.
Proof.
  induction cs as [|c cs IH]; intros [|r rs]; simpl; auto.
  now rewrite IH.
Qed.

Lemma actions_combine (acts : list action) :
  forall rs : list Z, length rs = length acts -> actions (combine acts rs) = acts.
Proof.
  unfold actions.
  induction acts as [|a acts IH]; intros [|r rs] H; simpl in *; try discriminate; auto.
  f_equal. apply IH. congruence.
Qed.

(** ** The transmit loop *)

Lemma for_each_cons {P X} (x : X) (xs : list X) (body : X -> M P (option Z))
  (m : machine P) :
  for_each (x :: xs) body m =
    let (r, m') := body x m in
    match r with
    | Some v => (Some v, m')
    | None => for_each xs body m'
    end.
Proof.
  cbn [for_each]. unfold bind.
  destruct (body x m) as [[v|] m']; reflexivity.
Qed.

Section ForEach.
Context {P X : Type} (w : world) (act : X -> action).
Context (errlog : X -> Z -> log_msg) (body : X -> M P (option Z)).

(** The body makes one call; a negative result is logged and returned. *)
Hypothesis body_spec : forall x m,
  body x m =
    let r := w (trace m) (act x) in
    (if r <? 0 then Some r else None,
     Machine (ctx m) (trace m ++ [(act x, r)])
             (if r <? 0 then klog m ++ [errlog x r] else klog m)).

(** The loop either visits every element, each call succeeding, or stops
    at the first element whose call fails, having logged that failure. *)
Lemma for_each_spec (xs : list X) : forall m,
  (exists rs,
      length rs = length xs /\ Forall (fun r => 0 <= r) rs /\
      for_each xs body m =
        (None, Machine (ctx m) (trace m ++ combine (map act xs) rs) (klog m)))
  \/
  (exists k x rs e,
      nth_error xs k = Some x /\ length rs = k /\
      Forall (fun r => 0 <= r) rs /\ e < 0 /\
      for_each xs body m =
        (Some e,
         Machine (ctx m)
                 (trace m ++ combine (map act (firstn k xs)) rs ++ [(act x, e)])
                 (klog m ++ [errlog x e]))).
Proof.
  induction xs as [|x xs IH]; intro m.
  - left. exists []. simpl. rewrite app_nil_r. destruct m; auto.
  - rewrite for_each_cons, body_spec. cbv zeta.
    set (r := w (trace m) (act x)).
    destruct (Z.ltb_spec r 0) as [Hneg|Hpos].
    + right. exists 0%nat, x, [], r. simpl. auto.
    + set (m1 := Machine (ctx m) (trace m ++ [(act x, r)]) (klog m)).
      destruct (IH m1) as [(rs & Hlen & Hall & Heq)|(k & y & rs & e & Hy & Hlen & Hall & He & Heq)].
      * left. exists (r :: rs). simpl. repeat split; auto.
        rewrite Heq. unfold m1. simpl. now rewrite <- app_assoc.
      * right. exists (S k), y, (r :: rs), e. simpl. repeat split; auto.
        rewrite Heq. unfold m1. simpl. now rewrite <- app_assoc.
Qed.
End ForEach.

(** ** panel-clockwork-cwu50.c *)

Opaque Clockwork.cwu50_panel_init_cmds Cw.cwu50_panel_init_cmds.

Ltac run :=
  cbv beta iota zeta delta
    [bind Return get_ctx set_ctx call call_void printk dev_dbg dev_err
     dev_err_ratelimited regulator_enable regulator_disable
     gpiod_set_value_cansleep usleep_range msleep mipi_dsi_dcs_write_buffer
     mipi_dsi_dcs_exit_sleep_mode mipi_dsi_dcs_enter_sleep_mode
     mipi_dsi_dcs_set_display_on mipi_dsi_dcs_set_display_off
     mipi_dsi_dcs_set_tear_on ctx trace klog].

Ltac tidy := repeat rewrite <- app_assoc; cbn [app].

(** Split on the test [ret < 0] the goal is stuck on. *)
Ltac case_ret H :=
  match goal with
  | |- context [?r <? 0] => destruct (Z.ltb_spec r 0) as [H|H]
  end.

Lemma ck_send_init_cmd_spec (w : world) (d : handle) (c : cwu50_init_cmd)
  (m : machine Clockwork.cwu50_panel) :
  Clockwork.send_init_cmd w d c m =
    let r := w (trace m) (write_of d c) in
    (if r <? 0 then Some r else None,
     Machine (ctx m) (trace m ++ [(write_of d c, r)])
             (if r <? 0 then klog m ++ [write_failed_msg c r] else klog m)).
Proof.
  unfold Clockwork.send_init_cmd, write_of, write_failed_msg. run.
  case_ret H; reflexivity.
Qed.

Lemma ck_init_sequence_spec (w : world) (m : machine Clockwork.cwu50_panel) :
  let d := Clockwork.dsi (ctx m) in
  let table := Clockwork.cwu50_panel_init_cmds in
  let dbg := Log KERN_DEBUG "Sending initialization sequence\n" [] in
  (exists rs,
      length rs = length table /\ Forall (fun r => 0 <= r) rs /\
      Clockwork.cwu50_init_sequence w m =
        (0, Machine (ctx m) (trace m ++ table_writes d table (length table) rs)
                    (klog m ++ [dbg])))
  \/
  (exists k c rs e,
      nth_error table k = Some c /\ length rs = k /\
      Forall (fun r => 0 <= r) rs /\ e < 0 /\
      Clockwork.cwu50_init_sequence w m =
        (e, Machine (ctx m)
                    (trace m ++ table_writes d table k rs ++ [(write_of d c, e)])
                    (klog m ++ [dbg; write_failed_msg c e]))).
Proof.
  destruct m as [p h l]. intros d table dbg. cbn [ctx] in d.
  unfold Clockwork.cwu50_init_sequence, table_writes. run. fold d table dbg.
  destruct (for_each_spec w (write_of d) write_failed_msg
              (Clockwork.send_init_cmd w d) (ck_send_init_cmd_spec w d) table
              (Machine p h (l ++ [dbg])))
    as [(rs & Hlen & Hall & Heq)|(k & c & rs & e & Hc & Hlen & Hall & He & Heq)];
    rewrite Heq; cbn [ctx trace klog].
  - left. exists rs. rewrite firstn_all. auto.
  - right. exists k, c, rs, e. tidy. auto 10.
Qed.

(** How a call of [cwu50_prepare] can go: IOVCC refuses; VCI refuses and
    IOVCC is switched off again; a table write fails and the panel is put
    back in reset and powered down; or everything succeeds. *)
Lemma ck_prepare_cases (w : world) (m : machine Clockwork.cwu50_panel) :
  let c := ctx m in
  let d := Clockwork.dsi c in
  let table := Clockwork.cwu50_panel_init_cmds in
  exists ret evs logs,
    Clockwork.cwu50_prepare w m
      = (ret, Machine c (trace m ++ evs) (klog m ++ logs)) /\
    ((exists r1, r1 < 0 /\ ret = r1 /\
        evs = [(RegulatorEnable (Clockwork.iovcc c), r1)])
     \/
     (exists r1 r2 ri, 0 <= r1 /\ r2 < 0 /\ ret = r2 /\
        evs = [(RegulatorEnable (Clockwork.iovcc c), r1);
               (UsleepRange 1000 5000, 0);
               (RegulatorEnable (Clockwork.vci c), r2);
               (RegulatorDisable (Clockwork.iovcc c), ri)])
     \/
     (exists r1 r2 k x rs e rv ri,
        0 <= r1 /\ 0 <= r2 /\ nth_error table k = Some x /\ length rs = k /\
        Forall (fun r => 0 <= r) rs /\ e < 0 /\ ret = e /\
        evs = ck_power_on c r1 r2 ++ table_writes d table k rs
              ++ [(write_of d x, e)] ++ ck_rollback c rv ri)
     \/
     (exists r1 r2 rs,
        0 <= r1 /\ 0 <= r2 /\ length rs = length table /\
        Forall (fun r => 0 <= r) rs /\ ret = 0 /\
        evs = ck_power_on c r1 r2 ++ table_writes d table (length table) rs)).
Proof.
  destruct m as [p h l]. cbv zeta. cbn [ctx trace klog].
  unfold Clockwork.cwu50_prepare. run.
  set (r1 := w h (RegulatorEnable (Clockwork.iovcc p))).
  case_ret H1.
  { do 3 eexists. split; [tidy; reflexivity|]. left. exists r1. auto. }
  match goal with |- context [w ?h' (RegulatorEnable (Clockwork.vci p))] =>
    set (r2 := w h' (RegulatorEnable (Clockwork.vci p))) end.
  case_ret H2.
  { unfold Clockwork.disable_iovcc. run.
    do 3 eexists. split; [tidy; reflexivity|]. right. left.
    eexists r1, r2, _. repeat split; auto. }
  unfold Clockwork.cwu50_reset. run.
  match goal with |- context [Clockwork.cwu50_init_sequence w ?m0] =>
    destruct (ck_init_sequence_spec w m0)
      as [(rs & Hlen & Hall & Heq)|(k & x & rs & e & Hx & Hlen & Hall & He & Heq)];
    rewrite Heq; cbn [ctx trace klog]
  end.
  - change (0 <? 0) with false. cbv iota.
    do 3 eexists. split; [tidy; reflexivity|]. do 3 right.
    exists r1, r2, rs. repeat split; auto.
  - destruct (Z.ltb_spec e 0) as [_|Hge]; [|lia].
    unfold Clockwork.disable_vci, Clockwork.disable_iovcc. run.
    do 3 eexists. split; [tidy; reflexivity|]. do 2 right. left.
    eexists r1, r2, k, x, rs, e, _, _. repeat split; eauto.
Qed.

(** ** panel-cw-cwu50.c *)

Lemma cw_send_init_cmd_spec (w : world) (d : handle) (c : cwu50_init_cmd)
  (m : machine Cw.cwu50_panel) :
  Cw.send_init_cmd w d c m =
    let r := w (trace m) (write_of d c) in
    (if r <? 0 then Some r else None,
     Machine (ctx m) (trace m ++ [(write_of d c, r)])
             (if r <? 0 then klog m ++ [write_failed_msg c r] else klog m)).
Proof.
  unfold Cw.send_init_cmd, write_of, write_failed_msg. run.
  case_ret H; reflexivity.
Qed.

Lemma cw_init_sequence_prepared (w : world) (m : machine Cw.cwu50_panel) :
  Cw.prepared (ctx m) = true -> Cw.cwu50_init_sequence w m = (0, m).
Proof.
  destruct m as [p h l]. cbn [ctx]. intro Hp.
  unfold Cw.cwu50_init_sequence. run. now rewrite Hp.
Qed.

(** The init sequence of this variant ends with "exit sleep mode", which can
    fail as well. *)
Lemma cw_init_sequence_spec (w : world) (m : machine Cw.cwu50_panel) :
  let d := Cw.dsi (ctx m) in
  let table := Cw.cwu50_panel_init_cmds in
  let dbg := Log KERN_DEBUG "Sending initialization sequence\n" [] in
  let dbg' := Log KERN_DEBUG "Exiting sleep mode\n" [] in
  Cw.prepared (ctx m) = false ->
  (exists rs rx,
      length rs = length table /\ Forall (fun r => 0 <= r) rs /\ 0 <= rx /\
      Cw.cwu50_init_sequence w m =
        (0, Machine (ctx m)
                    (trace m ++ table_writes d table (length table) rs
                             ++ [(DcsExitSleepMode d, rx)])
                    (klog m ++ [dbg; dbg'])))
  \/
  (exists k c rs e,
      nth_error table k = Some c /\ length rs = k /\
      Forall (fun r => 0 <= r) rs /\ e < 0 /\
      Cw.cwu50_init_sequence w m =
        (e, Machine (ctx m)
                    (trace m ++ table_writes d table k rs ++ [(write_of d c, e)])
                    (klog m ++ [dbg; write_failed_msg c e])))
  \/
  (exists rs rx,
      length rs = length table /\ Forall (fun r => 0 <= r) rs /\ rx < 0 /\
      Cw.cwu50_init_sequence w m =
        (rx, Machine (ctx m)
                     (trace m ++ table_writes d table (length table) rs
                              ++ [(DcsExitSleepMode d, rx)])
                     (klog m ++ [dbg; dbg';
                                 Log KERN_ERR "failed to exit sleep mode at init: %d\n" [rx]]))).
Proof.
  destruct m as [p h l]. cbv zeta. cbn [ctx trace klog]. intro Hp.
  unfold Cw.cwu50_init_sequence, table_writes. run. rewrite Hp.
  set (d := Cw.dsi p). set (table := Cw.cwu50_panel_init_cmds).
  match goal with |- context [for_each table _ ?m0] =>
    destruct (for_each_spec w (write_of d) write_failed_msg
                (Cw.send_init_cmd w d) (cw_send_init_cmd_spec w d) table m0)
      as [(rs & Hlen & Hall & Heq)|(k & c & rs & e & Hc & Hlen & Hall & He & Heq)];
    rewrite Heq; cbn [ctx trace klog]
  end.
  - rewrite firstn_all.
    match goal with |- context [w ?h' (DcsExitSleepMode d)] =>
      set (rx := w h' (DcsExitSleepMode d)) end.
    case_ret Hx.
    + do 2 right. exists rs, rx. tidy. auto.
    + left. exists rs, rx. tidy. auto.
  - right. left. exists k, c, rs, e. tidy. auto 10.
Qed.

(** How a call of [cwu50_prepare] can go on a panel that is not prepared.
    The panel ends up prepared exactly when the call succeeds. *)
Lemma cw_prepare_cases (w : world) (m : machine Cw.cwu50_panel) :
  let c := ctx m in
  let d := Cw.dsi c in
  let table := Cw.cwu50_panel_init_cmds in
  Cw.prepared c = false ->
  exists ret evs logs c',
    Cw.cwu50_prepare w m
      = (ret, Machine c' (trace m ++ evs) (klog m ++ logs)) /\
    ((exists r1, r1 < 0 /\ ret = r1 /\ c' = c /\
        evs = [(RegulatorEnable (Cw.iovcc c), r1)])
     \/
     (exists r1 r2 ri, 0 <= r1 /\ r2 < 0 /\ ret = r2 /\ c' = c /\
        evs = [(RegulatorEnable (Cw.iovcc c), r1);
               (RegulatorEnable (Cw.vci c), r2);
               (RegulatorDisable (Cw.iovcc c), ri)])
     \/
     (exists r1 r2 k x rs e rv ri,
        0 <= r1 /\ 0 <= r2 /\ nth_error table k = Some x /\ length rs = k /\
        Forall (fun r => 0 <= r) rs /\ e < 0 /\ ret = e /\ c' = c /\
        evs = cw_power_on c r1 r2 ++ table_writes d table k rs
              ++ [(write_of d x, e)] ++ cw_rollback c rv ri)
     \/
     (exists r1 r2 rs rx rv ri,
        0 <= r1 /\ 0 <= r2 /\ length rs = length table /\
        Forall (fun r => 0 <= r) rs /\ rx < 0 /\ ret = rx /\ c' = c /\
        evs = cw_power_on c r1 r2 ++ table_writes d table (length table) rs
              ++ [(DcsExitSleepMode d, rx)] ++ cw_rollback c rv ri)
     \/
     (exists r1 r2 rs rx,
        0 <= r1 /\ 0 <= r2 /\ length rs = length table /\
        Forall (fun r => 0 <= r) rs /\ 0 <= rx /\ ret = 0 /\
        c' = Cw.set_prepared true c /\
        evs = cw_power_on c r1 r2 ++ table_writes d table (length table) rs
              ++ [(DcsExitSleepMode d, rx)])).
Proof.
  destruct m as [p h l]. cbv zeta. cbn [ctx trace klog]. intro Hp.
  unfold Cw.cwu50_prepare. run. rewrite Hp.
  set (r1 := w h (RegulatorEnable (Cw.iovcc p))).
  case_ret H1.
  { do 4 eexists. split; [tidy; reflexivity|]. left. exists r1. auto. }
  match goal with |- context [w ?h' (RegulatorEnable (Cw.vci p))] =>
    set (r2 := w h' (RegulatorEnable (Cw.vci p))) end.
  case_ret H2.
  { unfold Cw.disable_iovcc. run.
    do 4 eexists. split; [tidy; reflexivity|]. right. left.
    eexists r1, r2, _. repeat split; auto. }
  unfold Cw.cwu50_reset. run.
  match goal with |- context [Cw.cwu50_init_sequence w ?m0] =>
    destruct (cw_init_sequence_spec w m0 Hp)
      as [(rs & rx & Hlen & Hall & Hx & Heq)
         |[(k & x & rs & e & Hx & Hlen & Hall & He & Heq)
          |(rs & rx & Hlen & Hall & Hx & Heq)]];
    rewrite Heq; cbn [ctx trace klog]
  end.
  - change (0 <? 0) with false. cbv iota. unfold Cw.write_prepared. run.
    do 4 eexists. split; [tidy; reflexivity|]. do 4 right.
    exists r1, r2, rs, rx. repeat split; auto.
  - destruct (Z.ltb_spec e 0) as [_|Hge]; [|lia].
    unfold Cw.disable_vci, Cw.disable_iovcc. run.
    do 4 eexists. split; [tidy; reflexivity|]. do 2 right. left.
    eexists r1, r2, k, x, rs, e, _, _. repeat split; eauto.
  - destruct (Z.ltb_spec rx 0) as [_|Hge]; [|lia].
    unfold Cw.disable_vci, Cw.disable_iovcc. run.
    do 4 eexists. split; [tidy; reflexivity|]. do 3 right. left.
    eexists r1, r2, rs, rx, _, _. repeat split; eauto.
Qed.

Lemma cw_prepare_prepared (w : world) (m : machine Cw.cwu50_panel) :
  Cw.prepared (ctx m) = true -> Cw.cwu50_prepare w m = (0, m).
Proof.
  destruct m as [p h l]. cbn [ctx]. intro Hp.
  unfold Cw.cwu50_prepare. run. now rewrite Hp.
Qed.

(** ** enable, disable and unprepare, case by case *)

(** Name the answer the goal is about to test. *)
Ltac name_ret r :=
  match goal with
  | |- context [?w ?h ?a <? 0] => set (r := w h a)
  end.

Lemma ck_enable_cases (w : world) (m : machine Clockwork.cwu50_panel) :
  let d := Clockwork.dsi (ctx m) in
  exists ret evs logs,
    Clockwork.cwu50_enable w m
      = (ret, Machine (ctx m) (trace m ++ evs) (klog m ++ logs)) /\
    ((exists r1, r1 < 0 /\ ret = r1 /\ evs = [(DcsExitSleepMode d, r1)])
     \/
     (exists r1 r2, 0 <= r1 /\ r2 < 0 /\ ret = r2 /\
        evs = [(DcsExitSleepMode d, r1); (Msleep 120, 0); (DcsSetDisplayOn d, r2)])
     \/
     (exists r1 r2 r3, 0 <= r1 /\ 0 <= r2 /\ r3 < 0 /\ ret = r3 /\
        evs = [(DcsExitSleepMode d, r1); (Msleep 120, 0); (DcsSetDisplayOn d, r2);
               (Msleep 10, 0); (DcsSetTearOn d MIPI_DSI_DCS_TEAR_MODE_VBLANK, r3)])
     \/
     (exists r1 r2 r3, 0 <= r1 /\ 0 <= r2 /\ 0 <= r3 /\ ret = 0 /\
        evs = [(DcsExitSleepMode d, r1); (Msleep 120, 0); (DcsSetDisplayOn d, r2);
               (Msleep 10, 0); (DcsSetTearOn d MIPI_DSI_DCS_TEAR_MODE_VBLANK, r3)])).
Proof.
  destruct m as [p h l]. cbv zeta. cbn [ctx trace klog].
  unfold Clockwork.cwu50_enable. run.
  name_ret r1. case_ret H1.
  { do 3 eexists. split; [tidy; reflexivity|]. left. exists r1. auto. }
  name_ret r2. case_ret H2.
  { do 3 eexists. split; [tidy; reflexivity|]. right. left. exists r1, r2. auto. }
  name_ret r3. case_ret H3.
  - do 3 eexists. split; [tidy; reflexivity|]. do 2 right. left.
    exists r1, r2, r3. auto 6.
  - do 3 eexists. split; [tidy; reflexivity|]. do 3 right.
    exists r1, r2, r3. auto 6.
Qed.

Lemma ck_disable_cases (w : world) (m : machine Clockwork.cwu50_panel) :
  let d := Clockwork.dsi (ctx m) in
  exists ret evs logs,
    Clockwork.cwu50_disable w m
      = (ret, Machine (ctx m) (trace m ++ evs) (klog m ++ logs)) /\
    ((exists r1, r1 < 0 /\ ret = r1 /\ evs = [(DcsSetDisplayOff d, r1)])
     \/
     (exists r1 r2, 0 <= r1 /\ r2 < 0 /\ ret = r2 /\
        evs = [(DcsSetDisplayOff d, r1); (Msleep 50, 0); (DcsEnterSleepMode d, r2)])
     \/
     (exists r1 r2, 0 <= r1 /\ 0 <= r2 /\ ret = 0 /\
        evs = [(DcsSetDisplayOff d, r1); (Msleep 50, 0); (DcsEnterSleepMode d, r2);
               (Msleep 100, 0)])).
Proof.
  destruct m as [p h l]. cbv zeta. cbn [ctx trace klog].
  unfold Clockwork.cwu50_disable. run.
  name_ret r1. case_ret H1.
  { do 3 eexists. split; [tidy; reflexivity|]. left. exists r1. auto. }
  name_ret r2. case_ret H2.
  - do 3 eexists. split; [tidy; reflexivity|]. right. left. exists r1, r2. auto.
  - do 3 eexists. split; [tidy; reflexivity|]. do 2 right. exists r1, r2. auto.
Qed.

(** Teardown never stops: whatever the regulators answer, all five steps run
    and the call returns 0. *)
Lemma ck_unprepare_spec (w : world) (m : machine Clockwork.cwu50_panel) :
  let c := ctx m in
  exists rv ri logs,
    Clockwork.cwu50_unprepare w m
      = (0, Machine c
              (trace m ++ [(GpiodSetValue (Clockwork.reset_gpio c) 0, 0);
                           (UsleepRange 1000 10000, 0);
                           (RegulatorDisable (Clockwork.vci c), rv);
                           (UsleepRange 1000 20000, 0);
                           (RegulatorDisable (Clockwork.iovcc c), ri)])
              (klog m ++ logs)) /\
    rv = w (trace m ++ [(GpiodSetValue (Clockwork.reset_gpio c) 0, 0);
                        (UsleepRange 1000 10000, 0)])
           (RegulatorDisable (Clockwork.vci c)).
Proof.
  destruct m as [p h l]. cbv zeta. cbn [ctx trace klog].
  unfold Clockwork.cwu50_unprepare. run.
  name_ret rv. case_ret Hv; run; name_ret ri; case_ret Hi; run;
    exists rv, ri; eexists; (split; [tidy; reflexivity|]);
    subst rv; tidy; reflexivity.
Qed.

Lemma cw_enable_cases (w : world) (m : machine Cw.cwu50_panel) :
  let d := Cw.dsi (ctx m) in
  exists ret evs logs,
    Cw.cwu50_enable w m
      = (ret, Machine (ctx m) (trace m ++ evs) (klog m ++ logs)) /\
    ((exists r2, r2 < 0 /\ ret = r2 /\
        evs = [(Msleep 120, 0); (DcsSetDisplayOn d, r2)])
     \/
     (exists r2 r3, 0 <= r2 /\ r3 < 0 /\ ret = r3 /\
        evs = [(Msleep 120, 0); (DcsSetDisplayOn d, r2);
               (Msleep 20, 0); (DcsSetTearOn d MIPI_DSI_DCS_TEAR_MODE_VBLANK, r3)])
     \/
     (exists r2 r3, 0 <= r2 /\ 0 <= r3 /\ ret = 0 /\
        evs = [(Msleep 120, 0); (DcsSetDisplayOn d, r2);
               (Msleep 20, 0); (DcsSetTearOn d MIPI_DSI_DCS_TEAR_MODE_VBLANK, r3)])).
Proof.
  destruct m as [p h l]. cbv zeta. cbn [ctx trace klog].
  unfold Cw.cwu50_enable. run.
  name_ret r2. case_ret H2.
  { do 3 eexists. split; [tidy; reflexivity|]. left. exists r2. auto. }
  name_ret r3. case_ret H3.
  - do 3 eexists. split; [tidy; reflexivity|]. right. left. exists r2, r3. auto.
  - eexists _, _, []. split; [rewrite (app_nil_r l); tidy; reflexivity|].
    do 2 right. exists r2, r3. auto.
Qed.

(** [cwu50_disable] of this variant is a single transport call. *)
Lemma cw_disable_spec (w : world) (m : machine Cw.cwu50_panel) :
  Cw.cwu50_disable w m =
    let r := w (trace m) (DcsSetDisplayOff (Cw.dsi (ctx m))) in
    (r, Machine (ctx m) (trace m ++ [(DcsSetDisplayOff (Cw.dsi (ctx m)), r)]) (klog m)).
Proof. destruct m as [p h l]. reflexivity. Qed.

Lemma cw_unprepare_unprepared (w : world) (m : machine Cw.cwu50_panel) :
  Cw.prepared (ctx m) = false -> Cw.cwu50_unprepare w m = (0, m).
Proof.
  destruct m as [p h l]. cbn [ctx]. intro Hp.
  unfold Cw.cwu50_unprepare. run. now rewrite Hp.
Qed.

(** On a prepared panel all nine teardown steps run, whatever the transport
    and the regulators answer; the flag is cleared and the call returns 0. *)
Lemma cw_unprepare_spec (w : world) (m : machine Cw.cwu50_panel) :
  let c := ctx m in
  let d := Cw.dsi c in
  Cw.prepared c = true ->
  exists r1 r2 rv ri logs,
    Cw.cwu50_unprepare w m
      = (0, Machine (Cw.set_prepared false c)
              (trace m ++ [(DcsSetDisplayOff d, r1);
                           (Msleep 20, 0);
                           (DcsEnterSleepMode d, r2);
                           (Msleep 120, 0);
                           (GpiodSetValue (Cw.reset_gpio c) 0, 0);
                           (Msleep 20, 0);
                           (RegulatorDisable (Cw.vci c), rv);
                           (UsleepRange 1000 20000, 0);
                           (RegulatorDisable (Cw.iovcc c), ri)])
              (klog m ++ logs)).
Proof.
  destruct m as [p h l]. cbv zeta. cbn [ctx trace klog]. intro Hp.
  unfold Cw.cwu50_unprepare, Cw.write_prepared. run. rewrite Hp. cbn [negb].
  name_ret r1. case_ret H1; run; name_ret r2; case_ret H2; run;
    name_ret rv; case_ret Hv; run; name_ret ri; case_ret Hi; run;
    exists r1, r2, rv, ri;
    first [ eexists; tidy; reflexivity
          | exists []; rewrite (app_nil_r l); tidy; reflexivity ].
Qed.

(** ** Reading the writes off a trace *)

Lemma dcs_writes_table_writes (d : handle) (table : list cwu50_init_cmd)
  (k : nat) (rs : list Z) :
  dcs_writes (table_writes d table k rs) = combine (map data (firstn k table)) rs.
Proof. apply dcs_writes_combine. Qed.

Lemma actions_table_writes (d : handle) (table : list cwu50_init_cmd) (rs : list Z) :
  length rs = length table ->
  actions (table_writes d table (length table) rs) = map (write_of d) table.
Proof.
  intro H. unfold table_writes. rewrite firstn_all.
  apply actions_combine. now rewrite length_map.
Qed.

Lemma nth_error_combine_Forall {A} (Q : Z -> Prop) (xs : list A) :
  forall rs n b r,
    nth_error (combine xs rs) n = Some (b, r) -> Forall Q rs -> Q r.
Proof.
  induction xs as [|x xs IH]; intros [|r0 rs] [|n] b r H HQ;
    simpl in H; try discriminate; inversion HQ; subst.
  - now inversion H; subst.
  - eauto.
Qed.

(** Among [k] successful writes followed by one failed write, a write with a
    negative result can only be the last one. *)
Lemma failed_write_position (table : list cwu50_init_cmd) (k : nat)
  (x : cwu50_init_cmd) (rs : list Z) (e : Z) (n : nat) (buf : list Z) (r : Z) :
  nth_error table k = Some x -> length rs = k -> Forall (fun r => 0 <= r) rs ->
  nth_error (combine (map data (firstn k table)) rs ++ [(data x, e)]) n
    = Some (buf, r) ->
  r < 0 ->
  n = k /\ buf = data x /\ r = e.
Proof.
  intros Hx Hlen Hall Hn Hr.
  assert (Hk : (k < length table)%nat)
    by (apply nth_error_Some; rewrite Hx; discriminate).
  assert (Hc : length (combine (map data (firstn k table)) rs) = k)
    by (rewrite length_combine, length_map, length_firstn; lia).
  destruct (Nat.lt_ge_cases n k) as [Hlt|Hge].
  - rewrite nth_error_app1 in Hn by lia.
    pose proof (nth_error_combine_Forall _ _ _ _ _ _ Hn Hall) as Hpos.
    simpl in Hpos. lia.
  - rewrite nth_error_app2, Hc in Hn by lia.
    destruct (n - k)%nat as [|j] eqn:Hj.
    + simpl in Hn. inversion Hn; subst. repeat split; auto. lia.
    + simpl in Hn. destruct j; discriminate.
Qed.

(** * The claims *)

(** ** C1: order of the steps of a successful prepare *)

(** C1 (as the code has it).  In panel-clockwork-cwu50.c every successful
    [cwu50_prepare] makes exactly these hardware calls, in this order: enable
    IOVCC, sleep 1-5 ms, enable VCI, reset line high, sleep 5-10 ms, low,
    sleep 1-10 ms, high, sleep 10-20 ms, then one transport write per table
    entry in table order; this is the order the specification words.  In
    panel-cw-cwu50.c a successful [cwu50_prepare] on a panel that is already
    prepared makes no hardware call at all, and otherwise makes exactly:
    enable IOVCC, enable VCI (no delay in between), reset line high, sleep
    10-20 ms, low, sleep 10-20 ms, high, sleep 120 ms, one write per table
    entry in table order, and then "exit sleep mode". *)
Theorem prepare_order :
  (forall (w : world) (m : machine Clockwork.cwu50_panel),
      let c := ctx m in
      let acts := actions (events_of (Clockwork.cwu50_prepare w) m) in
      0 <= result_of (Clockwork.cwu50_prepare w) m ->
      acts = [RegulatorEnable (Clockwork.iovcc c);
              UsleepRange 1000 5000;
              RegulatorEnable (Clockwork.vci c);
              GpiodSetValue (Clockwork.reset_gpio c) 1;
              UsleepRange 5000 10000;
              GpiodSetValue (Clockwork.reset_gpio c) 0;
              UsleepRange 1000 10000;
              GpiodSetValue (Clockwork.reset_gpio c) 1;
              UsleepRange 10000 20000]
             ++ map (write_of (Clockwork.dsi c)) Clockwork.cwu50_panel_init_cmds
      /\ power_on_then_table (Clockwork.dsi c) (Clockwork.iovcc c) (Clockwork.vci c)
           (Clockwork.reset_gpio c) Clockwork.cwu50_panel_init_cmds acts)
  /\
  (forall (w : world) (m : machine Cw.cwu50_panel),
      let c := ctx m in
      let acts := actions (events_of (Cw.cwu50_prepare w) m) in
      0 <= result_of (Cw.cwu50_prepare w) m ->
      if Cw.prepared c then acts = []
      else
        acts = [RegulatorEnable (Cw.iovcc c);
                RegulatorEnable (Cw.vci c);
                GpiodSetValue (Cw.reset_gpio c) 1;
                UsleepRange 10000 20000;
                GpiodSetValue (Cw.reset_gpio c) 0;
                UsleepRange 10000 20000;
                GpiodSetValue (Cw.reset_gpio c) 1;
                Msleep 120]
               ++ map (write_of (Cw.dsi c)) Cw.cwu50_panel_init_cmds
               ++ [DcsExitSleepMode (Cw.dsi c)]).
Proof.
  split; intros w m c acts Hok; subst acts; unfold events_of, result_of in *.
  - destruct (ck_prepare_cases w m) as (ret & evs & logs & Heq & Hcases).
    fold c in Heq, Hcases. rewrite Heq in *. cbn [fst snd] in *.
    rewrite (events_since_app m _ evs) by reflexivity.
    destruct Hcases
      as [(r1 & H1 & -> & _)
         |[(r1 & r2 & ri & _ & H2 & -> & _)
          |[(r1 & r2 & k & x & rs & e & rv & ri & _ & _ & _ & _ & _ & He & -> & _)
           |(r1 & r2 & rs & _ & _ & Hlen & _ & _ & ->)]]]; try lia.
    assert (Hacts : actions (ck_power_on c r1 r2
                             ++ table_writes (Clockwork.dsi c)
                                  Clockwork.cwu50_panel_init_cmds
                                  (length Clockwork.cwu50_panel_init_cmds) rs)
                    = actions (ck_power_on c r1 r2)
                      ++ map (write_of (Clockwork.dsi c)) Clockwork.cwu50_panel_init_cmds).
    { unfold actions at 1. rewrite map_app. fold (actions (ck_power_on c r1 r2)).
      f_equal. now apply actions_table_writes. }
    rewrite Hacts. split; [reflexivity|].
    exists (UsleepRange 1000 5000), (UsleepRange 5000 10000),
           (UsleepRange 1000 10000), (UsleepRange 10000 20000).
    repeat split; reflexivity.
  - destruct (Cw.prepared c) eqn:Hp.
    + rewrite (cw_prepare_prepared w m Hp). cbn [snd].
      now rewrite events_since_refl.
    + destruct (cw_prepare_cases w m Hp) as (ret & evs & logs & c' & Heq & Hcases).
      fold c in Heq, Hcases. rewrite Heq in *. cbn [fst snd] in *.
      rewrite (events_since_app m _ evs) by reflexivity.
      destruct Hcases
        as [(r1 & H1 & -> & _)
           |[(r1 & r2 & ri & _ & H2 & -> & _)
            |[(r1 & r2 & k & x & rs & e & rv & ri & _ & _ & _ & _ & _ & He & -> & _)
             |[(r1 & r2 & rs & rx & rv & ri & _ & _ & _ & _ & Hx & -> & _)
              |(r1 & r2 & rs & rx & _ & _ & Hlen & _ & _ & _ & _ & ->)]]]]; try lia.
      unfold actions. rewrite !map_app.
      fold (actions (table_writes (Cw.dsi c) Cw.cwu50_panel_init_cmds
                       (length Cw.cwu50_panel_init_cmds) rs)).
      rewrite actions_table_writes by assumption. reflexivity.
Qed.

(** [prepare_order] at work: on hardware where every call succeeds, both
    drivers' prepare succeeds on a freshly probed panel and makes the calls
    the theorem lists. *)
Lemma prepare_order_witness :
  (0 <= result_of (Clockwork.cwu50_prepare world_ok) (boot clockwork_panel) /\
   power_on_then_table 0%nat 2%nat 1%nat 3%nat Clockwork.cwu50_panel_init_cmds
     (actions (events_of (Clockwork.cwu50_prepare world_ok) (boot clockwork_panel))))
  /\
  (0 <= result_of (Cw.cwu50_prepare world_ok) (boot (cw_panel false)) /\
   actions (events_of (Cw.cwu50_prepare world_ok) (boot (cw_panel false)))
   = [RegulatorEnable 2%nat; RegulatorEnable 1%nat;
      GpiodSetValue 3%nat 1; UsleepRange 10000 20000;
      GpiodSetValue 3%nat 0; UsleepRange 10000 20000;
      GpiodSetValue 3%nat 1; Msleep 120]
     ++ map (write_of 0%nat) Cw.cwu50_panel_init_cmds
     ++ [DcsExitSleepMode 0%nat]).
Proof.
  assert (Hck : 0 <= result_of (Clockwork.cwu50_prepare world_ok) (boot clockwork_panel))
    by (vm_compute; discriminate).
  assert (Hcw : 0 <= result_of (Cw.cwu50_prepare world_ok) (boot (cw_panel false)))
    by (vm_compute; discriminate).
  split; split; try assumption.
  - exact (proj2 (proj1 prepare_order world_ok (boot clockwork_panel) Hck)).
  - exact (proj2 prepare_order world_ok (boot (cw_panel false)) Hcw).
Defined.

(** C1 as worded fails on panel-cw-cwu50.c: a successful prepare there has no
    delay between the two rails (and ends with "exit sleep mode"). *)
Lemma prepare_order_counterexample :
  0 <= result_of (Cw.cwu50_prepare world_ok) (boot (cw_panel false)) /\
  ~ power_on_then_table 0%nat 2%nat 1%nat 3%nat Cw.cwu50_panel_init_cmds
      (actions (events_of (Cw.cwu50_prepare world_ok) (boot (cw_panel false)))).
Proof.
  split; [vm_compute; discriminate|].
  intros (d1 & d2 & d3 & d4 & H1 & _ & _ & _ & H).
  apply (f_equal (fun l => nth 1 l (Msleep 0))) in H.
  vm_compute in H. subst d1. discriminate H1.
Qed.

(** ** C2: rollback when a table write fails *)

(** C2.  In either driver, whenever the [K]-th transport write of a
    [cwu50_prepare] call ([1 <= K <= N], [N] the table length) returns a
    negative value [r]: the call made the power-on steps, then [K-1] writes
    that all succeeded, for the first [K-1] table entries in order, then the
    failed write of entry [K], and no further write; after it, it drove the
    reset line low, called [regulator_disable] on VCI and then on IOVCC, and
    returned [r].  The panel structure is unchanged (in panel-cw-cwu50.c it
    stays unprepared). *)
Theorem prepare_rollback :
  (forall (w : world) (m : machine Clockwork.cwu50_panel) (K : nat)
          (buf : list Z) (r : Z),
      let c := ctx m in
      let d := Clockwork.dsi c in
      let table := Clockwork.cwu50_panel_init_cmds in
      let evs := events_of (Clockwork.cwu50_prepare w) m in
      (1 <= K <= length table)%nat ->
      nth_error (dcs_writes evs) (K - 1) = Some (buf, r) ->
      r < 0 ->
      exists x r1 r2 rs rv ri,
        nth_error table (K - 1) = Some x /\ buf = data x /\
        length rs = (K - 1)%nat /\ Forall (fun r => 0 <= r) rs /\
        evs = ck_power_on c r1 r2 ++ table_writes d table (K - 1) rs
              ++ [(write_of d x, r)] ++ ck_rollback c rv ri /\
        dcs_writes evs = combine (map data (firstn (K - 1) table)) rs ++ [(data x, r)] /\
        result_of (Clockwork.cwu50_prepare w) m = r /\
        ctx (snd (Clockwork.cwu50_prepare w m)) = c)
  /\
  (forall (w : world) (m : machine Cw.cwu50_panel) (K : nat)
          (buf : list Z) (r : Z),
      let c := ctx m in
      let d := Cw.dsi c in
      let table := Cw.cwu50_panel_init_cmds in
      let evs := events_of (Cw.cwu50_prepare w) m in
      (1 <= K <= length table)%nat ->
      nth_error (dcs_writes evs) (K - 1) = Some (buf, r) ->
      r < 0 ->
      exists x r1 r2 rs rv ri,
        nth_error table (K - 1) = Some x /\ buf = data x /\
        length rs = (K - 1)%nat /\ Forall (fun r => 0 <= r) rs /\
        evs = cw_power_on c r1 r2 ++ table_writes d table (K - 1) rs
              ++ [(write_of d x, r)] ++ cw_rollback c rv ri /\
        dcs_writes evs = combine (map data (firstn (K - 1) table)) rs ++ [(data x, r)] /\
        result_of (Cw.cwu50_prepare w) m = r /\
        ctx (snd (Cw.cwu50_prepare w m)) = c /\ Cw.prepared c = false).
Proof.
  split; intros w m K buf r c d table evs HK Hnth Hr; subst evs;
    unfold events_of, result_of in *.
  - destruct (ck_prepare_cases w m) as (ret & evs & logs & Heq & Hcases).
    fold c d table in Heq, Hcases. rewrite Heq in *. cbn [fst snd ctx] in *.
    rewrite (events_since_app m _ evs) in * by reflexivity.
    destruct Hcases
      as [(r1 & _ & _ & ->)
         |[(r1 & r2 & ri & _ & _ & _ & ->)
          |[(r1 & r2 & k & x & rs & e & rv & ri & H1 & H2 & Hx & Hlen & Hall & He & -> & ->)
           |(r1 & r2 & rs & _ & _ & Hlen & Hall & _ & ->)]]].
    + destruct (K - 1)%nat; discriminate.
    + destruct (K - 1)%nat; discriminate.
    + rewrite !dcs_writes_app, dcs_writes_table_writes in Hnth.
      cbn [ck_power_on ck_rollback dcs_writes write_of app] in Hnth.
      rewrite ?app_nil_r in Hnth.
      destruct (failed_write_position _ _ _ _ _ _ _ _ Hx Hlen Hall Hnth Hr)
        as (HKk & -> & ->).
      rewrite HKk in *.
      exists x, r1, r2, rs, rv, ri. repeat split; auto.
      rewrite !dcs_writes_app, dcs_writes_table_writes.
      cbn [ck_power_on ck_rollback dcs_writes write_of app].
      now rewrite ?app_nil_r.
    + rewrite !dcs_writes_app, dcs_writes_table_writes in Hnth.
      cbn [ck_power_on dcs_writes app] in Hnth.
      pose proof (nth_error_combine_Forall _ _ _ _ _ _ Hnth Hall) as Hpos.
      simpl in Hpos. lia.
  - destruct (Cw.prepared c) eqn:Hp.
    { rewrite (cw_prepare_prepared w m Hp) in Hnth. cbn [snd] in Hnth.
      rewrite events_since_refl in Hnth. destruct (K - 1)%nat; discriminate. }
    destruct (cw_prepare_cases w m Hp) as (ret & evs & logs & c' & Heq & Hcases).
    fold c d table in Heq, Hcases. rewrite Heq in *. cbn [fst snd ctx] in *.
    rewrite (events_since_app m _ evs) in * by reflexivity.
    destruct Hcases
      as [(r1 & _ & _ & _ & ->)
         |[(r1 & r2 & ri & _ & _ & _ & _ & ->)
          |[(r1 & r2 & k & x & rs & e & rv & ri & H1 & H2 & Hx & Hlen & Hall & He & -> & -> & ->)
           |[(r1 & r2 & rs & rx & rv & ri & _ & _ & Hlen & Hall & _ & _ & _ & ->)
            |(r1 & r2 & rs & rx & _ & _ & Hlen & Hall & _ & _ & _ & ->)]]]].
    + destruct (K - 1)%nat; discriminate.
    + destruct (K - 1)%nat; discriminate.
    + rewrite !dcs_writes_app, dcs_writes_table_writes in Hnth.
      cbn [cw_power_on cw_rollback dcs_writes write_of app] in Hnth.
      rewrite ?app_nil_r in Hnth.
      destruct (failed_write_position _ _ _ _ _ _ _ _ Hx Hlen Hall Hnth Hr)
        as (HKk & -> & ->).
      rewrite HKk in *.
      exists x, r1, r2, rs, rv, ri. repeat split; auto.
      rewrite !dcs_writes_app, dcs_writes_table_writes.
      cbn [cw_power_on cw_rollback dcs_writes write_of app].
      now rewrite ?app_nil_r.
    + rewrite !dcs_writes_app, dcs_writes_table_writes in Hnth.
      cbn [cw_power_on cw_rollback dcs_writes app] in Hnth.
      rewrite ?app_nil_r in Hnth.
      pose proof (nth_error_combine_Forall _ _ _ _ _ _ Hnth Hall) as Hpos.
      simpl in Hpos. lia.
    + rewrite !dcs_writes_app, dcs_writes_table_writes in Hnth.
      cbn [cw_power_on dcs_writes app] in Hnth.
      rewrite ?app_nil_r in Hnth.
      pose proof (nth_error_combine_Forall _ _ _ _ _ _ Hnth Hall) as Hpos.
      simpl in Hpos. lia.
Qed.

(** [prepare_rollback] at work: the transport refuses the second table entry
    ([K = 2]) with -5, on both drivers. *)
Lemma prepare_rollback_witness :
  (result_of (Clockwork.cwu50_prepare (world_fail_write 1 (-5))) (boot clockwork_panel) = -5
   /\ dcs_writes (events_of (Clockwork.cwu50_prepare (world_fail_write 1 (-5)))
                            (boot clockwork_panel))
      = [([0xE0; 0x00], 2); ([0xE1; 0x93], -5)])
  /\
  (result_of (Cw.cwu50_prepare (world_fail_write 1 (-5))) (boot (cw_panel false)) = -5
   /\ dcs_writes (events_of (Cw.cwu50_prepare (world_fail_write 1 (-5)))
                            (boot (cw_panel false)))
      = [([0xE0; 0x00], 2); ([0xE1; 0x93], -5)]).
Proof.
  split.
  - destruct (proj1 prepare_rollback (world_fail_write 1 (-5)) (boot clockwork_panel)
                2%nat [0xE1; 0x93] (-5))
      as (x & r1 & r2 & rs & rv & ri & _ & _ & _ & _ & _ & _ & Hret & _).
    + vm_compute. lia.
    + vm_compute. reflexivity.
    + lia.
    + split; [exact Hret | vm_compute; reflexivity].
  - destruct (proj2 prepare_rollback (world_fail_write 1 (-5)) (boot (cw_panel false))
                2%nat [0xE1; 0x93] (-5))
      as (x & r1 & r2 & rs & rv & ri & _ & _ & _ & _ & _ & _ & Hret & _).
    + vm_compute. lia.
    + vm_compute. reflexivity.
    + lia.
    + split; [exact Hret | vm_compute; reflexivity].
Defined.

(** ** C3: calling prepare twice *)

(** C3 (as the code has it).  In panel-cw-cwu50.c, once [cwu50_prepare] has
    succeeded, calling it again (no unprepare in between) returns 0 and
    changes nothing: no hardware call is made, whatever the hardware would
    have answered.  panel-clockwork-cwu50.c has no such guard: every call of
    its [cwu50_prepare], a repeated one included, begins by enabling the
    IOVCC regulator. *)
Theorem prepare_twice :
  (forall (w w' : world) (m : machine Cw.cwu50_panel),
      let m1 := snd (Cw.cwu50_prepare w m) in
      0 <= result_of (Cw.cwu50_prepare w) m ->
      Cw.cwu50_prepare w' m1 = (0, m1) /\
      events_of (Cw.cwu50_prepare w') m1 = [])
  /\
  (forall (w : world) (m : machine Clockwork.cwu50_panel),
      exists r rest,
        events_of (Clockwork.cwu50_prepare w) m
        = (RegulatorEnable (Clockwork.iovcc (ctx m)), r) :: rest).
Proof.
  split.
  - intros w w' m m1 Hok. unfold result_of, events_of in *.
    assert (Hp1 : Cw.prepared (ctx m1) = true).
    { subst m1. destruct (Cw.prepared (ctx m)) eqn:Hp.
      - now rewrite (cw_prepare_prepared w m Hp).
      - destruct (cw_prepare_cases w m Hp) as (ret & evs & logs & c' & Heq & Hcases).
        rewrite Heq in *. cbn [fst snd ctx] in *.
        destruct Hcases
          as [(r1 & H1 & -> & _)
             |[(r1 & r2 & ri & _ & H2 & -> & _)
              |[(r1 & r2 & k & x & rs & e & rv & ri & _ & _ & _ & _ & _ & He & -> & _)
               |[(r1 & r2 & rs & rx & rv & ri & _ & _ & _ & _ & Hx & -> & _)
                |(r1 & r2 & rs & rx & _ & _ & _ & _ & _ & _ & -> & _)]]]];
          try lia.
        reflexivity. }
    rewrite (cw_prepare_prepared w' m1 Hp1). split; [reflexivity|].
    apply events_since_refl.
  - intros w m. unfold events_of.
    destruct (ck_prepare_cases w m) as (ret & evs & logs & Heq & Hcases).
    rewrite Heq. cbn [snd].
    rewrite (events_since_app m _ evs) by reflexivity.
    destruct Hcases
      as [(r1 & _ & _ & ->)
         |[(r1 & r2 & ri & _ & _ & _ & ->)
          |[(r1 & r2 & k & x & rs & e & rv & ri & _ & _ & _ & _ & _ & _ & _ & ->)
           |(r1 & r2 & rs & _ & _ & _ & _ & _ & ->)]]];
      eexists _, _; reflexivity.
Qed.

(** [prepare_twice] at work on hardware where every call succeeds. *)
Lemma prepare_twice_witness :
  0 <= result_of (Cw.cwu50_prepare world_ok) (boot (cw_panel false)) /\
  events_of (Cw.cwu50_prepare world_ok)
            (snd (Cw.cwu50_prepare world_ok (boot (cw_panel false)))) = [].
Proof.
  assert (Hok : 0 <= result_of (Cw.cwu50_prepare world_ok) (boot (cw_panel false)))
    by (vm_compute; discriminate).
  split; [assumption|].
  exact (proj2 (proj1 prepare_twice world_ok world_ok (boot (cw_panel false)) Hok)).
Defined.

(** C3 as worded fails on panel-clockwork-cwu50.c: after a successful
    prepare, a second prepare succeeds too but runs the whole power-on and
    transmit sequence again, 221 hardware calls. *)
Lemma prepare_twice_counterexample :
  let m1 := snd (Clockwork.cwu50_prepare world_ok (boot clockwork_panel)) in
  result_of (Clockwork.cwu50_prepare world_ok) (boot clockwork_panel) = 0 /\
  result_of (Clockwork.cwu50_prepare world_ok) m1 = 0 /\
  length (events_of (Clockwork.cwu50_prepare world_ok) m1) = 221%nat /\
  events_of (Clockwork.cwu50_prepare world_ok) m1 <> [].
Proof.
  vm_compute. repeat split. discriminate.
Qed.

(** ** C4: unprepare always completes *)

(** C4.  In either driver [cwu50_unprepare] returns 0 from every state and
    for every behaviour of the hardware.  panel-clockwork-cwu50.c (whose
    structure has no powered or prepared flag) always drives the reset line
    low and calls [regulator_disable] on VCI and then on IOVCC, whatever the
    VCI call returned, and leaves the structure unchanged.
    panel-cw-cwu50.c always ends with [prepared] false and every other field
    unchanged; when the panel was prepared it makes all nine teardown calls,
    the IOVCC disable after the VCI disable whatever the latter returned,
    and when it was not prepared it does nothing. *)
Theorem unprepare_total :
  (forall (w : world) (m : machine Clockwork.cwu50_panel),
      let c := ctx m in
      result_of (Clockwork.cwu50_unprepare w) m = 0 /\
      ctx (snd (Clockwork.cwu50_unprepare w m)) = c /\
      exists rv ri,
        events_of (Clockwork.cwu50_unprepare w) m
        = [(GpiodSetValue (Clockwork.reset_gpio c) 0, 0);
           (UsleepRange 1000 10000, 0);
           (RegulatorDisable (Clockwork.vci c), rv);
           (UsleepRange 1000 20000, 0);
           (RegulatorDisable (Clockwork.iovcc c), ri)] /\
        rv = w (trace m ++ [(GpiodSetValue (Clockwork.reset_gpio c) 0, 0);
                            (UsleepRange 1000 10000, 0)])
               (RegulatorDisable (Clockwork.vci c)))
  /\
  (forall (w : world) (m : machine Cw.cwu50_panel),
      let c := ctx m in
      let d := Cw.dsi c in
      result_of (Cw.cwu50_unprepare w) m = 0 /\
      ctx (snd (Cw.cwu50_unprepare w m)) = Cw.set_prepared false c /\
      Cw.prepared (ctx (snd (Cw.cwu50_unprepare w m))) = false /\
      if Cw.prepared c then
        exists r1 r2 rv ri,
          events_of (Cw.cwu50_unprepare w) m
          = [(DcsSetDisplayOff d, r1);
             (Msleep 20, 0);
             (DcsEnterSleepMode d, r2);
             (Msleep 120, 0);
             (GpiodSetValue (Cw.reset_gpio c) 0, 0);
             (Msleep 20, 0);
             (RegulatorDisable (Cw.vci c), rv);
             (UsleepRange 1000 20000, 0);
             (RegulatorDisable (Cw.iovcc c), ri)]
      else events_of (Cw.cwu50_unprepare w) m = []).
Proof.
  split; intros w m; cbv zeta; unfold result_of, events_of.
  - destruct (ck_unprepare_spec w m) as (rv & ri & logs & Heq & Hrv).
    rewrite Heq. cbn [fst snd ctx]. repeat split.
    exists rv, ri. split; [|exact Hrv].
    now apply events_since_app.
  - destruct (Cw.prepared (ctx m)) eqn:Hp.
    + destruct (cw_unprepare_spec w m Hp) as (r1 & r2 & rv & ri & logs & Heq).
      rewrite Heq. cbn [fst snd ctx]. repeat split.
      exists r1, r2, rv, ri. now apply events_since_app.
    + rewrite (cw_unprepare_unprepared w m Hp). cbn [fst snd]. repeat split.
      * destruct m as [[d v i g b] h l]. cbn [ctx] in *. cbn in Hp. now subst b.
      * exact Hp.
      * apply events_since_refl.
Qed.

(** Both regulators refuse to switch off (-16): teardown still runs to the
    end, returns 0, and clears the flag. *)
Example unprepare_when_disable_fails :
  Clockwork.cwu50_unprepare (world_fail_disable (-16)) (boot clockwork_panel)
  = (0, Machine clockwork_panel
          [(GpiodSetValue 3%nat 0, 0); (UsleepRange 1000 10000, 0);
           (RegulatorDisable 1%nat, -16); (UsleepRange 1000 20000, 0);
           (RegulatorDisable 2%nat, -16)]
          [Log KERN_DEBUG "Putting panel in RESET\n" [];
           Log KERN_DEBUG "Disabling regulators\n" [];
           Log KERN_ERR "Failed to disable vci supply: %d\n" [-16];
           Log KERN_ERR "Failed to disable iovcc supply: %d\n" [-16]])
  /\
  Cw.cwu50_unprepare (world_fail_disable (-16)) (boot (cw_panel true))
  = (0, Machine (cw_panel false)
          [(DcsSetDisplayOff 0%nat, 0); (Msleep 20, 0);
           (DcsEnterSleepMode 0%nat, 0); (Msleep 120, 0);
           (GpiodSetValue 3%nat 0, 0); (Msleep 20, 0);
           (RegulatorDisable 1%nat, -16); (UsleepRange 1000 20000, 0);
           (RegulatorDisable 2%nat, -16)]
          [Log KERN_ERR "failed to disable vci supply: %d\n" [-16];
           Log KERN_ERR "failed to disable iovcc supply: %d\n" [-16]]).
Proof. split; reflexivity. Qed.

(** ** C5: the command transmitter *)

(** C5 (as the code has it).  [cwu50_init_sequence] writes the table entries
    in table order and stops at the first write that fails: either every
    entry was written and every write succeeded, or for some index [k] the
    first [k] entries were written successfully, entry [k] was written and
    failed with [e < 0], nothing was written after it, and the function
    returns [e].  What the caller gets is [e] alone; the log line of the
    failure carries the register byte of the failing entry and [e], not the
    index.  In panel-cw-cwu50.c the function does nothing when the panel is
    prepared, and after a fully successful table it also sends "exit sleep
    mode", whose failure it returns likewise. *)
Theorem transmit_first_failure :
  (forall (w : world) (m : machine Clockwork.cwu50_panel),
      let d := Clockwork.dsi (ctx m) in
      let table := Clockwork.cwu50_panel_init_cmds in
      let run := Clockwork.cwu50_init_sequence w in
      (exists rs,
          length rs = length table /\ Forall (fun r => 0 <= r) rs /\
          result_of run m = 0 /\
          events_of run m = table_writes d table (length table) rs)
      \/
      (exists k x rs e,
          nth_error table k = Some x /\ length rs = k /\
          Forall (fun r => 0 <= r) rs /\ e < 0 /\
          result_of run m = e /\
          events_of run m = table_writes d table k rs ++ [(write_of d x, e)] /\
          logs_of run m
          = [Log KERN_DEBUG "Sending initialization sequence\n" [];
             Log KERN_ERR_RATELIMITED "sending command %#02x failed: %d\n"
                 [nth 0 (data x) 0; e]]))
  /\
  (forall (w : world) (m : machine Cw.cwu50_panel),
      let d := Cw.dsi (ctx m) in
      let table := Cw.cwu50_panel_init_cmds in
      let run := Cw.cwu50_init_sequence w in
      if Cw.prepared (ctx m) then run m = (0, m)
      else
        (exists rs rx,
            length rs = length table /\ Forall (fun r => 0 <= r) rs /\
            events_of run m = table_writes d table (length table) rs
                              ++ [(DcsExitSleepMode d, rx)] /\
            result_of run m = (if rx <? 0 then rx else 0))
        \/
        (exists k x rs e,
            nth_error table k = Some x /\ length rs = k /\
            Forall (fun r => 0 <= r) rs /\ e < 0 /\
            result_of run m = e /\
            events_of run m = table_writes d table k rs ++ [(write_of d x, e)] /\
            logs_of run m
            = [Log KERN_DEBUG "Sending initialization sequence\n" [];
               Log KERN_ERR_RATELIMITED "sending command %#02x failed: %d\n"
                   [nth 0 (data x) 0; e]])).
Proof.
  split; intros w m; cbv zeta; unfold result_of, events_of, logs_of.
  - destruct (ck_init_sequence_spec w m)
      as [(rs & Hlen & Hall & Heq)|(k & x & rs & e & Hx & Hlen & Hall & He & Heq)];
      rewrite Heq; cbn [fst snd klog].
    + left. exists rs. repeat split; auto. now apply events_since_app.
    + right. exists k, x, rs, e. repeat split; auto.
      * now apply events_since_app.
      * apply skipn_length_app.
  - destruct (Cw.prepared (ctx m)) eqn:Hp.
    { now apply cw_init_sequence_prepared. }
    destruct (cw_init_sequence_spec w m Hp)
      as [(rs & rx & Hlen & Hall & Hx & Heq)
         |[(k & x & rs & e & Hx & Hlen & Hall & He & Heq)
          |(rs & rx & Hlen & Hall & Hx & Heq)]];
      rewrite Heq; cbn [fst snd klog].
    + left. exists rs, rx. repeat split; auto.
      * now apply events_since_app.
      * destruct (Z.ltb_spec rx 0); [lia|reflexivity].
    + right. exists k, x, rs, e. repeat split; auto.
      * now apply events_since_app.
      * apply skipn_length_app.
    + left. exists rs, rx. repeat split; auto.
      * now apply events_since_app.
      * destruct (Z.ltb_spec rx 0); [reflexivity|lia].
Qed.

(** C5 as worded fails: the caller cannot learn the failing index.  Entries
    0 and 209 of the table are both [{0xE0, 0x00}]; when the transport
    refuses the one or the other with the same error, the transmitter returns
    the same value and logs the same lines, so nothing it hands back tells
    the two indices apart. *)
Lemma transmit_index_counterexample :
  let run0 := Clockwork.cwu50_init_sequence (world_fail_write 0 (-5)) in
  let run209 := Clockwork.cwu50_init_sequence (world_fail_write 209 (-5)) in
  let m := boot clockwork_panel in
  failing_index (events_of run0 m) = Some 0%nat /\
  failing_index (events_of run209 m) = Some 209%nat /\
  result_of run0 m = result_of run209 m /\
  logs_of run0 m = logs_of run209 m /\
  ~ reports_failing_index Clockwork.cwu50_init_sequence.
Proof.
  cbv zeta.
  assert (H0 : failing_index (events_of (Clockwork.cwu50_init_sequence
                 (world_fail_write 0 (-5))) (boot clockwork_panel)) = Some 0%nat)
    by (vm_compute; reflexivity).
  assert (H209 : failing_index (events_of (Clockwork.cwu50_init_sequence
                   (world_fail_write 209 (-5))) (boot clockwork_panel)) = Some 209%nat)
    by (vm_compute; reflexivity).
  split; [exact H0|]. split; [exact H209|].
  split; [vm_compute; reflexivity|]. split; [vm_compute; reflexivity|].
  intros [index_of Hrep].
  pose proof (Hrep _ _ _ H0) as E0. pose proof (Hrep _ _ _ H209) as E209.
  vm_compute in E0, E209. rewrite E0 in E209. discriminate.
Qed.

(** ** C6: the steps of enable *)

(** C6 (as the code has it).  Every successful [cwu50_enable] of
    panel-clockwork-cwu50.c makes exactly: "exit sleep mode", sleep 120 ms,
    "display on", sleep 10 ms, "set tear on" in vblank mode, which is the
    order the specification words.  Every successful [cwu50_enable] of
    panel-cw-cwu50.c makes exactly: sleep 120 ms, "display on", sleep 20 ms,
    "set tear on" in vblank mode; it sends no "exit sleep mode" (that
    driver sends it at the end of its init sequence, during prepare). *)
Theorem enable_order :
  (forall (w : world) (m : machine Clockwork.cwu50_panel),
      let d := Clockwork.dsi (ctx m) in
      let acts := actions (events_of (Clockwork.cwu50_enable w) m) in
      0 <= result_of (Clockwork.cwu50_enable w) m ->
      acts = [DcsExitSleepMode d; Msleep 120; DcsSetDisplayOn d; Msleep 10;
              DcsSetTearOn d MIPI_DSI_DCS_TEAR_MODE_VBLANK]
      /\ enable_steps d acts)
  /\
  (forall (w : world) (m : machine Cw.cwu50_panel),
      let d := Cw.dsi (ctx m) in
      let acts := actions (events_of (Cw.cwu50_enable w) m) in
      0 <= result_of (Cw.cwu50_enable w) m ->
      acts = [Msleep 120; DcsSetDisplayOn d; Msleep 20;
              DcsSetTearOn d MIPI_DSI_DCS_TEAR_MODE_VBLANK]).
Proof.
  split; intros w m d acts Hok; subst acts; unfold events_of, result_of in *.
  - destruct (ck_enable_cases w m) as (ret & evs & logs & Heq & Hcases).
    fold d in Hcases. rewrite Heq in *. cbn [fst snd] in *.
    rewrite (events_since_app m _ evs) by reflexivity.
    destruct Hcases
      as [(r1 & H1 & -> & _)
         |[(r1 & r2 & _ & H2 & -> & _)
          |[(r1 & r2 & r3 & _ & _ & H3 & -> & _)
           |(r1 & r2 & r3 & _ & _ & _ & _ & ->)]]]; try lia.
    split; [reflexivity|].
    exists (Msleep 120), (Msleep 10). repeat split.
    + exists 120000. split; [reflexivity|lia].
    + exists 10000. split; [reflexivity|lia].
  - destruct (cw_enable_cases w m) as (ret & evs & logs & Heq & Hcases).
    fold d in Hcases. rewrite Heq in *. cbn [fst snd] in *.
    rewrite (events_since_app m _ evs) by reflexivity.
    destruct Hcases
      as [(r2 & H2 & -> & _)
         |[(r2 & r3 & _ & H3 & -> & _)
          |(r2 & r3 & _ & _ & _ & ->)]]; try lia.
    reflexivity.
Qed.

(** [enable_order] at work on hardware where every call succeeds. *)
Lemma enable_order_witness :
  (0 <= result_of (Clockwork.cwu50_enable world_ok) (boot clockwork_panel) /\
   enable_steps 0%nat
     (actions (events_of (Clockwork.cwu50_enable world_ok) (boot clockwork_panel))))
  /\
  (0 <= result_of (Cw.cwu50_enable world_ok) (boot (cw_panel true)) /\
   actions (events_of (Cw.cwu50_enable world_ok) (boot (cw_panel true)))
   = [Msleep 120; DcsSetDisplayOn 0%nat; Msleep 20;
      DcsSetTearOn 0%nat MIPI_DSI_DCS_TEAR_MODE_VBLANK]).
Proof.
  assert (Hck : 0 <= result_of (Clockwork.cwu50_enable world_ok) (boot clockwork_panel))
    by (vm_compute; discriminate).
  assert (Hcw : 0 <= result_of (Cw.cwu50_enable world_ok) (boot (cw_panel true)))
    by (vm_compute; discriminate).
  split; split; try assumption.
  - exact (proj2 (proj1 enable_order world_ok (boot clockwork_panel) Hck)).
  - exact (proj2 enable_order world_ok (boot (cw_panel true)) Hcw).
Defined.

(** C6 as worded fails on panel-cw-cwu50.c: a successful enable there makes
    four calls, none of them "exit sleep mode". *)
Lemma enable_order_counterexample :
  0 <= result_of (Cw.cwu50_enable world_ok) (boot (cw_panel true)) /\
  ~ enable_steps 0%nat
      (actions (events_of (Cw.cwu50_enable world_ok) (boot (cw_panel true)))).
Proof.
  split; [vm_compute; discriminate|].
  intros (d1 & d2 & _ & _ & H). vm_compute in H. discriminate H.
Qed.

(** ** C7: the steps of disable *)

(** C7 (as the code has it).  Every successful [cwu50_disable] of
    panel-clockwork-cwu50.c makes exactly: "display off", sleep 50 ms,
    "enter sleep mode", sleep 100 ms, which is the order the specification
    words.  [cwu50_disable] of panel-cw-cwu50.c makes exactly one call,
    "display off", and returns what that call returned; it neither waits nor
    sends "enter sleep mode" (that driver does both in its unprepare). *)
Theorem disable_order :
  (forall (w : world) (m : machine Clockwork.cwu50_panel),
      let d := Clockwork.dsi (ctx m) in
      let acts := actions (events_of (Clockwork.cwu50_disable w) m) in
      0 <= result_of (Clockwork.cwu50_disable w) m ->
      acts = [DcsSetDisplayOff d; Msleep 50; DcsEnterSleepMode d; Msleep 100]
      /\ disable_steps d acts)
  /\
  (forall (w : world) (m : machine Cw.cwu50_panel),
      let d := Cw.dsi (ctx m) in
      events_of (Cw.cwu50_disable w) m
      = [(DcsSetDisplayOff d, result_of (Cw.cwu50_disable w) m)]
      /\ result_of (Cw.cwu50_disable w) m = w (trace m) (DcsSetDisplayOff d)).
Proof.
  split.
  - intros w m d acts Hok; subst acts; unfold events_of, result_of in *.
    destruct (ck_disable_cases w m) as (ret & evs & logs & Heq & Hcases).
    fold d in Hcases. rewrite Heq in *. cbn [fst snd] in *.
    rewrite (events_since_app m _ evs) by reflexivity.
    destruct Hcases
      as [(r1 & H1 & -> & _)
         |[(r1 & r2 & _ & H2 & -> & _)
          |(r1 & r2 & _ & _ & _ & ->)]]; try lia.
    split; [reflexivity|].
    exists (Msleep 50), (Msleep 100). repeat split.
    + exists 50000. split; [reflexivity|lia].
    + exists 100000. split; [reflexivity|lia].
  - intros w m d. unfold events_of, result_of.
    rewrite cw_disable_spec. cbv zeta. cbn [fst snd]. split; [|reflexivity].
    now apply events_since_app.
Qed.

(** [disable_order] at work on hardware where every call succeeds. *)
Lemma disable_order_witness :
  0 <= result_of (Clockwork.cwu50_disable world_ok) (boot clockwork_panel) /\
  disable_steps 0%nat
    (actions (events_of (Clockwork.cwu50_disable world_ok) (boot clockwork_panel))).
Proof.
  assert (Hck : 0 <= result_of (Clockwork.cwu50_disable world_ok) (boot clockwork_panel))
    by (vm_compute; discriminate).
  split; [assumption|].
  exact (proj2 (proj1 disable_order world_ok (boot clockwork_panel) Hck)).
Defined.

(** C7 as worded fails on panel-cw-cwu50.c: a successful disable there is
    the single call "display off". *)
Lemma disable_order_counterexample :
  0 <= result_of (Cw.cwu50_disable world_ok) (boot (cw_panel true)) /\
  actions (events_of (Cw.cwu50_disable world_ok) (boot (cw_panel true)))
  = [DcsSetDisplayOff 0%nat] /\
  ~ disable_steps 0%nat
      (actions (events_of (Cw.cwu50_disable world_ok) (boot (cw_panel true)))).
Proof.
  split; [vm_compute; discriminate|]. split; [reflexivity|].
  intros (d1 & d2 & _ & _ & H). vm_compute in H. discriminate H.
Qed.

(** ** C8: enable does not roll back *)

(** Split a membership in an explicit list of events into its cases. *)
Ltac cases_in H :=
  simpl in H;
  repeat match type of H with
         | _ \/ _ => destruct H as [H|H]
         end;
  try contradiction; try discriminate H; try (inversion H; subst; clear H).

(** C8.  In panel-clockwork-cwu50.c, whenever a [cwu50_enable] call sees
    "exit sleep mode" succeed and "display on" fail with [r2 < 0], the call
    returns [r2] and its hardware calls are exactly: "exit sleep mode",
    sleep 120 ms, "display on".  Nothing follows the failed command: no
    "enter sleep mode", no regulator call, no reset-line write; the panel
    structure is unchanged.  In panel-cw-cwu50.c, whose enable sends no
    "exit sleep mode", a failed "display on" likewise ends the call: the
    hardware calls are exactly sleep 120 ms and "display on", and [r2] is
    returned. *)
Theorem enable_forward_only :
  (forall (w : world) (m : machine Clockwork.cwu50_panel) (r1 r2 : Z),
      let d := Clockwork.dsi (ctx m) in
      let evs := events_of (Clockwork.cwu50_enable w) m in
      In (DcsExitSleepMode d, r1) evs -> 0 <= r1 ->
      In (DcsSetDisplayOn d, r2) evs -> r2 < 0 ->
      result_of (Clockwork.cwu50_enable w) m = r2 /\
      evs = [(DcsExitSleepMode d, r1); (Msleep 120, 0); (DcsSetDisplayOn d, r2)] /\
      ctx (snd (Clockwork.cwu50_enable w m)) = ctx m)
  /\
  (forall (w : world) (m : machine Cw.cwu50_panel) (r2 : Z),
      let d := Cw.dsi (ctx m) in
      let evs := events_of (Cw.cwu50_enable w) m in
      In (DcsSetDisplayOn d, r2) evs -> r2 < 0 ->
      result_of (Cw.cwu50_enable w) m = r2 /\
      evs = [(Msleep 120, 0); (DcsSetDisplayOn d, r2)] /\
      ctx (snd (Cw.cwu50_enable w m)) = ctx m).
Proof.
  split.
  - intros w m r1 r2 d evs. subst evs. unfold events_of, result_of.
    destruct (ck_enable_cases w m) as (ret & evs & logs & Heq & Hcases).
    fold d in Hcases. rewrite Heq. cbn [fst snd ctx].
    rewrite (events_since_app m _ evs) by reflexivity.
    intros Hin1 Hr1 Hin2 Hr2.
    destruct Hcases
      as [(a1 & H1 & -> & ->)
         |[(a1 & a2 & H1 & H2 & -> & ->)
          |[(a1 & a2 & a3 & H1 & H2 & H3 & -> & ->)
           |(a1 & a2 & a3 & H1 & H2 & H3 & -> & ->)]]];
      cases_in Hin1; cases_in Hin2; try lia; auto.
  - intros w m r2 d evs. subst evs. unfold events_of, result_of.
    destruct (cw_enable_cases w m) as (ret & evs & logs & Heq & Hcases).
    fold d in Hcases. rewrite Heq. cbn [fst snd ctx].
    rewrite (events_since_app m _ evs) by reflexivity.
    intros Hin2 Hr2.
    destruct Hcases
      as [(a2 & H2 & -> & ->)
         |[(a2 & a3 & H2 & H3 & -> & ->)
          |(a2 & a3 & H2 & H3 & -> & ->)]];
      cases_in Hin2; try lia; auto.
Qed.

(** [enable_forward_only] at work: the transport refuses "display on" with
    -5. *)
Lemma enable_forward_only_witness :
  Clockwork.cwu50_enable (world_fail_display_on (-5)) (boot clockwork_panel)
  = (-5, Machine clockwork_panel
           [(DcsExitSleepMode 0%nat, 0); (Msleep 120, 0); (DcsSetDisplayOn 0%nat, -5)]
           [Log KERN_DEBUG "Exiting sleep mode\n" [];
            Log KERN_DEBUG "Turning display on\n" [];
            Log KERN_ERR "Failed to turn display on: %d\n" [-5]])
  /\
  (result_of (Clockwork.cwu50_enable (world_fail_display_on (-5))) (boot clockwork_panel) = -5
   /\ events_of (Clockwork.cwu50_enable (world_fail_display_on (-5))) (boot clockwork_panel)
      = [(DcsExitSleepMode 0%nat, 0); (Msleep 120, 0); (DcsSetDisplayOn 0%nat, -5)]
   /\ ctx (snd (Clockwork.cwu50_enable (world_fail_display_on (-5)) (boot clockwork_panel)))
      = clockwork_panel)
  /\
  (result_of (Cw.cwu50_enable (world_fail_display_on (-5))) (boot (cw_panel true)) = -5
   /\ events_of (Cw.cwu50_enable (world_fail_display_on (-5))) (boot (cw_panel true))
      = [(Msleep 120, 0); (DcsSetDisplayOn 0%nat, -5)]
   /\ ctx (snd (Cw.cwu50_enable (world_fail_display_on (-5)) (boot (cw_panel true))))
      = cw_panel true).
Proof.
  split; [reflexivity|]. split.
  - apply (proj1 enable_forward_only (world_fail_display_on (-5))
             (boot clockwork_panel) 0 (-5)).
    + simpl. auto.
    + lia.
    + simpl. auto.
    + lia.
  - apply (proj2 enable_forward_only (world_fail_display_on (-5))
             (boot (cw_panel true)) (-5)).
    + simpl. auto.
    + lia.
Defined.

(** ** C9: the two command tables *)

Transparent Clockwork.cwu50_panel_init_cmds Cw.cwu50_panel_init_cmds.

(** C9.  The init command tables of the two source files are the same
    sequence: both have 212 entries, and at every index the two tables hold
    the same (register, value) pair. *)
Theorem init_tables_equal :
  length Clockwork.cwu50_panel_init_cmds = 212%nat /\
  length Cw.cwu50_panel_init_cmds = 212%nat /\
  (forall i : nat,
      nth_error Clockwork.cwu50_panel_init_cmds i
      = nth_error Cw.cwu50_panel_init_cmds i) /\
  Clockwork.cwu50_panel_init_cmds = Cw.cwu50_panel_init_cmds.
Proof.
  assert (E : Clockwork.cwu50_panel_init_cmds = Cw.cwu50_panel_init_cmds)
    by reflexivity.
  split; [reflexivity|]. split; [reflexivity|]. split; [|exact E].
  intro i. now rewrite E.
Qed.

(** ** C10: who touches the panel structure *)

(** [cwu50_enable] runs the same whatever the [prepared] flag holds, and
    hands the flag back as it found it. *)
Lemma cw_enable_ignores_prepared (w : world) (m : machine Cw.cwu50_panel) (b : bool) :
  Cw.cwu50_enable w (Machine (Cw.set_prepared b (ctx m)) (trace m) (klog m))
  = (fst (Cw.cwu50_enable w m),
     Machine (Cw.set_prepared b (ctx m))
             (trace (snd (Cw.cwu50_enable w m)))
             (klog (snd (Cw.cwu50_enable w m)))).
Proof.
  destruct m as [[d v i g p] h l]. unfold Cw.cwu50_enable, Cw.set_prepared. run.
  cbn [Cw.dsi].
  name_ret r2. case_ret H2; [reflexivity|].
  name_ret r3. case_ret H3; reflexivity.
Qed.

Lemma cw_unprepare_clears (w : world) (m : machine Cw.cwu50_panel) :
  Cw.prepared (ctx (snd (Cw.cwu50_unprepare w m))) = false.
Proof.
  destruct (Cw.prepared (ctx m)) eqn:Hp.
  - destruct (cw_unprepare_spec w m Hp) as (r1 & r2 & rv & ri & logs & Heq).
    now rewrite Heq.
  - now rewrite (cw_unprepare_unprepared w m Hp).
Qed.

Lemma cw_prepare_keeps_prepared (w : world) (m : machine Cw.cwu50_panel) :
  Cw.prepared (ctx m) = true ->
  Cw.prepared (ctx (snd (Cw.cwu50_prepare w m))) = true.
Proof. intro Hp. now rewrite (cw_prepare_prepared w m Hp). Qed.

Lemma cw_enable_frame (w : world) (m : machine Cw.cwu50_panel) :
  ctx (snd (Cw.cwu50_enable w m)) = ctx m.
Proof.
  destruct (cw_enable_cases w m) as (ret & evs & logs & Heq & _). now rewrite Heq.
Qed.

Lemma cw_disable_frame (w : world) (m : machine Cw.cwu50_panel) :
  ctx (snd (Cw.cwu50_disable w m)) = ctx m.
Proof. now rewrite cw_disable_spec. Qed.

(** C10.  [cwu50_enable] and [cwu50_disable] leave every field of the panel
    structure as it was, in both drivers, however the call ends.  In
    panel-cw-cwu50.c they do not depend on the [prepared] flag either:
    overwriting the flag before the call changes neither the result nor the
    hardware calls nor the log.  Among the four lifecycle callbacks of that
    driver, a call that turns [prepared] from false to true is a
    [cwu50_prepare], and a call that turns it from true to false is a
    [cwu50_unprepare]. *)
Theorem enable_disable_frame :
  (forall (w : world) (m : machine Clockwork.cwu50_panel),
      ctx (snd (Clockwork.cwu50_enable w m)) = ctx m /\
      ctx (snd (Clockwork.cwu50_disable w m)) = ctx m)
  /\
  (forall (w : world) (m : machine Cw.cwu50_panel),
      ctx (snd (Cw.cwu50_enable w m)) = ctx m /\
      ctx (snd (Cw.cwu50_disable w m)) = ctx m)
  /\
  (forall (w : world) (m : machine Cw.cwu50_panel) (b : bool),
      let m_b := Machine (Cw.set_prepared b (ctx m)) (trace m) (klog m) in
      (result_of (Cw.cwu50_enable w) m_b = result_of (Cw.cwu50_enable w) m /\
       trace (snd (Cw.cwu50_enable w m_b)) = trace (snd (Cw.cwu50_enable w m)) /\
       klog (snd (Cw.cwu50_enable w m_b)) = klog (snd (Cw.cwu50_enable w m))) /\
      (result_of (Cw.cwu50_disable w) m_b = result_of (Cw.cwu50_disable w) m /\
       trace (snd (Cw.cwu50_disable w m_b)) = trace (snd (Cw.cwu50_disable w m)) /\
       klog (snd (Cw.cwu50_disable w m_b)) = klog (snd (Cw.cwu50_disable w m))))
  /\
  (forall (f : drm_panel_func) (w : world) (m : machine Cw.cwu50_panel),
      let m' := snd (Cw.cwu50_panel_funcs f w m) in
      (Cw.prepared (ctx m) = false -> Cw.prepared (ctx m') = true -> f = Prepare) /\
      (Cw.prepared (ctx m) = true -> Cw.prepared (ctx m') = false -> f = Unprepare)).
Proof.
  split; [|split; [|split]].
  - intros w m. split.
    + destruct (ck_enable_cases w m) as (ret & evs & logs & Heq & _). now rewrite Heq.
    + destruct (ck_disable_cases w m) as (ret & evs & logs & Heq & _). now rewrite Heq.
  - intros w m. split; [apply cw_enable_frame | apply cw_disable_frame].
  - intros w m b m_b. subst m_b. unfold result_of. split.
    + rewrite cw_enable_ignores_prepared. cbn [fst snd trace klog]. auto.
    + rewrite !cw_disable_spec. destruct m as [[d v i g p] h l]. cbn. auto.
  - intros f w m m'. subst m'. split; intros Hbefore Hafter; destruct f;
      cbn [Cw.cwu50_panel_funcs] in Hafter; try reflexivity; exfalso.
    + rewrite cw_enable_frame in Hafter. congruence.
    + rewrite cw_disable_frame in Hafter. congruence.
    + rewrite cw_unprepare_clears in Hafter. discriminate.
    + rewrite (cw_prepare_keeps_prepared w m Hbefore) in Hafter. discriminate.
    + rewrite cw_enable_frame in Hafter. congruence.
    + rewrite cw_disable_frame in Hafter. congruence.
Qed.

(** [enable_disable_frame] at work: on hardware where every call succeeds,
    the only callback that prepares a fresh panel is prepare, and the only
    one that unprepares a prepared panel is unprepare. *)
Lemma enable_disable_frame_witness :
  (Cw.prepared (ctx (boot (cw_panel false))) = false /\
   Cw.prepared (ctx (snd (Cw.cwu50_panel_funcs Prepare world_ok (boot (cw_panel false)))))
   = true /\ Prepare = Prepare)
  /\
  (Cw.prepared (ctx (boot (cw_panel true))) = true /\
   Cw.prepared (ctx (snd (Cw.cwu50_panel_funcs Unprepare world_ok (boot (cw_panel true)))))
   = false /\ Unprepare = Unprepare).
Proof.
  assert (Hp : Cw.prepared (ctx (snd (Cw.cwu50_panel_funcs Prepare world_ok
                                        (boot (cw_panel false))))) = true)
    by (vm_compute; reflexivity).
  assert (Hu : Cw.prepared (ctx (snd (Cw.cwu50_panel_funcs Unprepare world_ok
                                        (boot (cw_panel true))))) = false)
    by (vm_compute; reflexivity).
  split; (split; [reflexivity|split; [assumption|]]).
  - exact (proj1 (proj2 (proj2 (proj2 enable_disable_frame))
                    Prepare world_ok (boot (cw_panel false))) eq_refl Hp).
  - exact (proj2 (proj2 (proj2 (proj2 enable_disable_frame))
                    Unprepare world_ok (boot (cw_panel true))) eq_refl Hu).
Defined.

(** * Further properties of the lifecycle callbacks *)

Opaque Clockwork.cwu50_panel_init_cmds Cw.cwu50_panel_init_cmds.

Lemma enables_held_app (r : handle) (a b : list event) :
  enables_held r (a ++ b) = (enables_held r a + enables_held r b)%nat.
Proof.
  induction a as [|[act ret] a IH]; simpl; auto.
  destruct act; simpl; auto. rewrite IH. lia.
Qed.

Lemma disables_app (r : handle) (a b : list event) :
  disables r (a ++ b) = (disables r a + disables r b)%nat.
Proof.
  induction a as [|[act ret] a IH]; simpl; auto.
  destruct act; simpl; auto. rewrite IH. lia.
Qed.

Lemma table_writes_no_regulator (r d : handle) (table : list cwu50_init_cmd)
  (k : nat) (rs : list Z) :
  enables_held r (table_writes d table k rs) = 0%nat /\
  disables r (table_writes d table k rs) = 0%nat.
Proof.
  unfold table_writes. generalize (firstn k table) as cs. intro cs. revert rs.
  induction cs as [|c cs IH]; intros [|x rs]; simpl; auto.
Qed.

Lemma fold_gpio_step (b : list event) :
  forall s, fold_left gpio_step b s
            = match fold_left gpio_step b None with Some v => Some v | None => s end.
Proof.
  induction b as [|[act ret] b IH]; intro s; simpl.
  - reflexivity.
  - rewrite (IH (gpio_step s (act, ret))), (IH (gpio_step None (act, ret))).
    destruct (fold_left gpio_step b None); [reflexivity|].
    unfold gpio_step. simpl. now destruct act.
Qed.

Lemma last_gpio_value_app (a b : list event) :
  last_gpio_value (a ++ b)
  = match last_gpio_value b with Some v => Some v | None => last_gpio_value a end.
Proof.
  unfold last_gpio_value. rewrite fold_left_app. apply fold_gpio_step.
Qed.

Lemma table_writes_no_gpio (d : handle) (table : list cwu50_init_cmd)
  (k : nat) (rs : list Z) :
  last_gpio_value (table_writes d table k rs) = None.
Proof.
  unfold table_writes. generalize (firstn k table) as cs. intro cs. revert rs.
  induction cs as [|c cs IH]; intros [|x rs]; try reflexivity.
  change (combine (map (write_of d) (c :: cs)) (x :: rs))
    with ([(write_of d c, x)] ++ combine (map (write_of d) cs) rs).
  rewrite last_gpio_value_app, IH. reflexivity.
Qed.

(** Decide the tests [0 <=? r] and [r <? 0] left in the goal from the
    hypotheses at hand. *)
Ltac settle_signs :=
  repeat match goal with
         | |- context [0 <=? ?r] =>
             destruct (Z.leb_spec 0 r); try lia
         | |- context [?r <? 0] =>
             destruct (Z.ltb_spec r 0); try lia
         end.

(** ** A rail that refuses to switch on *)

(** X1.  In both drivers, when the very first hardware call of
    [cwu50_prepare], enabling IOVCC, fails with [r < 0], that call is the
    only one made: nothing is switched off, the reset line is not touched,
    nothing is transmitted; [r] is returned and the panel structure is
    unchanged. *)
Theorem prepare_iovcc_refused :
  (forall (w : world) (m : machine Clockwork.cwu50_panel) (r : Z),
      let c := ctx m in
      let evs := events_of (Clockwork.cwu50_prepare w) m in
      hd_error evs = Some (RegulatorEnable (Clockwork.iovcc c), r) -> r < 0 ->
      evs = [(RegulatorEnable (Clockwork.iovcc c), r)] /\
      result_of (Clockwork.cwu50_prepare w) m = r /\
      ctx (snd (Clockwork.cwu50_prepare w m)) = c)
  /\
  (forall (w : world) (m : machine Cw.cwu50_panel) (r : Z),
      let c := ctx m in
      let evs := events_of (Cw.cwu50_prepare w) m in
      hd_error evs = Some (RegulatorEnable (Cw.iovcc c), r) -> r < 0 ->
      evs = [(RegulatorEnable (Cw.iovcc c), r)] /\
      result_of (Cw.cwu50_prepare w) m = r /\
      ctx (snd (Cw.cwu50_prepare w m)) = c).
Proof.
  split; intros w m r c evs; subst evs; unfold events_of, result_of.
  - destruct (ck_prepare_cases w m) as (ret & evs & logs & Heq & Hcases).
    fold c in Heq, Hcases. rewrite Heq. cbn [fst snd ctx].
    rewrite (events_since_app m _ evs) by reflexivity.
    intros Hhd Hr.
    destruct Hcases
      as [(r1 & H1 & -> & ->)
         |[(r1 & r2 & ri & H1 & H2 & -> & ->)
          |[(r1 & r2 & k & x & rs & e & rv & ri & H1 & H2 & _ & _ & _ & _ & -> & ->)
           |(r1 & r2 & rs & H1 & H2 & _ & _ & -> & ->)]]];
      cbn in Hhd; inversion Hhd; subst; try lia; auto.
  - destruct (Cw.prepared c) eqn:Hp.
    { rewrite (cw_prepare_prepared w m Hp). cbn [snd].
      rewrite events_since_refl. discriminate. }
    destruct (cw_prepare_cases w m Hp) as (ret & evs & logs & c' & Heq & Hcases).
    fold c in Heq, Hcases. rewrite Heq. cbn [fst snd ctx].
    rewrite (events_since_app m _ evs) by reflexivity.
    intros Hhd Hr.
    destruct Hcases
      as [(r1 & H1 & -> & -> & ->)
         |[(r1 & r2 & ri & H1 & H2 & -> & -> & ->)
          |[(r1 & r2 & k & x & rs & e & rv & ri & H1 & H2 & _ & _ & _ & _ & -> & -> & ->)
           |[(r1 & r2 & rs & rx & rv & ri & H1 & H2 & _ & _ & _ & -> & -> & ->)
            |(r1 & r2 & rs & rx & H1 & H2 & _ & _ & _ & -> & -> & ->)]]]];
      cbn in Hhd; inversion Hhd; subst; try lia; auto.
Qed.

(** [prepare_iovcc_refused] at work: regulator 2, IOVCC, answers -22. *)
Lemma prepare_iovcc_refused_witness :
  Clockwork.cwu50_prepare (world_fail_enable 2%nat (-22)) (boot clockwork_panel)
  = (-22, Machine clockwork_panel [(RegulatorEnable 2%nat, -22)]
            [Log KERN_DEBUG "Enabling regulators\n" [];
             Log KERN_ERR "Failed to enable iovcc supply: %d\n" [-22]])
  /\
  (events_of (Clockwork.cwu50_prepare (world_fail_enable 2%nat (-22))) (boot clockwork_panel)
   = [(RegulatorEnable 2%nat, -22)] /\
   result_of (Clockwork.cwu50_prepare (world_fail_enable 2%nat (-22))) (boot clockwork_panel)
   = -22 /\
   ctx (snd (Clockwork.cwu50_prepare (world_fail_enable 2%nat (-22)) (boot clockwork_panel)))
   = clockwork_panel)
  /\
  (events_of (Cw.cwu50_prepare (world_fail_enable 2%nat (-22))) (boot (cw_panel false))
   = [(RegulatorEnable 2%nat, -22)] /\
   result_of (Cw.cwu50_prepare (world_fail_enable 2%nat (-22))) (boot (cw_panel false))
   = -22 /\
   ctx (snd (Cw.cwu50_prepare (world_fail_enable 2%nat (-22)) (boot (cw_panel false))))
   = cw_panel false).
Proof.
  split; [reflexivity|]. split.
  - apply (proj1 prepare_iovcc_refused (world_fail_enable 2%nat (-22))
             (boot clockwork_panel) (-22)); [reflexivity|lia].
  - apply (proj2 prepare_iovcc_refused (world_fail_enable 2%nat (-22))
             (boot (cw_panel false)) (-22)); [reflexivity|lia].
Defined.

(** X2.  In both drivers, when the second rail, VCI, refuses to switch on
    with [r2 < 0] (IOVCC having been switched on), [cwu50_prepare] switches
    IOVCC off again and returns [r2]: the reset line is never touched and
    nothing is transmitted.  The hardware calls are exactly the two enables
    (with the ramp delay between them in panel-clockwork-cwu50.c) and the
    IOVCC disable. *)
Theorem prepare_vci_refused :
  (forall (w : world) (m : machine Clockwork.cwu50_panel) (r2 : Z),
      let c := ctx m in
      let evs := events_of (Clockwork.cwu50_prepare w) m in
      nth_error evs 2 = Some (RegulatorEnable (Clockwork.vci c), r2) -> r2 < 0 ->
      exists r1 ri,
        0 <= r1 /\
        evs = [(RegulatorEnable (Clockwork.iovcc c), r1);
               (UsleepRange 1000 5000, 0);
               (RegulatorEnable (Clockwork.vci c), r2);
               (RegulatorDisable (Clockwork.iovcc c), ri)] /\
        result_of (Clockwork.cwu50_prepare w) m = r2 /\
        ctx (snd (Clockwork.cwu50_prepare w m)) = c)
  /\
  (forall (w : world) (m : machine Cw.cwu50_panel) (r2 : Z),
      let c := ctx m in
      let evs := events_of (Cw.cwu50_prepare w) m in
      nth_error evs 1 = Some (RegulatorEnable (Cw.vci c), r2) -> r2 < 0 ->
      exists r1 ri,
        0 <= r1 /\
        evs = [(RegulatorEnable (Cw.iovcc c), r1);
               (RegulatorEnable (Cw.vci c), r2);
               (RegulatorDisable (Cw.iovcc c), ri)] /\
        result_of (Cw.cwu50_prepare w) m = r2 /\
        ctx (snd (Cw.cwu50_prepare w m)) = c).
Proof.
  split; intros w m r c evs; subst evs; unfold events_of, result_of.
  - destruct (ck_prepare_cases w m) as (ret & evs & logs & Heq & Hcases).
    fold c in Heq, Hcases. rewrite Heq. cbn [fst snd ctx].
    rewrite (events_since_app m _ evs) by reflexivity.
    intros Hnth Hr.
    destruct Hcases
      as [(r1 & H1 & -> & ->)
         |[(r1 & r2 & ri & H1 & H2 & -> & ->)
          |[(r1 & r2 & k & x & rs & e & rv & ri & H1 & H2 & _ & _ & _ & _ & -> & ->)
           |(r1 & r2 & rs & H1 & H2 & _ & _ & -> & ->)]]];
      cbn [ck_power_on app nth_error] in Hnth; inversion Hnth; subst; try lia.
    exists r1, ri. auto.
  - destruct (Cw.prepared c) eqn:Hp.
    { rewrite (cw_prepare_prepared w m Hp). cbn [snd].
      rewrite events_since_refl. discriminate. }
    destruct (cw_prepare_cases w m Hp) as (ret & evs & logs & c' & Heq & Hcases).
    fold c in Heq, Hcases. rewrite Heq. cbn [fst snd ctx].
    rewrite (events_since_app m _ evs) by reflexivity.
    intros Hnth Hr.
    destruct Hcases
      as [(r1 & H1 & -> & -> & ->)
         |[(r1 & r2 & ri & H1 & H2 & -> & -> & ->)
          |[(r1 & r2 & k & x & rs & e & rv & ri & H1 & H2 & _ & _ & _ & _ & -> & -> & ->)
           |[(r1 & r2 & rs & rx & rv & ri & H1 & H2 & _ & _ & _ & -> & -> & ->)
            |(r1 & r2 & rs & rx & H1 & H2 & _ & _ & _ & -> & -> & ->)]]]];
      cbn [cw_power_on app nth_error] in Hnth; inversion Hnth; subst; try lia.
    exists r1, ri. auto.
Qed.

(** [prepare_vci_refused] at work: regulator 1, VCI, answers -22. *)
Lemma prepare_vci_refused_witness :
  events_of (Clockwork.cwu50_prepare (world_fail_enable 1%nat (-22))) (boot clockwork_panel)
  = [(RegulatorEnable 2%nat, 0); (UsleepRange 1000 5000, 0);
     (RegulatorEnable 1%nat, -22); (RegulatorDisable 2%nat, 0)]
  /\
  result_of (Clockwork.cwu50_prepare (world_fail_enable 1%nat (-22))) (boot clockwork_panel)
  = -22
  /\
  result_of (Cw.cwu50_prepare (world_fail_enable 1%nat (-22))) (boot (cw_panel false))
  = -22.
Proof.
  split; [reflexivity|]. split.
  - destruct (proj1 prepare_vci_refused (world_fail_enable 1%nat (-22))
                (boot clockwork_panel) (-22)) as (r1 & ri & _ & _ & Hret & _);
      [reflexivity|lia|exact Hret].
  - destruct (proj2 prepare_vci_refused (world_fail_enable 1%nat (-22))
                (boot (cw_panel false)) (-22)) as (r1 & ri & _ & _ & Hret & _);
      [reflexivity|lia|exact Hret].
Defined.

(** ** Regulator references *)

(** X3.  [cwu50_prepare] never leaks a regulator reference.  In both
    drivers and for every regulator handle [r]: a call that fails has called
    [regulator_disable] on [r] exactly as many times as it had switched [r]
    on with success, and a call that succeeds has called [regulator_disable]
    not at all. *)
Theorem prepare_regulator_balance :
  (forall (w : world) (m : machine Clockwork.cwu50_panel) (r : handle),
      let evs := events_of (Clockwork.cwu50_prepare w) m in
      disables r evs
      = if result_of (Clockwork.cwu50_prepare w) m <? 0
        then enables_held r evs else 0%nat)
  /\
  (forall (w : world) (m : machine Cw.cwu50_panel) (r : handle),
      let evs := events_of (Cw.cwu50_prepare w) m in
      disables r evs
      = if result_of (Cw.cwu50_prepare w) m <? 0
        then enables_held r evs else 0%nat).
Proof.
  split; intros w m r evs; subst evs; unfold events_of, result_of.
  - destruct (ck_prepare_cases w m) as (ret & evs & logs & Heq & Hcases).
    rewrite Heq. cbn [fst snd ctx].
    rewrite (events_since_app m _ evs) by reflexivity.
    destruct Hcases
      as [(r1 & H1 & -> & ->)
         |[(r1 & r2 & ri & H1 & H2 & -> & ->)
          |[(r1 & r2 & k & x & rs & e & rv & ri & H1 & H2 & _ & _ & _ & He & -> & ->)
           |(r1 & r2 & rs & H1 & H2 & _ & _ & -> & ->)]]];
      rewrite ?enables_held_app, ?disables_app;
      rewrite ?(proj1 (table_writes_no_regulator r _ _ _ _));
      rewrite ?(proj2 (table_writes_no_regulator r _ _ _ _));
      cbn [ck_power_on ck_rollback enables_held disables write_of];
      settle_signs;
      repeat match goal with |- context [Nat.eqb ?a ?b] => destruct (Nat.eqb a b) end;
      cbn [andb]; lia.
  - destruct (Cw.prepared (ctx m)) eqn:Hp.
    { rewrite (cw_prepare_prepared w m Hp). cbn [fst snd].
      rewrite events_since_refl. reflexivity. }
    destruct (cw_prepare_cases w m Hp) as (ret & evs & logs & c' & Heq & Hcases).
    rewrite Heq. cbn [fst snd ctx].
    rewrite (events_since_app m _ evs) by reflexivity.
    destruct Hcases
      as [(r1 & H1 & -> & -> & ->)
         |[(r1 & r2 & ri & H1 & H2 & -> & -> & ->)
          |[(r1 & r2 & k & x & rs & e & rv & ri & H1 & H2 & _ & _ & _ & He & -> & -> & ->)
           |[(r1 & r2 & rs & rx & rv & ri & H1 & H2 & _ & _ & Hx & -> & -> & ->)
            |(r1 & r2 & rs & rx & H1 & H2 & _ & _ & _ & -> & -> & ->)]]]];
      rewrite ?enables_held_app, ?disables_app;
      rewrite ?(proj1 (table_writes_no_regulator r _ _ _ _));
      rewrite ?(proj2 (table_writes_no_regulator r _ _ _ _));
      cbn [cw_power_on cw_rollback enables_held disables write_of];
      settle_signs;
      repeat match goal with |- context [Nat.eqb ?a ?b] => destruct (Nat.eqb a b) end;
      cbn [andb]; lia.
Qed.

(** X4.  A successful [cwu50_prepare] followed by [cwu50_unprepare] is
    balanced: over the two calls, every regulator handle has been switched
    on with success exactly as often as [regulator_disable] was called on
    it.  (In panel-cw-cwu50.c this is for a panel that was not already
    prepared; on a prepared one the prepare call does nothing.) *)
Theorem prepare_unprepare_regulator_balance :
  (forall (w w' : world) (m : machine Clockwork.cwu50_panel) (r : handle),
      let m1 := snd (Clockwork.cwu50_prepare w m) in
      let evs := events_of (Clockwork.cwu50_prepare w) m
                 ++ events_of (Clockwork.cwu50_unprepare w') m1 in
      0 <= result_of (Clockwork.cwu50_prepare w) m ->
      disables r evs = enables_held r evs)
  /\
  (forall (w w' : world) (m : machine Cw.cwu50_panel) (r : handle),
      let m1 := snd (Cw.cwu50_prepare w m) in
      let evs := events_of (Cw.cwu50_prepare w) m
                 ++ events_of (Cw.cwu50_unprepare w') m1 in
      Cw.prepared (ctx m) = false ->
      0 <= result_of (Cw.cwu50_prepare w) m ->
      disables r evs = enables_held r evs).
Proof.
  split.
  - intros w w' m r m1 evs Hok; subst evs m1; unfold events_of, result_of in *.
    destruct (ck_prepare_cases w m) as (ret & evs & logs & Heq & Hcases).
    rewrite Heq in *. cbn [fst snd ctx] in *.
    rewrite (events_since_app m _ evs) by reflexivity.
    destruct Hcases
      as [(r1 & H1 & -> & ->)
         |[(r1 & r2 & ri' & H1 & H2 & -> & ->)
          |[(r1 & r2 & k & x & rs & e & rv' & ri' & H1 & H2 & _ & _ & _ & He & -> & ->)
           |(r1 & r2 & rs & H1 & H2 & _ & _ & -> & ->)]]]; try lia.
    match goal with |- context [Clockwork.cwu50_unprepare w' ?m1] =>
      destruct (ck_unprepare_spec w' m1) as (rv & ri & logs' & Heq' & _);
      rewrite Heq'; cbn [snd ctx];
      erewrite (events_since_app m1) by reflexivity
    end.
    rewrite ?enables_held_app, ?disables_app.
    rewrite ?(proj1 (table_writes_no_regulator r _ _ _ _)).
    rewrite ?(proj2 (table_writes_no_regulator r _ _ _ _)).
    cbn [ck_power_on enables_held disables].
    settle_signs.
    repeat match goal with |- context [Nat.eqb ?a ?b] => destruct (Nat.eqb a b) end;
      cbn [andb]; lia.
  - intros w w' m r m1 evs Hp Hok; subst evs m1; unfold events_of, result_of in *.
    destruct (cw_prepare_cases w m Hp) as (ret & evs & logs & c' & Heq & Hcases).
    rewrite Heq in *. cbn [fst snd ctx] in *.
    rewrite (events_since_app m _ evs) by reflexivity.
    destruct Hcases
      as [(r1 & H1 & -> & -> & ->)
         |[(r1 & r2 & ri' & H1 & H2 & -> & -> & ->)
          |[(r1 & r2 & k & x & rs & e & rv' & ri' & H1 & H2 & _ & _ & _ & He & -> & -> & ->)
           |[(r1 & r2 & rs & rx & rv' & ri' & H1 & H2 & _ & _ & Hx & -> & -> & ->)
            |(r1 & r2 & rs & rx & H1 & H2 & _ & _ & _ & -> & -> & ->)]]]]; try lia.
    match goal with |- context [Cw.cwu50_unprepare w' ?m1] =>
      destruct (cw_unprepare_spec w' m1 eq_refl) as (a1 & a2 & rv & ri & logs' & Heq');
      rewrite Heq'; cbn [snd];
      erewrite (events_since_app m1) by reflexivity
    end.
    cbn [ctx Cw.set_prepared Cw.dsi Cw.vci Cw.iovcc Cw.reset_gpio].
    rewrite ?enables_held_app, ?disables_app.
    rewrite ?(proj1 (table_writes_no_regulator r _ _ _ _)).
    rewrite ?(proj2 (table_writes_no_regulator r _ _ _ _)).
    cbn [cw_power_on enables_held disables].
    settle_signs.
    repeat match goal with |- context [Nat.eqb ?a ?b] => destruct (Nat.eqb a b) end;
      cbn [andb]; lia.
Qed.

(** [prepare_unprepare_regulator_balance] at work on hardware where every
    call succeeds: IOVCC (regulator 2) is switched on once and off once. *)
Lemma prepare_unprepare_regulator_balance_witness :
  (0 <= result_of (Clockwork.cwu50_prepare world_ok) (boot clockwork_panel) /\
   disables 2%nat
     (events_of (Clockwork.cwu50_prepare world_ok) (boot clockwork_panel)
      ++ events_of (Clockwork.cwu50_unprepare world_ok)
           (snd (Clockwork.cwu50_prepare world_ok (boot clockwork_panel))))
   = enables_held 2%nat
       (events_of (Clockwork.cwu50_prepare world_ok) (boot clockwork_panel)
        ++ events_of (Clockwork.cwu50_unprepare world_ok)
             (snd (Clockwork.cwu50_prepare world_ok (boot clockwork_panel)))))
  /\
  (0 <= result_of (Cw.cwu50_prepare world_ok) (boot (cw_panel false)) /\
   disables 2%nat
     (events_of (Cw.cwu50_prepare world_ok) (boot (cw_panel false))
      ++ events_of (Cw.cwu50_unprepare world_ok)
           (snd (Cw.cwu50_prepare world_ok (boot (cw_panel false)))))
   = enables_held 2%nat
       (events_of (Cw.cwu50_prepare world_ok) (boot (cw_panel false))
        ++ events_of (Cw.cwu50_unprepare world_ok)
             (snd (Cw.cwu50_prepare world_ok (boot (cw_panel false)))))).
Proof.
  assert (Hck : 0 <= result_of (Clockwork.cwu50_prepare world_ok) (boot clockwork_panel))
    by (vm_compute; discriminate).
  assert (Hcw : 0 <= result_of (Cw.cwu50_prepare world_ok) (boot (cw_panel false)))
    by (vm_compute; discriminate).
  split; (split; [assumption|]).
  - exact (proj1 prepare_unprepare_regulator_balance world_ok world_ok
             (boot clockwork_panel) 2%nat Hck).
  - exact (proj2 prepare_unprepare_regulator_balance world_ok world_ok
             (boot (cw_panel false)) 2%nat eq_refl Hcw).
Defined.

(** ** What the callbacks return *)

(** X5.  [cwu50_prepare] and [cwu50_enable] of both drivers, and
    [cwu50_disable] of panel-clockwork-cwu50.c, return 0 or a negative
    error, never a positive value, whatever the hardware answers (a
    successful transport write answers with a positive byte count).  In
    panel-cw-cwu50.c the panel ends up prepared exactly when
    [cwu50_prepare] returned 0, and apart from that flag [cwu50_prepare]
    leaves the panel structure as it was. *)
Theorem callbacks_return_convention :
  (forall (w : world) (m : machine Clockwork.cwu50_panel),
      result_of (Clockwork.cwu50_prepare w) m <= 0 /\
      result_of (Clockwork.cwu50_enable w) m <= 0 /\
      result_of (Clockwork.cwu50_disable w) m <= 0 /\
      ctx (snd (Clockwork.cwu50_prepare w m)) = ctx m)
  /\
  (forall (w : world) (m : machine Cw.cwu50_panel),
      let ret := result_of (Cw.cwu50_prepare w) m in
      ret <= 0 /\
      result_of (Cw.cwu50_enable w) m <= 0 /\
      ctx (snd (Cw.cwu50_prepare w m)) = Cw.set_prepared (0 <=? ret) (ctx m)).
Proof.
  split; intros w m; cbv zeta; unfold result_of.
  - destruct (ck_prepare_cases w m) as (ret & evs & logs & Heq & Hcases).
    destruct (ck_enable_cases w m) as (ret' & evs' & logs' & Heq' & Hcases').
    destruct (ck_disable_cases w m) as (ret'' & evs'' & logs'' & Heq'' & Hcases'').
    rewrite Heq, Heq', Heq''. cbn [fst snd ctx].
    repeat split.
    + destruct Hcases
        as [(r1 & H1 & -> & _)
           |[(r1 & r2 & ri & _ & H2 & -> & _)
            |[(r1 & r2 & k & x & rs & e & rv & ri & _ & _ & _ & _ & _ & He & -> & _)
             |(r1 & r2 & rs & _ & _ & _ & _ & -> & _)]]]; lia.
    + destruct Hcases'
        as [(r1 & H1 & -> & _)
           |[(r1 & r2 & _ & H2 & -> & _)
            |[(r1 & r2 & r3 & _ & _ & H3 & -> & _)
             |(r1 & r2 & r3 & _ & _ & _ & -> & _)]]]; lia.
    + destruct Hcases''
        as [(r1 & H1 & -> & _)
           |[(r1 & r2 & _ & H2 & -> & _)
            |(r1 & r2 & _ & _ & -> & _)]]; lia.
  - destruct (cw_enable_cases w m) as (ret' & evs' & logs' & Heq' & Hcases').
    rewrite Heq'. cbn [fst].
    assert (He : ret' <= 0).
    { destruct Hcases'
        as [(r2 & H2 & -> & _)
           |[(r2 & r3 & _ & H3 & -> & _)
            |(r2 & r3 & _ & _ & -> & _)]]; lia. }
    destruct (Cw.prepared (ctx m)) eqn:Hp.
    + rewrite (cw_prepare_prepared w m Hp). cbn [fst snd].
      repeat split; try lia.
      destruct m as [[d v i g b] h l]. cbn in Hp. subst b. reflexivity.
    + destruct (cw_prepare_cases w m Hp) as (ret & evs & logs & c' & Heq & Hcases).
      rewrite Heq. cbn [fst snd ctx].
      assert (Hc : Cw.set_prepared false (ctx m) = ctx m).
      { destruct m as [[d v i g b] h l]. cbn in Hp. subst b. reflexivity. }
      destruct Hcases
        as [(r1 & H1 & -> & -> & _)
           |[(r1 & r2 & ri & _ & H2 & -> & -> & _)
            |[(r1 & r2 & k & x & rs & e & rv & ri & _ & _ & _ & _ & _ & H & -> & -> & _)
             |[(r1 & r2 & rs & rx & rv & ri & _ & _ & _ & _ & H & -> & -> & _)
              |(r1 & r2 & rs & rx & _ & _ & _ & _ & _ & -> & -> & _)]]]];
        repeat split; try lia;
        try (destruct (Z.leb_spec 0 r1); [lia|now rewrite Hc]);
        try (destruct (Z.leb_spec 0 r2); [lia|now rewrite Hc]);
        try (destruct (Z.leb_spec 0 e); [lia|now rewrite Hc]);
        try (destruct (Z.leb_spec 0 rx); [lia|now rewrite Hc]).
Qed.

(** ** panel-cw-cwu50.c: a failed "exit sleep mode" at the end of init *)

Lemma in_table_writes (d : handle) (table : list cwu50_init_cmd) (k : nat)
  (rs : list Z) (e : event) :
  In e (table_writes d table k rs) ->
  exists c, In c table /\ fst e = write_of d c.
Proof.
  unfold table_writes. intro H.
  assert (Hsub : forall c, In c (firstn k table) -> In c table).
  { intros c Hc. rewrite <- (firstn_skipn k table). apply in_or_app. now left. }
  revert Hsub H. generalize (firstn k table) as cs. intro cs. revert rs.
  induction cs as [|c cs IH]; intros [|x rs] Hsub H; simpl in H; try contradiction.
  destruct H as [<-|H].
  - exists c. split; [apply Hsub; now left|reflexivity].
  - apply (IH rs); auto. intros c' Hc'. apply Hsub. now right.
Qed.

(** X6.  In panel-cw-cwu50.c, when every table write succeeded but the
    "exit sleep mode" command that ends the init sequence fails with
    [rx < 0], [cwu50_prepare] unwinds as for a failed table write: it drives
    the reset line low, calls [regulator_disable] on VCI and then on IOVCC,
    returns [rx], and leaves the panel unprepared.  All 212 table entries
    had been written before. *)
Theorem cw_prepare_exit_sleep_refused :
  forall (w : world) (m : machine Cw.cwu50_panel) (rx : Z),
    let c := ctx m in
    let d := Cw.dsi c in
    let table := Cw.cwu50_panel_init_cmds in
    let evs := events_of (Cw.cwu50_prepare w) m in
    In (DcsExitSleepMode d, rx) evs -> rx < 0 ->
    exists r1 r2 rs rv ri,
      0 <= r1 /\ 0 <= r2 /\ length rs = length table /\
      Forall (fun r => 0 <= r) rs /\
      evs = cw_power_on c r1 r2 ++ table_writes d table (length table) rs
            ++ [(DcsExitSleepMode d, rx)] ++ cw_rollback c rv ri /\
      result_of (Cw.cwu50_prepare w) m = rx /\
      ctx (snd (Cw.cwu50_prepare w m)) = c /\ Cw.prepared c = false.
Proof.
  intros w m rx c d table evs; subst evs; unfold events_of, result_of.
  destruct (Cw.prepared c) eqn:Hp.
  { rewrite (cw_prepare_prepared w m Hp). cbn [snd].
    rewrite events_since_refl. intros []. }
  destruct (cw_prepare_cases w m Hp) as (ret & evs & logs & c' & Heq & Hcases).
  fold c d table in Heq, Hcases. rewrite Heq. cbn [fst snd ctx].
  rewrite (events_since_app m _ evs) by reflexivity.
  intros Hin Hrx.
  assert (Hnot : forall k rs, ~ In (DcsExitSleepMode d, rx) (table_writes d table k rs)).
  { intros k rs H. destruct (in_table_writes _ _ _ _ _ H) as (x & _ & Hx).
    discriminate Hx. }
  destruct Hcases
    as [(r1 & H1 & -> & -> & ->)
       |[(r1 & r2 & ri & H1 & H2 & -> & -> & ->)
        |[(r1 & r2 & k & x & rs & e & rv & ri & H1 & H2 & _ & _ & _ & _ & -> & -> & ->)
         |[(r1 & r2 & rs & rx' & rv & ri & H1 & H2 & Hlen & Hall & Hx & -> & -> & ->)
          |(r1 & r2 & rs & rx' & H1 & H2 & _ & _ & Hx & -> & -> & ->)]]]].
  - cases_in Hin.
  - cases_in Hin.
  - exfalso. apply in_app_or in Hin. destruct Hin as [Hin|Hin]; [cases_in Hin|].
    apply in_app_or in Hin. destruct Hin as [Hin|Hin]; [now apply Hnot in Hin|].
    cases_in Hin.
  - apply in_app_or in Hin. destruct Hin as [Hin|Hin]; [cases_in Hin|].
    apply in_app_or in Hin. destruct Hin as [Hin|Hin]; [now apply Hnot in Hin|].
    cases_in Hin.
    exists r1, r2, rs, rv, ri. auto 10.
  - exfalso. apply in_app_or in Hin. destruct Hin as [Hin|Hin]; [cases_in Hin|].
    apply in_app_or in Hin. destruct Hin as [Hin|Hin]; [now apply Hnot in Hin|].
    cases_in Hin. lia.
Qed.

(** [cw_prepare_exit_sleep_refused] at work: the transport refuses "exit
    sleep mode" with -5. *)
Lemma cw_prepare_exit_sleep_refused_witness :
  result_of (Cw.cwu50_prepare (world_fail_exit_sleep (-5))) (boot (cw_panel false)) = -5
  /\
  skipn 220 (events_of (Cw.cwu50_prepare (world_fail_exit_sleep (-5)))
                       (boot (cw_panel false)))
  = [(DcsExitSleepMode 0%nat, -5); (GpiodSetValue 3%nat 0, 0);
     (RegulatorDisable 1%nat, 0); (RegulatorDisable 2%nat, 0)].
Proof.
  split; [|vm_compute; reflexivity].
  destruct (cw_prepare_exit_sleep_refused (world_fail_exit_sleep (-5))
              (boot (cw_panel false)) (-5))
    as (r1 & r2 & rs & rv & ri & _ & _ & _ & _ & _ & Hret & _).
  - vm_compute. do 220 right. left. reflexivity.
  - lia.
  - exact Hret.
Defined.

(** ** panel-cw-cwu50.c: the prepared flag over several calls *)

(** X7.  In panel-cw-cwu50.c [cwu50_unprepare] is idempotent: after any
    [cwu50_unprepare] call, a further one returns 0, makes no hardware call
    and changes nothing, whatever the hardware would answer. *)
Theorem cw_unprepare_twice :
  forall (w w' : world) (m : machine Cw.cwu50_panel),
    let m1 := snd (Cw.cwu50_unprepare w m) in
    Cw.cwu50_unprepare w' m1 = (0, m1) /\
    events_of (Cw.cwu50_unprepare w') m1 = [].
Proof.
  intros w w' m m1. subst m1. unfold events_of.
  rewrite (cw_unprepare_unprepared w' _ (cw_unprepare_clears w m)).
  split; [reflexivity|]. apply events_since_refl.
Qed.

(** X8.  In panel-cw-cwu50.c a successful [cwu50_prepare] followed by
    [cwu50_unprepare] hands back the panel structure it started from, and the
    panel can be prepared again: the next [cwu50_prepare] is not skipped, it
    starts by switching IOVCC on. *)
Theorem cw_prepare_unprepare_round_trip :
  forall (w1 w2 w3 : world) (m : machine Cw.cwu50_panel),
    let m1 := snd (Cw.cwu50_prepare w1 m) in
    let m2 := snd (Cw.cwu50_unprepare w2 m1) in
    Cw.prepared (ctx m) = false ->
    0 <= result_of (Cw.cwu50_prepare w1) m ->
    Cw.prepared (ctx m1) = true /\
    ctx m2 = ctx m /\
    exists r rest,
      events_of (Cw.cwu50_prepare w3) m2
      = (RegulatorEnable (Cw.iovcc (ctx m)), r) :: rest.
Proof.
  intros w1 w2 w3 m m1 m2 Hp Hok. subst m2 m1. unfold result_of, events_of in *.
  assert (Hc : Cw.set_prepared false (Cw.set_prepared true (ctx m)) = ctx m).
  { destruct m as [[d v i g b] h l]. cbn in Hp. subst b. reflexivity. }
  destruct (cw_prepare_cases w1 m Hp) as (ret & evs & logs & c' & Heq & Hcases).
  rewrite Heq in *. cbn [fst snd ctx] in *.
  destruct Hcases
    as [(r1 & H1 & -> & _)
       |[(r1 & r2 & ri & _ & H2 & -> & _)
        |[(r1 & r2 & k & x & rs & e & rv & ri & _ & _ & _ & _ & _ & H & -> & _)
         |[(r1 & r2 & rs & rx & rv & ri & _ & _ & _ & _ & H & -> & _)
          |(r1 & r2 & rs & rx & _ & _ & _ & _ & _ & _ & -> & _)]]]]; try lia.
  split; [reflexivity|].
  match goal with |- context [Cw.cwu50_unprepare w2 ?m1] =>
    destruct (cw_unprepare_spec w2 m1 eq_refl) as (a1 & a2 & rv & ri & logs' & Heq');
    rewrite Heq'; cbn [snd ctx]
  end.
  rewrite Hc. split; [reflexivity|].
  match goal with |- context [Cw.cwu50_prepare w3 ?m2] =>
    destruct (cw_prepare_cases w3 m2 Hp) as (ret3 & evs3 & logs3 & c3 & Heq3 & Hcases3);
    rewrite Heq3; cbn [snd];
    rewrite (events_since_app m2 _ evs3) by reflexivity
  end.
  cbn [ctx] in Hcases3.
  destruct Hcases3
    as [(r1' & _ & _ & _ & ->)
       |[(r1' & r2' & ri' & _ & _ & _ & _ & ->)
        |[(r1' & r2' & k & x & rs' & e & rv' & ri' & _ & _ & _ & _ & _ & _ & _ & _ & ->)
         |[(r1' & r2' & rs' & rx' & rv' & ri' & _ & _ & _ & _ & _ & _ & _ & ->)
          |(r1' & r2' & rs' & rx' & _ & _ & _ & _ & _ & _ & _ & ->)]]]];
    eexists _, _; reflexivity.
Qed.

(** [cw_prepare_unprepare_round_trip] at work on hardware where every call
    succeeds. *)
Lemma cw_prepare_unprepare_round_trip_witness :
  0 <= result_of (Cw.cwu50_prepare world_ok) (boot (cw_panel false)) /\
  ctx (snd (Cw.cwu50_unprepare world_ok
              (snd (Cw.cwu50_prepare world_ok (boot (cw_panel false))))))
  = cw_panel false.
Proof.
  assert (Hok : 0 <= result_of (Cw.cwu50_prepare world_ok) (boot (cw_panel false)))
    by (vm_compute; discriminate).
  split; [assumption|].
  exact (proj1 (proj2 (cw_prepare_unprepare_round_trip world_ok world_ok world_ok
                         (boot (cw_panel false)) eq_refl Hok))).
Defined.

(** ** enable and disable never go backwards *)


(** ** Where the reset line is left *)

(** X10.  The reset line after [cwu50_prepare] tells how the call ended:
    the last level the call wrote is 1 (panel out of reset) exactly when it
    succeeded (in panel-cw-cwu50.c: succeeded on a panel that was not
    already prepared, since otherwise nothing is written); a failing call
    either never wrote the line or wrote 0 last.  [cwu50_unprepare] of
    panel-clockwork-cwu50.c always writes 0 last; that of panel-cw-cwu50.c
    does so whenever the panel was prepared and writes nothing otherwise. *)
Theorem reset_line_after :
  (forall (w : world) (m : machine Clockwork.cwu50_panel),
      let evs := events_of (Clockwork.cwu50_prepare w) m in
      let ret := result_of (Clockwork.cwu50_prepare w) m in
      (last_gpio_value evs = Some 1 <-> 0 <= ret) /\
      (ret < 0 -> last_gpio_value evs = Some 0 \/ last_gpio_value evs = None) /\
      last_gpio_value (events_of (Clockwork.cwu50_unprepare w) m) = Some 0)
  /\
  (forall (w : world) (m : machine Cw.cwu50_panel),
      let evs := events_of (Cw.cwu50_prepare w) m in
      let ret := result_of (Cw.cwu50_prepare w) m in
      (last_gpio_value evs = Some 1 <-> (0 <= ret /\ Cw.prepared (ctx m) = false)) /\
      (ret < 0 -> last_gpio_value evs = Some 0 \/ last_gpio_value evs = None) /\
      last_gpio_value (events_of (Cw.cwu50_unprepare w) m)
      = (if Cw.prepared (ctx m) then Some 0 else None)).
Proof.
  split; intros w m; cbv zeta; unfold events_of, result_of.
  - destruct (ck_prepare_cases w m) as (ret & evs & logs & Heq & Hcases).
    rewrite Heq. cbn [fst snd].
    rewrite (events_since_app m _ evs) by reflexivity.
    assert (Hlast :
              (ret < 0 /\ (last_gpio_value evs = Some 0 \/ last_gpio_value evs = None))
              \/ (0 <= ret /\ last_gpio_value evs = Some 1)).
    { destruct Hcases
        as [(r1 & H1 & -> & ->)
           |[(r1 & r2 & ri & H1 & H2 & -> & ->)
            |[(r1 & r2 & k & x & rs & e & rv & ri & H1 & H2 & _ & _ & _ & He & -> & ->)
             |(r1 & r2 & rs & H1 & H2 & _ & _ & -> & ->)]]];
        rewrite ?last_gpio_value_app, ?table_writes_no_gpio; cbn;
        [left|left|left|right]; split; auto; lia. }
    repeat split.
    + intro H1. destruct Hlast as [(_ & [H|H])|(H & _)]; congruence || assumption.
    + intro H1. destruct Hlast as [(H & _)|(_ & H)]; [lia|assumption].
    + intro H1. destruct Hlast as [(_ & H)|(H & _)]; [assumption|lia].
    + destruct (ck_unprepare_spec w m) as (rv & ri & logs' & Heq' & _).
      rewrite Heq'. cbn [snd].
      erewrite (events_since_app m) by reflexivity. reflexivity.
  - destruct (Cw.prepared (ctx m)) eqn:Hp.
    { rewrite (cw_prepare_prepared w m Hp). cbn [fst snd].
      rewrite events_since_refl.
      destruct (cw_unprepare_spec w m Hp) as (a1 & a2 & rv & ri & logs & Heq).
      rewrite Heq. cbn [snd]. erewrite (events_since_app m) by reflexivity.
      split; [|split].
      - split; [discriminate|]. intros [_ H]. discriminate H.
      - intros _. now right.
      - reflexivity. }
    rewrite (cw_unprepare_unprepared w m Hp). cbn [snd]. rewrite events_since_refl.
    destruct (cw_prepare_cases w m Hp) as (ret & evs & logs & c' & Heq & Hcases).
    rewrite Heq. cbn [fst snd].
    rewrite (events_since_app m _ evs) by reflexivity.
    assert (Hlast :
              (ret < 0 /\ (last_gpio_value evs = Some 0 \/ last_gpio_value evs = None))
              \/ (0 <= ret /\ last_gpio_value evs = Some 1)).
    { destruct Hcases
        as [(r1 & H1 & -> & -> & ->)
           |[(r1 & r2 & ri & H1 & H2 & -> & -> & ->)
            |[(r1 & r2 & k & x & rs & e & rv & ri & H1 & H2 & _ & _ & _ & He & -> & -> & ->)
             |[(r1 & r2 & rs & rx & rv & ri & H1 & H2 & _ & _ & Hx & -> & -> & ->)
              |(r1 & r2 & rs & rx & H1 & H2 & _ & _ & _ & -> & -> & ->)]]]];
        rewrite ?last_gpio_value_app, ?table_writes_no_gpio; cbn;
        [left|left|left|left|right]; split; auto; lia. }
    split; [split|split].
    + intro Ha. destruct Hlast as [(_ & [Hb|Hb])|(Hb & _)];
        [congruence|congruence|split; [assumption|reflexivity]].
    + intros [Ha _]. destruct Hlast as [(Hb & _)|(_ & Hb)]; [lia|assumption].
    + intro Ha. destruct Hlast as [(_ & Hb)|(Hb & _)]; [assumption|lia].
    + reflexivity.
Qed.

(** ** What is transmitted *)

Lemma cmd_ok_spec (c : cwu50_init_cmd) :
  cmd_ok c = true ->
  Z.of_nat (length (data c)) = CWU50_INIT_CMD_LEN /\
  Forall (fun b => 0 <= b < 256) (data c).
Proof.
  unfold cmd_ok. intro H. apply andb_prop in H. destruct H as [Hlen Hbytes].
  apply Nat.eqb_eq in Hlen. split; [now rewrite Hlen|].
  apply Forall_forall. intros b Hb.
  rewrite forallb_forall in Hbytes. specialize (Hbytes b Hb).
  apply andb_prop in Hbytes. destruct Hbytes as [H1 H2].
  apply Z.leb_le in H1. apply Z.ltb_lt in H2. lia.
Qed.

Lemma table_write_ok_entry (d : handle) (table : list cwu50_init_cmd)
  (c : cwu50_init_cmd) :
  forallb cmd_ok table = true -> In c table ->
  table_write_ok d table (write_of d c).
Proof.
  intros Hall Hin. rewrite forallb_forall in Hall.
  destruct (cmd_ok_spec c (Hall c Hin)) as [Hlen Hbytes].
  unfold table_write_ok, write_of. repeat split; auto.
  now destruct c.
Qed.

Lemma table_writes_ok (d : handle) (table : list cwu50_init_cmd) (k : nat)
  (rs : list Z) :
  forallb cmd_ok table = true ->
  Forall (fun e => table_write_ok d table (fst e)) (table_writes d table k rs).
Proof.
  intro Hall. apply Forall_forall. intros e Hin.
  destruct (in_table_writes _ _ _ _ _ Hin) as (c & Hc & ->).
  now apply table_write_ok_entry.
Qed.

Lemma ck_table_cmds_ok : forallb cmd_ok Clockwork.cwu50_panel_init_cmds = true.
Proof. vm_compute. reflexivity. Qed.

Lemma cw_table_cmds_ok : forallb cmd_ok Cw.cwu50_panel_init_cmds = true.
Proof. vm_compute. reflexivity. Qed.

(** X11.  Every transport write [cwu50_prepare] makes, in either driver and
    on every path, goes to the panel's own DSI device, passes a length of
    [CWU50_INIT_CMD_LEN] = 2 together with a buffer of exactly that many
    bytes, each a [u8] value, and the two bytes are those of an entry of
    [cwu50_panel_init_cmds]: nothing but table entries is ever written, and
    no write reads past its buffer. *)
Theorem prepare_writes_table_entries :
  (forall (w : world) (m : machine Clockwork.cwu50_panel),
      Forall (fun e => table_write_ok (Clockwork.dsi (ctx m))
                         Clockwork.cwu50_panel_init_cmds (fst e))
             (events_of (Clockwork.cwu50_prepare w) m))
  /\
  (forall (w : world) (m : machine Cw.cwu50_panel),
      Forall (fun e => table_write_ok (Cw.dsi (ctx m))
                         Cw.cwu50_panel_init_cmds (fst e))
             (events_of (Cw.cwu50_prepare w) m)).
Proof.
  split; intros w m; unfold events_of.
  - destruct (ck_prepare_cases w m) as (ret & evs & logs & Heq & Hcases).
    rewrite Heq. cbn [snd].
    rewrite (events_since_app m _ evs) by reflexivity.
    pose proof (fun k rs => table_writes_ok (Clockwork.dsi (ctx m))
                  Clockwork.cwu50_panel_init_cmds k rs ck_table_cmds_ok) as Htw.
    destruct Hcases
      as [(r1 & _ & _ & ->)
         |[(r1 & r2 & ri & _ & _ & _ & ->)
          |[(r1 & r2 & k & x & rs & e & rv & ri & _ & _ & Hx & _ & _ & _ & _ & ->)
           |(r1 & r2 & rs & _ & _ & _ & _ & _ & ->)]]];
      rewrite ?Forall_app; repeat split;
      try apply Htw;
      try (repeat constructor; fail).
    apply Forall_cons; [|constructor]. cbn [fst].
    apply table_write_ok_entry; [exact ck_table_cmds_ok|].
    now apply nth_error_In with k.
  - destruct (Cw.prepared (ctx m)) eqn:Hp.
    { rewrite (cw_prepare_prepared w m Hp). cbn [snd].
      rewrite events_since_refl. constructor. }
    destruct (cw_prepare_cases w m Hp) as (ret & evs & logs & c' & Heq & Hcases).
    rewrite Heq. cbn [snd].
    rewrite (events_since_app m _ evs) by reflexivity.
    pose proof (fun k rs => table_writes_ok (Cw.dsi (ctx m))
                  Cw.cwu50_panel_init_cmds k rs cw_table_cmds_ok) as Htw.
    destruct Hcases
      as [(r1 & _ & _ & _ & ->)
         |[(r1 & r2 & ri & _ & _ & _ & _ & ->)
          |[(r1 & r2 & k & x & rs & e & rv & ri & _ & _ & Hx & _ & _ & _ & _ & _ & ->)
           |[(r1 & r2 & rs & rx & rv & ri & _ & _ & _ & _ & _ & _ & _ & ->)
            |(r1 & r2 & rs & rx & _ & _ & _ & _ & _ & _ & _ & ->)]]]];
      rewrite ?Forall_app; repeat split;
      try apply Htw;
      try (repeat constructor; fail).
    apply Forall_cons; [|constructor]. cbn [fst].
    apply table_write_ok_entry; [exact cw_table_cmds_ok|].
    now apply nth_error_In with k.
Qed.

(** ** Errors and the kernel log *)

(** Close a goal [log_matches_result (logs of the call) ret] once the call
    has been run to its end from [Machine p h l]. *)
Ltac finish_log l :=
  cbn [fst snd klog]; tidy;
  first [ rewrite skipn_length_app
        | rewrite <- (app_nil_r l) at 2; rewrite skipn_length_app ];
  unfold log_matches_result; cbn [Z.ltb Z.compare]; settle_signs;
  first [ reflexivity
        | now (eexists _, [])
        | now (eexists _, [_])
        | now (eexists _, [_; _])
        | now (eexists _, [_; _; _])
        | now (eexists _, [_; _; _; _])
        | now (eexists _, [_; _; _; _; _]) ].

Lemma ck_prepare_log (w : world) (m : machine Clockwork.cwu50_panel) :
  log_matches_result (logs_of (Clockwork.cwu50_prepare w) m)
                     (result_of (Clockwork.cwu50_prepare w) m).
Proof.
  destruct m as [p h l]. unfold logs_of, result_of, Clockwork.cwu50_prepare. run.
  name_ret r1. case_ret H1; [finish_log l|].
  name_ret r2. case_ret H2.
  { unfold Clockwork.disable_iovcc. run. finish_log l. }
  unfold Clockwork.cwu50_reset. run.
  match goal with |- context [Clockwork.cwu50_init_sequence w ?m0] =>
    destruct (ck_init_sequence_spec w m0)
      as [(rs & Hlen & Hall & Heq)|(k & x & rs & e & Hx & Hlen & Hall & He & Heq)];
    rewrite Heq; cbn [ctx trace klog]
  end.
  - change (0 <? 0) with false. cbv iota. finish_log l.
  - destruct (Z.ltb_spec e 0) as [_|Hge]; [|lia].
    unfold Clockwork.disable_vci, Clockwork.disable_iovcc. run. finish_log l.
Qed.

Lemma ck_enable_log (w : world) (m : machine Clockwork.cwu50_panel) :
  log_matches_result (logs_of (Clockwork.cwu50_enable w) m)
                     (result_of (Clockwork.cwu50_enable w) m).
Proof.
  destruct m as [p h l]. unfold logs_of, result_of, Clockwork.cwu50_enable. run.
  name_ret r1. case_ret H1; [finish_log l|].
  name_ret r2. case_ret H2; [finish_log l|].
  name_ret r3. case_ret H3; finish_log l.
Qed.

Lemma ck_disable_log (w : world) (m : machine Clockwork.cwu50_panel) :
  log_matches_result (logs_of (Clockwork.cwu50_disable w) m)
                     (result_of (Clockwork.cwu50_disable w) m).
Proof.
  destruct m as [p h l]. unfold logs_of, result_of, Clockwork.cwu50_disable. run.
  name_ret r1. case_ret H1; [finish_log l|].
  name_ret r2. case_ret H2; finish_log l.
Qed.

Lemma cw_prepare_log (w : world) (m : machine Cw.cwu50_panel) :
  log_matches_result (logs_of (Cw.cwu50_prepare w) m)
                     (result_of (Cw.cwu50_prepare w) m).
Proof.
  destruct (Cw.prepared (ctx m)) eqn:Hp.
  { unfold logs_of, result_of. rewrite (cw_prepare_prepared w m Hp). cbn [fst snd].
    rewrite <- (app_nil_r (klog m)) at 2. rewrite skipn_length_app. reflexivity. }
  destruct m as [p h l]. cbn [ctx] in Hp.
  unfold logs_of, result_of, Cw.cwu50_prepare. run. rewrite Hp.
  name_ret r1. case_ret H1; [finish_log l|].
  name_ret r2. case_ret H2.
  { unfold Cw.disable_iovcc. run. finish_log l. }
  unfold Cw.cwu50_reset. run.
  match goal with |- context [Cw.cwu50_init_sequence w ?m0] =>
    destruct (cw_init_sequence_spec w m0 Hp)
      as [(rs & rx & Hlen & Hall & Hx & Heq)
         |[(k & x & rs & e & Hx & Hlen & Hall & He & Heq)
          |(rs & rx & Hlen & Hall & Hx & Heq)]];
    rewrite Heq; cbn [ctx trace klog]
  end.
  - change (0 <? 0) with false. cbv iota. unfold Cw.write_prepared. run.
    finish_log l.
  - destruct (Z.ltb_spec e 0) as [_|Hge]; [|lia].
    unfold Cw.disable_vci, Cw.disable_iovcc. run. finish_log l.
  - destruct (Z.ltb_spec rx 0) as [_|Hge]; [|lia].
    unfold Cw.disable_vci, Cw.disable_iovcc. run. finish_log l.
Qed.

Lemma cw_enable_log (w : world) (m : machine Cw.cwu50_panel) :
  log_matches_result (logs_of (Cw.cwu50_enable w) m)
                     (result_of (Cw.cwu50_enable w) m).
Proof.
  destruct m as [p h l]. unfold logs_of, result_of, Cw.cwu50_enable. run.
  name_ret r2. case_ret H2; [finish_log l|].
  name_ret r3. case_ret H3; finish_log l.
Qed.

(** X12.  In panel-clockwork-cwu50.c, whenever [cwu50_prepare],
    [cwu50_enable] or [cwu50_disable] fails, the last line the call logged
    is an error line carrying the value the call returns; whenever one of
    them succeeds, it logged nothing above debug level.  The same holds for
    [cwu50_prepare] and [cwu50_enable] of panel-cw-cwu50.c.
    [cwu50_disable] of panel-cw-cwu50.c never logs anything, whether it
    fails or not. *)
Theorem failures_are_logged :
  (forall (w : world) (m : machine Clockwork.cwu50_panel),
      log_matches_result (logs_of (Clockwork.cwu50_prepare w) m)
                         (result_of (Clockwork.cwu50_prepare w) m) /\
      log_matches_result (logs_of (Clockwork.cwu50_enable w) m)
                         (result_of (Clockwork.cwu50_enable w) m) /\
      log_matches_result (logs_of (Clockwork.cwu50_disable w) m)
                         (result_of (Clockwork.cwu50_disable w) m))
  /\
  (forall (w : world) (m : machine Cw.cwu50_panel),
      log_matches_result (logs_of (Cw.cwu50_prepare w) m)
                         (result_of (Cw.cwu50_prepare w) m) /\
      log_matches_result (logs_of (Cw.cwu50_enable w) m)
                         (result_of (Cw.cwu50_enable w) m) /\
      logs_of (Cw.cwu50_disable w) m = []).
Proof.
  split; intros w m.
  - split; [apply ck_prepare_log|split; [apply ck_enable_log|apply ck_disable_log]].
  - split; [apply cw_prepare_log|split; [apply cw_enable_log|]].
    unfold logs_of. rewrite cw_disable_spec. cbv zeta. cbn [snd klog].
    rewrite <- (app_nil_r (klog m)) at 2. apply skipn_length_app.
Qed.

(** X13.  [cwu50_unprepare] reports no failure to its caller but logs each
    one: it returns 0, and the error lines it logs are, in order, one line
    for each teardown call that returned a negative value, carrying that
    value: the two [regulator_disable] calls in panel-clockwork-cwu50.c; in
    panel-cw-cwu50.c (on a prepared panel) "display off" and "enter sleep
    mode", both under the text "Failed to turn off panel", and then the two
    [regulator_disable] calls. *)
Theorem unprepare_logs_failures :
  (forall (w : world) (m : machine Clockwork.cwu50_panel),
      exists rv ri,
        nth_error (events_of (Clockwork.cwu50_unprepare w) m) 2
        = Some (RegulatorDisable (Clockwork.vci (ctx m)), rv) /\
        nth_error (events_of (Clockwork.cwu50_unprepare w) m) 4
        = Some (RegulatorDisable (Clockwork.iovcc (ctx m)), ri) /\
        result_of (Clockwork.cwu50_unprepare w) m = 0 /\
        error_lines (logs_of (Clockwork.cwu50_unprepare w) m)
        = error_line_if_failed "Failed to disable vci supply: %d\n" rv
          ++ error_line_if_failed "Failed to disable iovcc supply: %d\n" ri)
  /\
  (forall (w : world) (m : machine Cw.cwu50_panel),
      if Cw.prepared (ctx m) then
        exists r1 r2 rv ri,
          map snd (events_of (Cw.cwu50_unprepare w) m)
          = [r1; 0; r2; 0; 0; 0; rv; 0; ri] /\
          result_of (Cw.cwu50_unprepare w) m = 0 /\
          error_lines (logs_of (Cw.cwu50_unprepare w) m)
          = error_line_if_failed "Failed to turn off panel: %d\n" r1
            ++ error_line_if_failed "Failed to turn off panel: %d\n" r2
            ++ error_line_if_failed "failed to disable vci supply: %d\n" rv
            ++ error_line_if_failed "failed to disable iovcc supply: %d\n" ri
      else logs_of (Cw.cwu50_unprepare w) m = []).
Proof.
  split; intros w m.
  - destruct m as [p h l].
    unfold events_of, events_since, logs_of, result_of, Clockwork.cwu50_unprepare,
      error_line_if_failed.
    run. name_ret rv. exists rv.
    case_ret Hv; run; name_ret ri; exists ri; case_ret Hi; run;
      cbn [fst snd trace klog ctx]; tidy; rewrite !skipn_length_app;
      repeat split; reflexivity.
  - destruct (Cw.prepared (ctx m)) eqn:Hp.
    + destruct m as [p h l]. cbn [ctx] in Hp.
      unfold events_of, events_since, logs_of, result_of, Cw.cwu50_unprepare,
        Cw.write_prepared, error_line_if_failed.
      run. rewrite Hp. cbn [negb].
      name_ret r1. exists r1.
      case_ret H1; run; name_ret r2; exists r2; case_ret H2; run;
        name_ret rv; exists rv; case_ret Hv; run;
        name_ret ri; exists ri; case_ret Hi; run;
        cbn [fst snd trace klog ctx]; tidy;
        rewrite ?skipn_length_app, ?skipn_all;
        repeat split; reflexivity.
    + unfold logs_of. rewrite (cw_unprepare_unprepared w m Hp). cbn [snd].
      rewrite <- (app_nil_r (klog m)) at 2. apply skipn_length_app.
Qed.

(** * Binding to the DRM core *)

Ltac run_drm :=
  cbv beta iota zeta delta
    [bind Return get_ctx set_ctx printk dev_err update_env record_call
     write_ctx write_prepare_first write_dsi write_display_info history
     void_call int_call pointer_call devm_kzalloc devm_gpiod_get
     devm_regulator_get mipi_dsi_set_drvdata drm_panel_init
     drm_panel_of_backlight drm_panel_add drm_panel_remove
     devm_mipi_dsi_attach mipi_dsi_attach mipi_dsi_detach drm_mode_vrefresh
     drm_mode_probed_add drm_connector_set_panel_orientation dev_err_probe
     of_drm_get_panel_orientation drm_mode_duplicate drm_mode_set_name
     ctx trace klog calls panel_ctx panel_prepare_first dsi_dev connector
     fst snd negb].

(** Split on the next answer of the kernel the goal is stuck on. *)
Ltac ask_kernel :=
  match goal with
  | |- context [if kzalloc_ok ?bw ?h then _ else _] =>
      destruct (kzalloc_ok bw h) eqn:?
  | |- context [match get_pointer ?bw ?h ?c with inl _ => _ | inr _ => _ end] =>
      destruct (get_pointer bw h c) as [?p|?e] eqn:?
  | |- context [get_orientation ?bw ?h ?np] =>
      destruct (get_orientation bw h np) as [?ret [?o|]] eqn:?
  | |- context [match dup_mode ?bw ?h ?mode with Some _ => _ | None => _ end] =>
      destruct (dup_mode bw h mode) as [?copy|] eqn:?
  | |- context [get_int ?bw ?h ?c <? 0] =>
      let r := fresh "r" in
      set (r := get_int bw h c) in *; destruct (Z.ltb_spec r 0)
  | |- context [?r <? 0] => is_var r; destruct (Z.ltb_spec r 0)
  end; run_drm.

Ltac tidy_calls :=
  repeat rewrite <- app_assoc; cbn [app];
  rewrite ?skipn_length_app, ?skipn_all.

(** ** Registration *)

(** X14.  [cwu50_probe] of either driver leaves the panel on the DRM core's
    list exactly when it returns 0: on every failure path the panel was
    either never added or, when attaching to the DSI host failed after it had
    been added, removed again.  With [ENOMEM] positive, as it is, a probe
    that does not return 0 returns a negative value. *)
Theorem probe_registers_iff_success :
  (forall (k : kernel_headers) (bw : drm_world) (dsi : handle)
          (m : machine (drm_env Clockwork.cwu50_panel)),
      let ret := result_of (ClockworkDrm.cwu50_probe k bw dsi) m in
      let evs := calls_of (ClockworkDrm.cwu50_probe k bw dsi) m in
      0 < ENOMEM k ->
      ret <= 0 /\ (panel_registered false evs = true <-> ret = 0))
  /\
  (forall (k : kernel_headers) (bw : drm_world) (dsi : handle)
          (m : machine (drm_env Cw.cwu50_panel)),
      let ret := result_of (CwDrm.cwu50_probe k bw dsi) m in
      let evs := calls_of (CwDrm.cwu50_probe k bw dsi) m in
      0 < ENOMEM k ->
      ret <= 0 /\ (panel_registered false evs = true <-> ret = 0)).
Proof.
  split; intros k bw dsi [[pc pf dd cn cl] h l]; cbv zeta; intro Hk;
    unfold result_of, calls_of.
  - unfold ClockworkDrm.cwu50_probe. run_drm.
    repeat ask_kernel; tidy_calls; cbn;
      (split; [lia|split; intro; (discriminate || lia || reflexivity)]).
  - unfold CwDrm.cwu50_probe. run_drm.
    repeat ask_kernel; tidy_calls; cbn;
      (split; [lia|split; intro; (discriminate || lia || reflexivity)]).
Qed.

(** [probe_registers_iff_success] at work: with a kernel where everything
    succeeds the panel is registered; when attaching fails with -19 it is
    not, in both drivers. *)
Lemma probe_registers_iff_success_witness :
  (result_of (ClockworkDrm.cwu50_probe linux_headers kernel_ok 0%nat)
             (unbound ClockworkDrm.zeroed) = 0 /\
   panel_registered false
     (calls_of (ClockworkDrm.cwu50_probe linux_headers kernel_ok 0%nat)
               (unbound ClockworkDrm.zeroed)) = true)
  /\
  (result_of (CwDrm.cwu50_probe linux_headers (kernel_attach_fails (-19)) 0%nat)
             (unbound CwDrm.zeroed) = -19 /\
   panel_registered false
     (calls_of (CwDrm.cwu50_probe linux_headers (kernel_attach_fails (-19)) 0%nat)
               (unbound CwDrm.zeroed)) <> true).
Proof.
  assert (Hk : 0 < ENOMEM linux_headers) by (cbn; lia).
  split; (split; [vm_compute; reflexivity|]).
  - apply (proj2 (proj1 probe_registers_iff_success linux_headers kernel_ok 0%nat
                    (unbound ClockworkDrm.zeroed) Hk)).
    vm_compute. reflexivity.
  - intro H.
    apply (proj2 (proj2 probe_registers_iff_success linux_headers
                    (kernel_attach_fails (-19)) 0%nat (unbound CwDrm.zeroed) Hk)) in H.
    vm_compute in H. discriminate H.
Defined.

(** ** What a successful probe leaves behind *)

(** The calls of a successful probe and the structure it fills in. *)
Lemma ck_probe_ok :
  forall (k : kernel_headers) (bw : drm_world) (dsi : handle)
         (m : machine (drm_env Clockwork.cwu50_panel)),
    0 < ENOMEM k ->
    result_of (ClockworkDrm.cwu50_probe k bw dsi) m = 0 ->
    exists g v i r1 r2 o r3,
      calls_of (ClockworkDrm.cwu50_probe k bw dsi) m
      = [(DevmKzalloc, Allocated);
         (DevmGpiodGet "reset" GPIOD_OUT_LOW, Pointer g);
         (DevmRegulatorGet "vci", Pointer v);
         (DevmRegulatorGet "iovcc", Pointer i);
         (MipiDsiSetDrvdata dsi, Done);
         (DrmPanelInit (DRM_MODE_CONNECTOR_DSI k), Done);
         (DrmPanelOfBacklight, Int r1);
         (OfDrmGetPanelOrientation (of_node (dsi_dev (ctx m))), Orientation r2 o);
         (DrmPanelAdd, Done);
         (DevmMipiDsiAttach dsi, Int r3)] /\
      panel_ctx (ctx (snd (ClockworkDrm.cwu50_probe k bw dsi m)))
      = {| Clockwork.dsi := dsi; Clockwork.vci := v; Clockwork.iovcc := i;
           Clockwork.reset_gpio := g;
           Clockwork.orientation := match o with Some x => x | None => 0 end |}.
Proof.
  intros k bw dsi [[pc pf dd cn cl] h l] Hk.
  unfold result_of, calls_of, ClockworkDrm.cwu50_probe. run_drm.
  repeat ask_kernel; intro Hret; try lia;
    try (exfalso; revert Hret; cbn; lia);
    tidy_calls;
    eexists _, _, _, _, _, _, _; split; reflexivity.
Qed.

Lemma cw_probe_ok :
  forall (k : kernel_headers) (bw : drm_world) (dsi : handle)
         (m : machine (drm_env Cw.cwu50_panel)),
    0 < ENOMEM k ->
    result_of (CwDrm.cwu50_probe k bw dsi) m = 0 ->
    exists g v i r1 r3,
      calls_of (CwDrm.cwu50_probe k bw dsi) m
      = [(DevmKzalloc, Allocated);
         (DevmGpiodGet "reset" GPIOD_OUT_HIGH, Pointer g);
         (DevmRegulatorGet "vci", Pointer v);
         (DevmRegulatorGet "iovcc", Pointer i);
         (MipiDsiSetDrvdata dsi, Done);
         (DrmPanelInit (DRM_MODE_CONNECTOR_DSI k), Done);
         (DrmPanelOfBacklight, Int r1);
         (DrmPanelAdd, Done);
         (MipiDsiAttach dsi, Int r3)] /\
      panel_ctx (ctx (snd (CwDrm.cwu50_probe k bw dsi m)))
      = {| Cw.dsi := dsi; Cw.vci := v; Cw.iovcc := i; Cw.reset_gpio := g;
           Cw.prepared := false |}.
Proof.
  intros k bw dsi [[pc pf dd cn cl] h l] Hk.
  unfold result_of, calls_of, CwDrm.cwu50_probe. run_drm.
  repeat ask_kernel; intro Hret; try lia;
    try (exfalso; revert Hret; cbn; lia);
    tidy_calls;
    eexists _, _, _, _, _; split; reflexivity.
Qed.

(** X15.  When [cwu50_probe] of panel-clockwork-cwu50.c returns 0, it made
    exactly these calls, in this order: allocate the structure, get the
    "reset" GPIO as an output driven low, get regulator "vci", get regulator
    "iovcc", set the driver data, initialise the panel as a DSI connector,
    look up the backlight, read the orientation from the device tree, add
    the panel, attach to the DSI host.  The structure then holds the DSI
    device it was called with, the GPIO obtained under "reset", the
    regulator obtained under "vci" in [vci] and the one obtained under
    "iovcc" in [iovcc], and the orientation that was stored (0 if none was).
    The DSI device is set to 4 lanes, RGB888, video + burst + sync-pulse
    mode and channel 0, and the panel asks to be prepared after the DSI
    host.  The connector is not touched. *)
Theorem ck_probe_success :
  forall (k : kernel_headers) (bw : drm_world) (dsi : handle)
         (m : machine (drm_env Clockwork.cwu50_panel)),
    let m' := snd (ClockworkDrm.cwu50_probe k bw dsi m) in
    0 < ENOMEM k ->
    result_of (ClockworkDrm.cwu50_probe k bw dsi) m = 0 ->
    exists g v i r1 r2 o r3,
      calls_of (ClockworkDrm.cwu50_probe k bw dsi) m
      = [(DevmKzalloc, Allocated);
         (DevmGpiodGet "reset" GPIOD_OUT_LOW, Pointer g);
         (DevmRegulatorGet "vci", Pointer v);
         (DevmRegulatorGet "iovcc", Pointer i);
         (MipiDsiSetDrvdata dsi, Done);
         (DrmPanelInit (DRM_MODE_CONNECTOR_DSI k), Done);
         (DrmPanelOfBacklight, Int r1);
         (OfDrmGetPanelOrientation (of_node (dsi_dev (ctx m))), Orientation r2 o);
         (DrmPanelAdd, Done);
         (DevmMipiDsiAttach dsi, Int r3)] /\
      0 <= r1 /\ 0 <= r2 /\ 0 <= r3 /\
      panel_ctx (ctx m')
      = {| Clockwork.dsi := dsi; Clockwork.vci := v; Clockwork.iovcc := i;
           Clockwork.reset_gpio := g;
           Clockwork.orientation := match o with Some x => x | None => 0 end |} /\
      dsi_dev (ctx m')
      = {| of_node := of_node (dsi_dev (ctx m));
           mode_flags := Z.lor (Z.lor (MIPI_DSI_MODE_VIDEO k)
                                      (MIPI_DSI_MODE_VIDEO_BURST k))
                               (MIPI_DSI_MODE_VIDEO_SYNC_PULSE k);
           format := MIPI_DSI_FMT_RGB888; lanes := 4; channel := 0 |} /\
      panel_prepare_first (ctx m') = true /\
      connector (ctx m') = connector (ctx m).
Proof.
  intros k bw dsi [[pc pf dd cn cl] h l]; cbv zeta; intros Hk.
  unfold result_of, calls_of, ClockworkDrm.cwu50_probe. run_drm.
  repeat ask_kernel; intro Hret; try lia;
    try (exfalso; revert Hret; cbn; lia);
    tidy_calls;
    eexists _, _, _, _, _, _, _; (split; [reflexivity|]);
    repeat split; assumption.
Qed.

(** X16.  When [cwu50_probe] of panel-cw-cwu50.c returns 0, it made
    exactly these calls, in this order: allocate the structure, get the
    "reset" GPIO as an output driven high, get regulator "vci", get
    regulator "iovcc", set the driver data, initialise the panel as a DSI
    connector, look up the backlight, add the panel, attach to the DSI host
    with [mipi_dsi_attach].  The structure then holds the DSI device it was
    called with, the GPIO obtained under "reset", the regulator obtained
    under "vci" in [vci] and the one obtained under "iovcc" in [iovcc], and
    [prepared] is false.  The DSI device is set to 4 lanes, RGB888 and
    video + burst + sync-pulse mode, its channel is left alone, and the
    panel asks to be prepared after the DSI host.  The connector is not
    touched. *)
Theorem cw_probe_success :
  forall (k : kernel_headers) (bw : drm_world) (dsi : handle)
         (m : machine (drm_env Cw.cwu50_panel)),
    let m' := snd (CwDrm.cwu50_probe k bw dsi m) in
    0 < ENOMEM k ->
    result_of (CwDrm.cwu50_probe k bw dsi) m = 0 ->
    exists g v i r1 r3,
      calls_of (CwDrm.cwu50_probe k bw dsi) m
      = [(DevmKzalloc, Allocated);
         (DevmGpiodGet "reset" GPIOD_OUT_HIGH, Pointer g);
         (DevmRegulatorGet "vci", Pointer v);
         (DevmRegulatorGet "iovcc", Pointer i);
         (MipiDsiSetDrvdata dsi, Done);
         (DrmPanelInit (DRM_MODE_CONNECTOR_DSI k), Done);
         (DrmPanelOfBacklight, Int r1);
         (DrmPanelAdd, Done);
         (MipiDsiAttach dsi, Int r3)] /\
      0 <= r1 /\ 0 <= r3 /\
      panel_ctx (ctx m')
      = {| Cw.dsi := dsi; Cw.vci := v; Cw.iovcc := i; Cw.reset_gpio := g;
           Cw.prepared := false |} /\
      dsi_dev (ctx m')
      = {| of_node := of_node (dsi_dev (ctx m));
           mode_flags := Z.lor (Z.lor (MIPI_DSI_MODE_VIDEO k)
                                      (MIPI_DSI_MODE_VIDEO_BURST k))
                               (MIPI_DSI_MODE_VIDEO_SYNC_PULSE k);
           format := MIPI_DSI_FMT_RGB888; lanes := 4;
           channel := channel (dsi_dev (ctx m)) |} /\
      panel_prepare_first (ctx m') = true /\
      connector (ctx m') = connector (ctx m).
Proof.
  intros k bw dsi [[pc pf dd cn cl] h l]; cbv zeta; intros Hk.
  unfold result_of, calls_of, CwDrm.cwu50_probe. run_drm.
  repeat ask_kernel; intro Hret; try lia;
    try (exfalso; revert Hret; cbn; lia);
    tidy_calls;
    eexists _, _, _, _, _; (split; [reflexivity|]);
    repeat split; assumption.
Qed.

(** ** Unbinding *)

Lemma panel_registered_app (b : bool) (a c : list drm_event) :
  panel_registered b (a ++ c) = panel_registered (panel_registered b a) c.
Proof. unfold panel_registered. apply fold_left_app. Qed.

(** X17.  [cwu50_remove] always takes the panel off the DRM core's list,
    whatever was called before.  In panel-clockwork-cwu50.c it makes that
    one call and nothing else.  In panel-cw-cwu50.c it first detaches from
    the DSI host and then removes the panel also when detaching failed; the
    failure is logged and, the function returning nothing, not reported. *)
Theorem remove_unregisters :
  (forall (dsi : handle) (m : machine (drm_env Clockwork.cwu50_panel))
          (before : list drm_event),
      let evs := calls_of (ClockworkDrm.cwu50_remove dsi) m in
      evs = [(DrmPanelRemove, Done)] /\
      panel_registered false (before ++ evs) = false)
  /\
  (forall (bw : drm_world) (dsi : handle) (m : machine (drm_env Cw.cwu50_panel))
          (before : list drm_event),
      let evs := calls_of (CwDrm.cwu50_remove bw dsi) m in
      exists r,
        evs = [(MipiDsiDetach dsi, Int r); (DrmPanelRemove, Done)] /\
        panel_registered false (before ++ evs) = false /\
        logs_of (CwDrm.cwu50_remove bw dsi) m
        = error_line_if_failed "failed to detach from DSI host: %d\n" r).
Proof.
  split.
  - intros dsi [[pc pf dd cn cl] h l] before. cbv zeta.
    unfold calls_of, ClockworkDrm.cwu50_remove. run_drm. tidy_calls.
    split; [reflexivity|]. now rewrite panel_registered_app.
  - intros bw dsi [[pc pf dd cn cl] h l] before. cbv zeta.
    unfold calls_of, logs_of, CwDrm.cwu50_remove, error_line_if_failed. run_drm.
    set (r := get_int bw cl (MipiDsiDetach dsi)). exists r.
    destruct (Z.ltb_spec r 0); run_drm; tidy_calls;
      rewrite panel_registered_app; repeat split; reflexivity.
Qed.

(** ** From probe to the first prepare *)

(** X18.  The handles a successful [cwu50_probe] obtained are the ones the
    lifecycle callbacks then drive.  In panel-clockwork-cwu50.c every
    successful [cwu50_prepare] on the freshly bound panel begins: enable the
    regulator obtained under "iovcc", sleep, enable the regulator obtained
    under "vci", then pulse the GPIO obtained under "reset".  In
    panel-cw-cwu50.c the freshly bound panel is unprepared, so its first
    [cwu50_prepare] is not skipped, and it begins likewise (without the
    sleep between the two regulators). *)
Theorem probe_then_prepare :
  (forall (k : kernel_headers) (bw : drm_world) (dsi : handle)
          (m : machine (drm_env Clockwork.cwu50_panel)) (w : world),
      let evs := calls_of (ClockworkDrm.cwu50_probe k bw dsi) m in
      let pm := bound_panel (snd (ClockworkDrm.cwu50_probe k bw dsi m)) in
      0 < ENOMEM k ->
      result_of (ClockworkDrm.cwu50_probe k bw dsi) m = 0 ->
      0 <= result_of (Clockwork.cwu50_prepare w) pm ->
      exists g v i,
        In (DevmGpiodGet "reset" GPIOD_OUT_LOW, Pointer g) evs /\
        In (DevmRegulatorGet "vci", Pointer v) evs /\
        In (DevmRegulatorGet "iovcc", Pointer i) evs /\
        firstn 4 (actions (events_of (Clockwork.cwu50_prepare w) pm))
        = [RegulatorEnable i; UsleepRange 1000 5000; RegulatorEnable v;
           GpiodSetValue g 1])
  /\
  (forall (k : kernel_headers) (bw : drm_world) (dsi : handle)
          (m : machine (drm_env Cw.cwu50_panel)) (w : world),
      let evs := calls_of (CwDrm.cwu50_probe k bw dsi) m in
      let pm := bound_panel (snd (CwDrm.cwu50_probe k bw dsi m)) in
      0 < ENOMEM k ->
      result_of (CwDrm.cwu50_probe k bw dsi) m = 0 ->
      0 <= result_of (Cw.cwu50_prepare w) pm ->
      exists g v i,
        In (DevmGpiodGet "reset" GPIOD_OUT_HIGH, Pointer g) evs /\
        In (DevmRegulatorGet "vci", Pointer v) evs /\
        In (DevmRegulatorGet "iovcc", Pointer i) evs /\
        Cw.prepared (ctx pm) = false /\
        firstn 3 (actions (events_of (Cw.cwu50_prepare w) pm))
        = [RegulatorEnable i; RegulatorEnable v; GpiodSetValue g 1]).
Proof.
  split; intros k bw dsi m w evs pm Hk Hret Hok; subst evs pm.
  - destruct (ck_probe_ok k bw dsi m Hk Hret)
      as (g & v & i & r1 & r2 & o & r3 & Hcalls & Hctx).
    exists g, v, i. rewrite Hcalls.
    repeat split; try (simpl; auto 12; fail).
    unfold bound_panel, result_of, events_of in *. rewrite Hctx in *.
    match goal with |- context [Clockwork.cwu50_prepare w ?pm] =>
      destruct (ck_prepare_cases w pm) as (ret & pevs & logs & Heq & Hcases);
      rewrite Heq in *; cbn [fst snd ctx] in *;
      rewrite (events_since_app pm _ pevs) by reflexivity
    end.
    destruct Hcases
      as [(a1 & H1 & -> & _)
         |[(a1 & a2 & ri & _ & H2 & -> & _)
          |[(a1 & a2 & n & x & rs & e & rv & ri & _ & _ & _ & _ & _ & He & -> & _)
           |(a1 & a2 & rs & _ & _ & _ & _ & _ & ->)]]]; try lia.
    reflexivity.
  - destruct (cw_probe_ok k bw dsi m Hk Hret)
      as (g & v & i & r1 & r3 & Hcalls & Hctx).
    exists g, v, i. rewrite Hcalls.
    split; [simpl; auto 12|]. split; [simpl; auto 12|]. split; [simpl; auto 12|].
    unfold bound_panel, result_of, events_of in *. rewrite Hctx in *.
    split; [reflexivity|].
    match goal with |- context [Cw.cwu50_prepare w ?pm] =>
      destruct (cw_prepare_cases w pm eq_refl)
        as (ret & pevs & logs & c' & Heq & Hcases);
      rewrite Heq in *; cbn [fst snd ctx] in *;
      rewrite (events_since_app pm _ pevs) by reflexivity
    end.
    destruct Hcases
      as [(a1 & H1 & -> & _)
         |[(a1 & a2 & ri & _ & H2 & -> & _)
          |[(a1 & a2 & n & x & rs & e & rv & ri & _ & _ & _ & _ & _ & He & -> & _)
           |[(a1 & a2 & rs & rx & rv & ri & _ & _ & _ & _ & Hx & -> & _)
            |(a1 & a2 & rs & rx & _ & _ & _ & _ & _ & _ & _ & ->)]]]]; try lia.
    reflexivity.
Qed.

(** [ck_probe_success] at work with a kernel where everything succeeds:
    the structure is the sample panel of the lifecycle theorems. *)
Lemma ck_probe_success_witness :
  result_of (ClockworkDrm.cwu50_probe linux_headers kernel_ok 0%nat)
            (unbound ClockworkDrm.zeroed) = 0 /\
  exists g v i r1 r2 o r3,
    calls_of (ClockworkDrm.cwu50_probe linux_headers kernel_ok 0%nat)
             (unbound ClockworkDrm.zeroed)
    = [(DevmKzalloc, Allocated);
       (DevmGpiodGet "reset" GPIOD_OUT_LOW, Pointer g);
       (DevmRegulatorGet "vci", Pointer v);
       (DevmRegulatorGet "iovcc", Pointer i);
       (MipiDsiSetDrvdata 0%nat, Done);
       (DrmPanelInit 16, Done);
       (DrmPanelOfBacklight, Int r1);
       (OfDrmGetPanelOrientation 7%nat, Orientation r2 o);
       (DrmPanelAdd, Done);
       (DevmMipiDsiAttach 0%nat, Int r3)] /\
    panel_ctx (ctx (snd (ClockworkDrm.cwu50_probe linux_headers kernel_ok 0%nat
                           (unbound ClockworkDrm.zeroed))))
    = {| Clockwork.dsi := 0%nat; Clockwork.vci := v; Clockwork.iovcc := i;
         Clockwork.reset_gpio := g;
         Clockwork.orientation := match o with Some x => x | None => 0 end |}.
Proof.
  assert (Hk : 0 < ENOMEM linux_headers) by (cbn; lia).
  assert (Hret : result_of (ClockworkDrm.cwu50_probe linux_headers kernel_ok 0%nat)
                           (unbound ClockworkDrm.zeroed) = 0)
    by (vm_compute; reflexivity).
  split; [exact Hret|].
  destruct (ck_probe_success linux_headers kernel_ok 0%nat
              (unbound ClockworkDrm.zeroed) Hk Hret)
    as (g & v & i & r1 & r2 & o & r3 & Hcalls & _ & _ & _ & Hctx & _).
  exists g, v, i, r1, r2, o, r3. split; [exact Hcalls|exact Hctx].
Defined.

(** [cw_probe_success] at work with a kernel where everything succeeds. *)
Lemma cw_probe_success_witness :
  result_of (CwDrm.cwu50_probe linux_headers kernel_ok 0%nat)
            (unbound CwDrm.zeroed) = 0 /\
  exists g v i,
    panel_ctx (ctx (snd (CwDrm.cwu50_probe linux_headers kernel_ok 0%nat
                           (unbound CwDrm.zeroed))))
    = {| Cw.dsi := 0%nat; Cw.vci := v; Cw.iovcc := i; Cw.reset_gpio := g;
         Cw.prepared := false |}.
Proof.
  assert (Hk : 0 < ENOMEM linux_headers) by (cbn; lia).
  assert (Hret : result_of (CwDrm.cwu50_probe linux_headers kernel_ok 0%nat)
                           (unbound CwDrm.zeroed) = 0)
    by (vm_compute; reflexivity).
  split; [exact Hret|].
  destruct (cw_probe_success linux_headers kernel_ok 0%nat
              (unbound CwDrm.zeroed) Hk Hret)
    as (g & v & i & r1 & r3 & _ & _ & _ & Hctx & _).
  exists g, v, i. exact Hctx.
Defined.

(** [probe_then_prepare] at work: probe with a kernel where everything
    succeeds, then prepare on hardware where every call succeeds. *)
Lemma probe_then_prepare_witness :
  (exists g v i,
      firstn 4 (actions (events_of (Clockwork.cwu50_prepare world_ok)
                  (bound_panel (snd (ClockworkDrm.cwu50_probe linux_headers kernel_ok
                                       0%nat (unbound ClockworkDrm.zeroed))))))
      = [RegulatorEnable i; UsleepRange 1000 5000; RegulatorEnable v;
         GpiodSetValue g 1])
  /\
  (exists g v i,
      firstn 3 (actions (events_of (Cw.cwu50_prepare world_ok)
                  (bound_panel (snd (CwDrm.cwu50_probe linux_headers kernel_ok
                                       0%nat (unbound CwDrm.zeroed))))))
      = [RegulatorEnable i; RegulatorEnable v; GpiodSetValue g 1]).
Proof.
  assert (Hk : 0 < ENOMEM linux_headers) by (cbn; lia).
  split.
  - destruct (proj1 probe_then_prepare linux_headers kernel_ok 0%nat
                (unbound ClockworkDrm.zeroed) world_ok Hk)
      as (g & v & i & _ & _ & _ & H).
    + vm_compute. reflexivity.
    + vm_compute. discriminate.
    + exists g, v, i. exact H.
  - destruct (proj2 probe_then_prepare linux_headers kernel_ok 0%nat
                (unbound CwDrm.zeroed) world_ok Hk)
      as (g & v & i & _ & _ & _ & _ & H).
    + vm_compute. reflexivity.
    + vm_compute. discriminate.
    + exists g, v, i. exact H.
Defined.

(** ** Orientation and modes *)

(** X19.  In panel-clockwork-cwu50.c the orientation read at probe time is
    the one reported ever after: on a panel bound by a successful
    [cwu50_probe], [cwu50_get_orientation] returns the value
    [of_drm_get_panel_orientation] stored during probe (0, from the zeroed
    allocation, if it stored none), and a [cwu50_get_modes] call that gets
    its mode passes that same value to
    [drm_connector_set_panel_orientation]. *)
Theorem ck_orientation_from_probe :
  forall (k : kernel_headers) (bw bw' : drm_world) (dsi : handle)
         (m : machine (drm_env Clockwork.cwu50_panel)),
    let m' := snd (ClockworkDrm.cwu50_probe k bw dsi m) in
    0 < ENOMEM k ->
    result_of (ClockworkDrm.cwu50_probe k bw dsi) m = 0 ->
    exists r o,
      In (OfDrmGetPanelOrientation (of_node (dsi_dev (ctx m))), Orientation r o)
         (calls_of (ClockworkDrm.cwu50_probe k bw dsi) m) /\
      let value := match o with Some x => x | None => 0 end in
      result_of ClockworkDrm.cwu50_get_orientation m' = value /\
      (result_of (ClockworkDrm.cwu50_get_modes k bw') m' = 1 ->
       exists r', last (calls_of (ClockworkDrm.cwu50_get_modes k bw') m')
                       (DevmKzalloc, Done)
                  = (DrmConnectorSetPanelOrientation value, Int r')).
Proof.
  intros k bw bw' dsi m m' Hk Hret. subst m'.
  destruct (ck_probe_ok k bw dsi m Hk Hret)
    as (g & v & i & r1 & r2 & o & r3 & Hcalls & Hctx).
  exists r2, o. rewrite Hcalls. split; [simpl; auto 12|].
  cbv zeta. revert Hctx.
  destruct (snd (ClockworkDrm.cwu50_probe k bw dsi m)) as [[pc pf dd cn cl] h l].
  cbn [ctx panel_ctx]. intros ->.
  unfold result_of, calls_of, ClockworkDrm.cwu50_get_orientation,
    ClockworkDrm.cwu50_get_modes.
  run_drm. split; [reflexivity|].
  ask_kernel; intro H1.
  - eexists. tidy_calls. reflexivity.
  - exfalso. revert H1. cbn. lia.
Qed.

(** [ck_orientation_from_probe] at work with a kernel where everything
    succeeds and rotation 0 is stored. *)
Lemma ck_orientation_from_probe_witness :
  result_of (ClockworkDrm.cwu50_probe linux_headers kernel_ok 0%nat)
            (unbound ClockworkDrm.zeroed) = 0 /\
  exists o,
    result_of ClockworkDrm.cwu50_get_orientation
              (snd (ClockworkDrm.cwu50_probe linux_headers kernel_ok 0%nat
                      (unbound ClockworkDrm.zeroed)))
    = match o with Some x => x | None => 0 end.
Proof.
  assert (Hk : 0 < ENOMEM linux_headers) by (cbn; lia).
  assert (Hret : result_of (ClockworkDrm.cwu50_probe linux_headers kernel_ok 0%nat)
                           (unbound ClockworkDrm.zeroed) = 0)
    by (vm_compute; reflexivity).
  split; [exact Hret|].
  destruct (ck_orientation_from_probe linux_headers kernel_ok kernel_ok 0%nat
              (unbound ClockworkDrm.zeroed) Hk Hret) as (r & o & _ & H & _).
  exists o. exact H.
Defined.

(** X20.  [cwu50_get_modes] either adds exactly one mode or changes
    nothing.  When [drm_mode_duplicate] returns [NULL] it returns
    [-ENOMEM], hands no mode to [drm_mode_probed_add], leaves the connector
    as it was and logs one error line with the resolution of the default
    mode.  Otherwise it returns 1 and hands exactly one mode to
    [drm_mode_probed_add]: the duplicate as [drm_mode_set_name] left it, with
    its type set to [DRM_MODE_TYPE_DRIVER | DRM_MODE_TYPE_PREFERRED]; the
    connector's physical size is that mode's [width_mm] and [height_mm];
    nothing is logged.  panel-clockwork-cwu50.c then also reports the
    panel's orientation to the connector.  The panel structure is never
    changed. *)
Theorem get_modes_outcomes :
  (forall (k : kernel_headers) (bw : drm_world)
          (m : machine (drm_env Clockwork.cwu50_panel)),
      let h := calls (ctx m) in
      let default := ClockworkDrm.cwu50_default_mode in
      let run := ClockworkDrm.cwu50_get_modes k bw in
      let m' := snd (run m) in
      panel_ctx (ctx m') = panel_ctx (ctx m) /\
      match dup_mode bw h default with
      | None =>
          result_of run m = - ENOMEM k /\
          probed_modes (calls_of run m) = [] /\
          connector (ctx m') = connector (ctx m) /\
          exists vrefresh,
            calls_of run m = [(DrmModeDuplicate default, Null);
                              (DrmModeVrefresh default, Int vrefresh)] /\
            logs_of run m = [Log KERN_ERR "Failed to add DRM mode %ux%u@%u\n"
                                 [720; 1280; vrefresh]]
      | Some copy =>
          let named := named_mode bw (h ++ [(DrmModeDuplicate default, ModeObject copy)])
                                  copy in
          let mode := set_mode_type (Z.lor (DRM_MODE_TYPE_DRIVER k)
                                           (DRM_MODE_TYPE_PREFERRED k)) named in
          result_of run m = 1 /\
          probed_modes (calls_of run m) = [mode] /\
          connector (ctx m') = {| display_info_width_mm := width_mm named;
                                  display_info_height_mm := height_mm named |} /\
          logs_of run m = [] /\
          exists r,
            calls_of run m
            = [(DrmModeDuplicate default, ModeObject copy);
               (DrmModeSetName copy, ModeObject named);
               (DrmModeProbedAdd mode, Done);
               (DrmConnectorSetPanelOrientation
                  (Clockwork.orientation (panel_ctx (ctx m))), Int r)]
      end)
  /\
  (forall (k : kernel_headers) (bw : drm_world)
          (m : machine (drm_env Cw.cwu50_panel)),
      let h := calls (ctx m) in
      let default := CwDrm.cwu50_default_mode in
      let run := CwDrm.cwu50_get_modes k bw in
      let m' := snd (run m) in
      panel_ctx (ctx m') = panel_ctx (ctx m) /\
      match dup_mode bw h default with
      | None =>
          result_of run m = - ENOMEM k /\
          probed_modes (calls_of run m) = [] /\
          connector (ctx m') = connector (ctx m) /\
          exists vrefresh,
            calls_of run m = [(DrmModeDuplicate default, Null);
                              (DrmModeVrefresh default, Int vrefresh)] /\
            logs_of run m = [Log KERN_ERR "failed to add mode %ux%u@%u\n"
                                 [720; 1280; vrefresh]]
      | Some copy =>
          let named := named_mode bw (h ++ [(DrmModeDuplicate default, ModeObject copy)])
                                  copy in
          let mode := set_mode_type (Z.lor (DRM_MODE_TYPE_DRIVER k)
                                           (DRM_MODE_TYPE_PREFERRED k)) named in
          result_of run m = 1 /\
          probed_modes (calls_of run m) = [mode] /\
          connector (ctx m') = {| display_info_width_mm := width_mm named;
                                  display_info_height_mm := height_mm named |} /\
          logs_of run m = [] /\
          calls_of run m
          = [(DrmModeDuplicate default, ModeObject copy);
             (DrmModeSetName copy, ModeObject named);
             (DrmModeProbedAdd mode, Done)]
      end).
Proof.
  split; intros k bw [[pc pf dd cn cl] h l]; cbv zeta.
  - unfold result_of, calls_of, logs_of, ClockworkDrm.cwu50_get_modes. run_drm.
    destruct (dup_mode bw cl ClockworkDrm.cwu50_default_mode) as [copy|];
      run_drm; tidy_calls; (split; [reflexivity|]).
    + repeat split. eexists. reflexivity.
    + repeat split. eexists. split; reflexivity.
  - unfold result_of, calls_of, logs_of, CwDrm.cwu50_get_modes. run_drm.
    destruct (dup_mode bw cl CwDrm.cwu50_default_mode) as [copy|];
      run_drm; tidy_calls; (split; [reflexivity|]).
    + repeat split.
    + repeat split. eexists. split; reflexivity.
Qed.

(** With a kernel that duplicates modes faithfully and leaves their fields
    alone when naming them, the one mode added is 720 x 1280 on a panel of
    64 mm x 114 mm, and that size is what the connector is told. *)
Example get_modes_on_faithful_kernel :
  let m' := snd (ClockworkDrm.cwu50_get_modes linux_headers kernel_ok
                   (unbound clockwork_panel)) in
  result_of (ClockworkDrm.cwu50_get_modes linux_headers kernel_ok)
            (unbound clockwork_panel) = 1 /\
  connector (ctx m') = {| display_info_width_mm := 64;
                          display_info_height_mm := 114 |} /\
  map (fun mode => (hdisplay mode, vdisplay mode, mode_type mode))
      (probed_modes (calls (ctx m')))
  = [(720, 1280, 72)].
Proof. vm_compute. repeat split. Qed.

(** ** The panel is not exposed before its resources exist *)

(** X21.  Whenever [cwu50_probe] adds the panel to the DRM core, it had
    before obtained the reset GPIO and both regulators as valid pointers and
    the backlight lookup had succeeded (and, in panel-clockwork-cwu50.c, the
    orientation had been read with success): no path adds a panel whose
    resources are missing. *)
Theorem probe_adds_after_acquiring :
  (forall (k : kernel_headers) (bw : drm_world) (dsi : handle)
          (m : machine (drm_env Clockwork.cwu50_panel)),
      let evs := calls_of (ClockworkDrm.cwu50_probe k bw dsi) m in
      In (DrmPanelAdd, Done) evs ->
      exists g v i r1 r2 o,
        firstn 8 evs
        = [(DevmKzalloc, Allocated);
           (DevmGpiodGet "reset" GPIOD_OUT_LOW, Pointer g);
           (DevmRegulatorGet "vci", Pointer v);
           (DevmRegulatorGet "iovcc", Pointer i);
           (MipiDsiSetDrvdata dsi, Done);
           (DrmPanelInit (DRM_MODE_CONNECTOR_DSI k), Done);
           (DrmPanelOfBacklight, Int r1);
           (OfDrmGetPanelOrientation (of_node (dsi_dev (ctx m))), Orientation r2 o)] /\
        0 <= r1 /\ 0 <= r2 /\
        nth_error evs 8 = Some (DrmPanelAdd, Done))
  /\
  (forall (k : kernel_headers) (bw : drm_world) (dsi : handle)
          (m : machine (drm_env Cw.cwu50_panel)),
      let evs := calls_of (CwDrm.cwu50_probe k bw dsi) m in
      In (DrmPanelAdd, Done) evs ->
      exists g v i r1,
        firstn 7 evs
        = [(DevmKzalloc, Allocated);
           (DevmGpiodGet "reset" GPIOD_OUT_HIGH, Pointer g);
           (DevmRegulatorGet "vci", Pointer v);
           (DevmRegulatorGet "iovcc", Pointer i);
           (MipiDsiSetDrvdata dsi, Done);
           (DrmPanelInit (DRM_MODE_CONNECTOR_DSI k), Done);
           (DrmPanelOfBacklight, Int r1)] /\
        0 <= r1 /\
        nth_error evs 7 = Some (DrmPanelAdd, Done)).
Proof.
  split; intros k bw dsi [[pc pf dd cn cl] h l]; cbv zeta; unfold calls_of.
  - unfold ClockworkDrm.cwu50_probe. run_drm.
    repeat ask_kernel; tidy_calls; intro Hin;
      try (exfalso; cases_in Hin; fail);
      eexists _, _, _, _, _, _; (split; [reflexivity|]); repeat split; assumption.
  - unfold CwDrm.cwu50_probe. run_drm.
    repeat ask_kernel; tidy_calls; intro Hin;
      try (exfalso; cases_in Hin; fail);
      eexists _, _, _, _; (split; [reflexivity|]); repeat split; assumption.
Qed.

(** [probe_adds_after_acquiring] at work: attaching fails, so the panel had
    been added (and is removed again). *)
Lemma probe_adds_after_acquiring_witness :
  In (DrmPanelAdd, Done)
     (calls_of (CwDrm.cwu50_probe linux_headers (kernel_attach_fails (-19)) 0%nat)
               (unbound CwDrm.zeroed)) /\
  nth_error (calls_of (CwDrm.cwu50_probe linux_headers (kernel_attach_fails (-19)) 0%nat)
                      (unbound CwDrm.zeroed)) 7
  = Some (DrmPanelAdd, Done) /\
  nth_error (calls_of (ClockworkDrm.cwu50_probe linux_headers kernel_ok 0%nat)
                      (unbound ClockworkDrm.zeroed)) 8
  = Some (DrmPanelAdd, Done).
Proof.
  assert (Hin : In (DrmPanelAdd, Done)
                   (calls_of (CwDrm.cwu50_probe linux_headers
                                (kernel_attach_fails (-19)) 0%nat)
                             (unbound CwDrm.zeroed)))
    by (vm_compute; do 7 right; left; reflexivity).
  split; [exact Hin|]. split.
  - destruct (proj2 probe_adds_after_acquiring linux_headers
                (kernel_attach_fails (-19)) 0%nat (unbound CwDrm.zeroed) Hin)
      as (g & v & i & r1 & _ & _ & H).
    exact H.
  - destruct (proj1 probe_adds_after_acquiring linux_headers kernel_ok 0%nat
                (unbound ClockworkDrm.zeroed))
      as (g & v & i & r1 & r2 & o & _ & _ & _ & H).
    + vm_compute. do 8 right. left. reflexivity.
    + exact H.
Defined.

